(** * CyberGuard front ends: a shallow embedding and its verified properties

    The development follows the JavaScript sources of the repository:
    - the legacy dashboard script ([analyzeURL], [loadStatistics],
      [updateDonutChart], [extractDomain], [getSeverity]),
    - the API service of the React application ([api.analyzeUrl]),
    - [lib/supabaseClient.js],
    - [App.jsx] ([LandingPage], [ProtectedRoute]),
    - the React [Dashboard] page.

    JavaScript numbers are binary64 values, given by the rationals they
    denote, and arithmetic rounds to the nearest of them; strings are
    sequences of 8-bit characters; a thrown exception is an explicit
    [Throw] completion.  Functions of the host platform that the sources
    call but do not define (the URL parser, [Number::toString],
    [StringToNumber], the real Supabase client) are fields of the class
    [Host]. *)

From Stdlib Require Import ZArith QArith Qround Qabs Qpower String Ascii List Bool Lia.
From Stdlib Require Import DecimalString Lqa.
Import ListNotations.

Set Warnings "-register-all".

Open Scope Z_scope.
Open Scope string_scope.

(* ================================================================== *)
(** * Part I.  The embedding                                            *)
(* ================================================================== *)

(** ** JavaScript values, completions and the host platform *)

Module JS.

(** An abrupt completion carries the thrown [Error]. *)
Inductive error : Type :=
  | TypeError (msg : string)
  | SyntaxError (msg : string)
  | Error (msg : string).

Definition message (e : error) : string :=
  match e with TypeError m | SyntaxError m | Error m => m end.

Inductive completion (A : Type) : Type :=
  | Normal (a : A)
  | Throw (e : error).
Arguments Normal {A} a.
Arguments Throw {A} e.

Definition bind {A B} (c : completion A) (k : A -> completion B) : completion B :=
  match c with
  | Normal a => k a
  | Throw e => Throw e
  end.

(** [try { body } catch { handler }] *)
Definition tryCatch {A} (body : completion A) (handler : error -> completion A)
  : completion A :=
  match body with
  | Normal a => Normal a
  | Throw e => handler e
  end.

(** A JavaScript number: NaN, an infinity ([Inf true] is [+Infinity])
    or a finite binary64 value, given by the rational it denotes.  The
    two zeros are not told apart: the sources print them alike, and no
    statement below rests on the sign of a zero. *)
Inductive number : Type :=
| NaN
| Inf (positive : bool)
| Num (q : Q).

(** JSON-shaped values.  [JNum q] is the number that the literal of
    value [q] denotes, which is the binary64 value nearest to [q] (see
    [toNumber]).  An object lists its own properties in the order in
    which they were created, each name once. *)
Inductive jsval : Type :=
  | JUndefined
  | JNull
  | JBool (b : bool)
  | JNum (q : Q)
  | JStr (s : string)
  | JArr (items : list jsval)
  | JObj (fields : list (string * jsval)).

(** *** Strings *)

(** Strings are sequences of 8-bit characters, the code points U+0000
    to U+00FF. *)

(** [s.startsWith(p)] *)
Definition startsWith (p s : string) : bool := String.prefix p s.

(** [s.substring(0, n)] *)
Definition substring0 (n : nat) (s : string) : string := String.substring 0 n s.

(** The code points of the productions WhiteSpace (TAB, VT, FF, SP,
    NBSP, the other space separators and ZWNBSP) and LineTerminator
    (LF, CR, LS, PS), which [String.prototype.trim] removes. *)
Definition whiteSpaceCodes : list N :=
  [9; 11; 12; 32; 160; 5760; 8192; 8193; 8194; 8195; 8196; 8197; 8198; 8199;
   8200; 8201; 8202; 8239; 8287; 12288; 65279]%N.

Definition lineTerminatorCodes : list N := [10; 13; 8232; 8233]%N.

Definition isWhiteSpace (c : ascii) : bool :=
  existsb (N.eqb (N_of_ascii c)) (whiteSpaceCodes ++ lineTerminatorCodes).

Fixpoint trimStart (s : string) : string :=
  match s with
  | EmptyString => EmptyString
  | String c s' => if isWhiteSpace c then trimStart s' else s
  end.

Fixpoint trimEnd (s : string) : string :=
  match s with
  | EmptyString => EmptyString
  | String c s' =>
      match trimEnd s' with
      | EmptyString => if isWhiteSpace c then EmptyString else String c EmptyString
      | t => String c t
      end
  end.

(** [s.trim()] *)
Definition trim (s : string) : string := trimEnd (trimStart s).


(** Truthiness of a string: [!s] is [true] exactly for [""]. *)
Definition truthyStr (s : string) : bool := negb (String.eqb s "").

(** *** Numbers *)

Definition Qlt_bool (x y : Q) : bool := negb (Qle_bool y x).

(** [2^e] for an integer [e] *)
Definition pow2 (e : Z) : Q := (2 ^ e)%Q.

(** The exponent of the binade of a positive rational: the [e] with
    [2^e <= q < 2^(e+1)]. *)
Definition ilog2 (q : Q) : Z :=
  let k := Z.log2 (Qnum q) - Z.log2 (Zpos (Qden q)) in
  if Qle_bool (pow2 k) q then k else k - 1.

(** The nearest integer, the even one on a tie. *)
Definition roundEven (x : Q) : Z :=
  let f := Qfloor x in
  match (x - inject_Z f ?= 1 # 2)%Q with
  | Lt => f
  | Gt => f + 1
  | Eq => if Z.even f then f else f + 1
  end.

(** The binary64 rounding of a positive rational, before the overflow
    test: a mantissa of 53 bits on the exponent of the binade, on the
    least exponent -1074 for subnormal values. *)
Definition exponent64 (a : Q) : Z := Z.max (ilog2 a - 52) (-1074).

Definition magnitude64 (a : Q) : Q :=
  let e := exponent64 a in
  (inject_Z (roundEven (a / pow2 e)) * pow2 e)%Q.

(** The Number value for a real: round to nearest, ties to even, with
    overflow to an infinity from [2^1024 - 2^970] on. *)
Definition round64 (q : Q) : number :=
  if Qeq_bool q 0 then Num 0
  else
    let r := Qred (magnitude64 (Qabs q)) in
    if Qle_bool (pow2 1024) r then Inf (Qlt_bool 0 q)
    else Num (if Qlt_bool 0 q then r else (- r)%Q).


(** The integer [n] of [Number.prototype.toFixed]: the integer for
    which [n / 10^f - |x|] is closest to zero, the larger one on a
    tie. *)
Definition toFixedInt (f : nat) (x : Q) : Z :=
  Qfloor (Qabs x * inject_Z (10 ^ Z.of_nat f) + (1 # 2)).

Fixpoint zeros (n : nat) : string :=
  match n with
  | O => EmptyString
  | S n' => String "0" (zeros n')
  end.

Definition digits (n : Z) : string :=
  NilZero.string_of_uint (N.to_uint (Z.to_N n)).

(** [x.toFixed(f)] for a finite [x] below 10^21 in magnitude. *)
Definition toFixed (f : nat) (x : Q) : string :=
  let m := digits (toFixedInt f x) in
  let m :=
    match f with
    | O => m
    | S _ =>
        let m := if Nat.leb (String.length m) f
                 then zeros (f + 1 - String.length m) ++ m else m in
        let k := String.length m in
        String.substring 0 (k - f) m ++ "." ++ String.substring (k - f) f m
    end in
  if Qlt_bool x 0 then "-" ++ m else m.

(** [- x], [x + y], [x - y], [x * y], [x / y] on numbers: the exact
    result, rounded. *)
Definition neg (x : number) : number :=
  match x with
  | NaN => NaN
  | Inf s => Inf (negb s)
  | Num a => Num (- a)
  end.

Definition add (x y : number) : number :=
  match x, y with
  | Num a, Num b => round64 (a + b)
  | Inf s, Num _ | Num _, Inf s => Inf s
  | Inf s, Inf t => if Bool.eqb s t then Inf s else NaN
  | _, _ => NaN
  end.

Definition sub (x y : number) : number := add x (neg y).

Definition mul (x y : number) : number :=
  match x, y with
  | Num a, Num b => round64 (a * b)
  | Inf s, Num b | Num b, Inf s =>
      if Qeq_bool b 0 then NaN else Inf (Bool.eqb s (Qlt_bool 0 b))
  | Inf s, Inf t => Inf (Bool.eqb s t)
  | _, _ => NaN
  end.

Definition div (x y : number) : number :=
  match x, y with
  | Num a, Num b =>
      if Qeq_bool b 0
      then (if Qeq_bool a 0 then NaN else Inf (Qlt_bool 0 a))
      else round64 (a / b)
  | Num _, Inf _ => Num 0
  | Inf s, Num b => Inf (Bool.eqb s (Qle_bool 0 b))
  | _, _ => NaN
  end.

(** [x >= y], [x > y]: false as soon as one side is NaN. *)
Definition ge (x y : number) : bool :=
  match x, y with
  | Num a, Num b => Qle_bool b a
  | Inf s, Inf t => s || negb t
  | Inf s, Num _ => s
  | Num _, Inf t => negb t
  | _, _ => false
  end.

Definition gt (x y : number) : bool :=
  match x, y with
  | Num a, Num b => Qlt_bool b a
  | Inf s, Inf t => s && negb t
  | Inf s, Num _ => s
  | Num _, Inf t => negb t
  | _, _ => false
  end.

(** [x <= y] *)
Definition le (x y : number) : bool := ge y x.

(** *** The host platform *)

(** A parsed URL, as far as the sources look at it. *)
Record URL : Type := { hostname : string }.

Class Host : Type := {
    (** [Number::toString] of a finite number *)
    numberToString : Q -> string;
    (** [StringToNumber] *)
    stringToNumber : string -> number;
    (** [new URL(s)]: [None] when the constructor throws a TypeError. *)
    parseURL : string -> option URL
  }.

Section WithHost.
Context {host : Host}.

(** [Number::toString] *)
Definition numberString (x : number) : string :=
  match x with
  | NaN => "NaN"
  | Inf true => "Infinity"
  | Inf false => "-Infinity"
  | Num q => numberToString q
  end.

(** [x.toFixed(f)] on a number; from 10^21 on it is [Number::toString]. *)
Definition numToFixed (f : nat) (x : number) : string :=
  match x with
  | Num q =>
      if Qle_bool (inject_Z (10 ^ 21)) (Qabs q) then numberToString q
      else toFixed f q
  | _ => numberString x
  end.

(** [ToString], for a value whose conversion completes (see
    [coercible]). *)
Fixpoint toStringJS (v : jsval) : string :=
  match v with
  | JUndefined => "undefined"
  | JNull => "null"
  | JBool true => "true"
  | JBool false => "false"
  | JNum q => numberString (round64 q)
  | JStr s => s
  | JArr items =>
      (fix join (l : list jsval) : string :=
         match l with
         | [] => ""
         | x :: rest =>
             let e := match x with
                      | JUndefined | JNull => ""
                      | _ => toStringJS x
                      end in
             match rest with
             | [] => e
             | _ :: _ => e ++ "," ++ join rest
             end
         end) items
  | JObj _ => "[object Object]"
  end.

(** [ToNumber], for a value whose conversion completes. *)
Definition toNumber (v : jsval) : number :=
  match v with
  | JUndefined => NaN
  | JNull => Num 0
  | JBool true => Num 1
  | JBool false => Num 0
  | JNum q => round64 q
  | JStr s => stringToNumber s
  | JArr _ | JObj _ => stringToNumber (toStringJS v)
  end.

(** A primitive value, as the operands of [+] are after
    [ToPrimitive]. *)
Inductive prim : Type :=
| PUndefined
| PNull
| PBool (b : bool)
| PNum (n : number)
| PStr (s : string).

Definition toPrimitive (v : jsval) : prim :=
  match v with
  | JUndefined => PUndefined
  | JNull => PNull
  | JBool b => PBool b
  | JNum q => PNum (round64 q)
  | JStr s => PStr s
  | JArr _ | JObj _ => PStr (toStringJS v)
  end.

Definition primToString (p : prim) : string :=
  match p with
  | PUndefined => "undefined"
  | PNull => "null"
  | PBool true => "true"
  | PBool false => "false"
  | PNum n => numberString n
  | PStr s => s
  end.

Definition primToNumber (p : prim) : number :=
  match p with
  | PUndefined => NaN
  | PNull => Num 0
  | PBool true => Num 1
  | PBool false => Num 0
  | PNum n => n
  | PStr s => stringToNumber s
  end.

(** [a + b]: string concatenation as soon as one operand is a string,
    numeric addition otherwise. *)
Definition plus (a b : prim) : prim :=
  match a, b with
  | PStr _, _ | _, PStr _ => PStr (primToString a ++ primToString b)
  | _, _ => PNum (add (primToNumber a) (primToNumber b))
  end.

End WithHost.

(** [ToPrimitive] completes.  A parsed object has no callable property
    of its own: [valueOf] of [Object.prototype] returns the object
    itself, so the conversion rests on [toString], and an own property
    of that name hides the one of [Object.prototype] and makes the
    conversion throw a TypeError.  An array is converted by joining its
    elements. *)
Fixpoint coercible (v : jsval) : bool :=
  match v with
  | JArr items =>
      (fix all (l : list jsval) : bool :=
         match l with
         | [] => true
         | x :: rest => coercible x && all rest
         end) items
  | JObj fields => negb (existsb (fun kv => String.eqb (fst kv) "toString") fields)
  | _ => true
  end.

Definition unconvertible : error :=
  TypeError "Cannot convert object to primitive value".

Section Conversions.
Context {host : Host}.

(** The conversions as the operators perform them: [ToNumber],
    [ToString] and [ToPrimitive] with their TypeError. *)
Definition coerceNumber (v : jsval) : completion number :=
  if coercible v then Normal (toNumber v) else Throw unconvertible.

Definition coerceString (v : jsval) : completion string :=
  if coercible v then Normal (toStringJS v) else Throw unconvertible.

Definition coercePrimitive (v : jsval) : completion prim :=
  if coercible v then Normal (toPrimitive v) else Throw unconvertible.

(** [v.toString()] *)
Definition callToString (v : jsval) : completion string :=
  match v with
  | JUndefined | JNull => Throw (TypeError "Cannot read properties of undefined")
  | _ => coerceString v
  end.

(** [new URL(s)] *)
Definition newURL (s : string) : completion URL :=
  match parseURL s with
  | Some u => Normal u
  | None => Throw (TypeError "Invalid URL")
  end.

End Conversions.

(** [ToBoolean] *)
Definition truthy (v : jsval) : bool :=
  match v with
  | JUndefined | JNull => false
  | JBool b => b
  | JNum q =>
      match round64 q with
      | Num r => negb (Qeq_bool r 0)
      | _ => true
      end
  | JStr s => truthyStr s
  | JArr _ | JObj _ => true
  end.

(** [a || b] *)
Definition or (a b : jsval) : jsval := if truthy a then a else b.

(** A parameter with a default value: [(v = d) => ...] *)
Definition defaultTo (v d : jsval) : jsval :=
  match v with
  | JUndefined => d
  | _ => v
  end.

Fixpoint lookup (k : string) (fields : list (string * jsval)) : jsval :=
  match fields with
  | [] => JUndefined
  | (k', v) :: rest => if String.eqb k k' then v else lookup k rest
  end.

(** [{ ...fields, [k]: v }] for a property [k] that [fields] has. *)
Fixpoint setField (k : string) (v : jsval) (fields : list (string * jsval))
  : list (string * jsval) :=
  match fields with
  | [] => []
  | (k', v') :: rest =>
      if String.eqb k k' then (k', v) :: rest else (k', v') :: setField k v rest
  end.

(** [v.k] for an own data property [k]; properties inherited from the
    prototypes of strings and arrays are not modelled. *)
Definition getField (v : jsval) (k : string) : completion jsval :=
  match v with
  | JUndefined | JNull => Throw (TypeError "Cannot read properties of undefined")
  | JObj fields => Normal (lookup k fields)
  | _ => Normal JUndefined
  end.

(** [v?.k] *)
Definition optField (v : jsval) (k : string) : jsval :=
  match v with
  | JObj fields => lookup k fields
  | _ => JUndefined
  end.

(** [v.length] for a value other than [undefined] and [null] *)
Definition lengthOf (v : jsval) : jsval :=
  match v with
  | JArr items => JNum (inject_Z (Z.of_nat (List.length items)))
  | JStr s => JNum (inject_Z (Z.of_nat (String.length s)))
  | JObj fields => lookup "length" fields
  | _ => JUndefined
  end.

(** [v?.toFixed(f)]: [undefined] on [undefined] and [null]; a value
    without a [toFixed] method raises a TypeError. *)
Definition optToFixed {host : Host} (f : nat) (v : jsval) : completion jsval :=
  match v with
  | JUndefined | JNull => Normal JUndefined
  | JNum q => Normal (JStr (numToFixed f (round64 q)))
  | _ => Throw (TypeError "toFixed is not a function")
  end.

(** [v === s] for a string literal [s] *)
Definition strictEqStr (v : jsval) (s : string) : bool :=
  match v with
  | JStr t => String.eqb t s
  | _ => false
  end.

Fixpoint indexed {A} (i : nat) (l : list A) : list (string * A) :=
  match l with
  | [] => []
  | x :: rest => (digits (Z.of_nat i), x) :: indexed (S i) rest
  end.

(** The array index that a property name denotes, if any: a canonical
    numeral below 2^32 - 1. *)
Definition arrayIndex (k : string) : option N :=
  match NilEmpty.uint_of_string k with
  | Some u =>
      let n := N.of_uint u in
      if String.eqb (digits (Z.of_N n)) k && (n <? 4294967295)%N
      then Some n else None
  | None => None
  end.

Fixpoint insertByIndex {A} (n : N) (x : A) (l : list (N * A)) : list (N * A) :=
  match l with
  | [] => [(n, x)]
  | (m, y) :: rest =>
      if (n <? m)%N then (n, x) :: l else (m, y) :: insertByIndex n x rest
  end.

(** The own properties of an object in the order of
    [OrdinaryOwnPropertyKeys]: the array indices in ascending order,
    then the other names in the order of their creation. *)
Definition ownProperties (fields : list (string * jsval)) : list (string * jsval) :=
  map snd
      (fold_left (fun sorted kv =>
                    match arrayIndex (fst kv) with
                    | Some n => insertByIndex n kv sorted
                    | None => sorted
                    end) fields [])
  ++ filter (fun kv => match arrayIndex (fst kv) with
                       | Some _ => false
                       | None => true
                       end) fields.

(** [Object.entries(v)] for a value other than [undefined] and [null];
    arrays and strings are keyed by their indices. *)
Definition entries (v : jsval) : list (string * jsval) :=
  match v with
  | JObj fields => ownProperties fields
  | JArr items => indexed 0 items
  | JStr s => indexed 0 (map (fun c => JStr (String c EmptyString))
                             (list_ascii_of_string s))
  | _ => []
  end.

(** [Object.keys(v)] and [Object.values(v)] *)
Definition keys (v : jsval) : list string := map fst (entries v).
Definition values (v : jsval) : list jsval := map snd (entries v).

(** [items.map(f)] for an [f] that may throw. *)
Fixpoint mapM {A B : Type} (f : A -> completion B) (l : list A)
  : completion (list B) :=
  match l with
  | [] => Normal []
  | x :: rest =>
      bind (f x) (fun y => bind (mapM f rest) (fun ys => Normal (y :: ys)))
  end.

End JS.

Notation "x <- c ;; k" := (JS.bind c (fun x => k))
  (at level 61, c at next level, right associativity).

(** ** React *)

Module React.
Import JS.

(** A value can be rendered as a child: an object that is not an
    element is rejected with an error, an array is rendered child by
    child, booleans, [null] and [undefined] render nothing. *)
Fixpoint validChild (v : jsval) : bool :=
  match v with
  | JObj _ => false
  | JArr items =>
      (fix all (l : list jsval) : bool :=
         match l with
         | [] => true
         | x :: rest => validChild x && all rest
         end) items
  | _ => true
  end.

Definition invalidChild : error :=
  Error "Objects are not valid as a React child".

(** [{v}] in the children of an element *)
Definition child (v : jsval) : completion jsval :=
  if validChild v then Normal v else Throw invalidChild.

End React.

(** ** Observable effects of the browser code *)

Module Browser.
Import JS.

(** An HTTP request as [fetch] receives it; the JSON body is kept
    structured ([JSON.stringify] is not modelled). *)
Record request : Type := {
  method : string;
  path : string;
  body : option jsval
}.

(** A response: its [ok] flag and what [response.json()] settles to. *)
Record response : Type := {
  ok : bool;
  json : completion jsval
}.

(** The network: what [fetch] settles to for each request; a rejected
    promise is a [Throw]. *)
Definition network : Type := request -> completion response.

Record legendItem : Type := {
  legendColor : string;
  legendText : string;
  legendValue : string
}.

Inductive effect : Type :=
| Alert (msg : string)
| Fetch (r : request)
| ConsoleError (label : string) (e : error)
| DomSet (element property value : string)
| Notification (title message type : string)
| SetTimeout (callback : string) (ms : Z)
| DonutUpdate (labels : list string) (data : list jsval)
| LegendSet (items : list legendItem)
| MiniCharts
| Navigate (to : string).

(** A computation of the browser code: the effects it performed, in
    order, and how it completed. *)
Definition run (A : Type) : Type := (list effect * completion A)%type.

Definition ret {A} (a : A) : run A := ([], Normal a).
Definition lift {A} (c : completion A) : run A := ([], c).
Definition emit (e : effect) : run unit := ([e], Normal tt).
Definition throw {A} (e : error) : run A := ([], Throw e).

Definition rbind {A B} (m : run A) (k : A -> run B) : run B :=
  match m with
  | (l, Normal a) => let (l', r) := k a in ((l ++ l')%list, r)
  | (l, Throw e) => (l, Throw e)
  end.

(** [try { m } catch (e) { h e }] *)
Definition rcatch {A} (m : run A) (h : error -> run A) : run A :=
  match m with
  | (l, Throw e) => let (l', r) := h e in ((l ++ l')%list, r)
  | (l, Normal a) => (l, Normal a)
  end.

(** [try { m } finally { f }] *)
Definition rfinally {A} (m : run A) (f : run unit) : run A :=
  let (l, r) := m in
  let (l', r') := f in
  ((l ++ l')%list, match r' with Throw e => Throw e | Normal _ => r end).

(** [Promise.all([m1, m2])] awaited: both computations are started and
    the result is the pair, or a rejection when one of them fails.  The
    effects of the first are listed before those of the second and the
    rejection of the first is the one reported when both fail; in the
    browser the replies can be handled in either order. *)
Definition rall2 {A B} (m1 : run A) (m2 : run B) : run (A * B) :=
  let (l1, r1) := m1 in
  let (l2, r2) := m2 in
  ((l1 ++ l2)%list,
   match r1, r2 with
   | Normal a, Normal b => Normal (a, b)
   | Throw e, _ => Throw e
   | _, Throw e => Throw e
   end).

(** [await fetch(path, init)] *)
Definition fetch (net : network) (r : request) : run response :=
  ([Fetch r], net r).

(** The requests a computation sent. *)
Fixpoint requests (l : list effect) : list request :=
  match l with
  | [] => []
  | Fetch r :: rest => r :: requests rest
  | _ :: rest => requests rest
  end.

End Browser.

Notation "x <~ c ;; k" := (Browser.rbind c (fun x => k))
  (at level 61, c at next level, right associativity).

(** ** [lib/api.js]: the API service of the React application *)

Module api.
Import JS Browser.

Section WithNetwork.
Variable net : network.

(** The body shared by the four methods: [fetch], the [ok] test, then
    [response.json()], inside a [try] whose handler logs and rethrows. *)
Definition call (r : request) (failure : string) : run jsval :=
  rcatch
    (response <~ fetch net r ;;
     _ <~ (if negb (ok response) then throw (Error failure) else ret tt) ;;
     lift (json response))
    (fun error =>
       _ <~ emit (ConsoleError "API Error:" error) ;;
       throw error).

(** The request of [analyzeUrl]. *)
Definition analyzeRequest (url : string) : request :=
  {| method := "POST"; path := "/api/analyze-url";
     body := Some (JObj [("url", JStr url)]) |}.

Definition analyzeUrl (url : string) : run jsval :=
  call (analyzeRequest url) "Analysis failed".

Definition getStats : run jsval :=
  call {| method := "GET"; path := "/api/stats"; body := None |}
       "Failed to fetch stats".

Context {host : Host}.

(** A method whose request carries the limit: the template literal
    [`...?limit=${limit}`] is evaluated inside the [try] block, before
    [fetch] is called. *)
Definition listing (resource : string) (limit : jsval) (failure : string)
  : run jsval :=
  rcatch
    (query <~ lift (coerceString limit) ;;
     response <~ fetch net {| method := "GET"; path := resource ++ query;
                              body := None |} ;;
     _ <~ (if negb (ok response) then throw (Error failure) else ret tt) ;;
     lift (json response))
    (fun error =>
       _ <~ emit (ConsoleError "API Error:" error) ;;
       throw error).

(** [getRecentThreats: async (limit = 10) => ...] *)
Definition getRecentThreats (limit : jsval) : run jsval :=
  listing "/api/recent-threats?limit=" (defaultTo limit (JNum 10))
          "Failed to fetch threats".

(** [getAnalysisLogs: async (limit = 20) => ...] *)
Definition getAnalysisLogs (limit : jsval) : run jsval :=
  listing "/api/analysis-logs?limit=" (defaultTo limit (JNum 20))
          "Failed to fetch analysis logs".

End WithNetwork.

End api.

(** ** The legacy dashboard script *)

Module LegacyDashboard.
Import JS Browser.

Definition API_BASE : string := "/api".

Section WithHost.
Context {host : Host}.

(** *** Utility functions *)

Definition formatNumber (num : jsval) : completion string :=
  n <- coerceNumber num ;;
  if ge n (Num 1000)
  then Normal (numToFixed 1 (div n (Num 1000)) ++ "K")
  else callToString num.

Definition extractDomain (url : string) : completion string :=
  tryCatch
    (urlObj <- newURL (if startsWith "http" url then url else "http://" ++ url) ;;
     Normal (hostname urlObj))
    (fun _ => Normal (substring0 30 url ++ "...")).

(** [getSeverity], for a score whose conversion to a number completes;
    where it does not, the first comparison throws (see [threatRow]). *)
Definition getSeverity (riskScore : jsval) : string :=
  if ge (toNumber riskScore) (Num 76) then "CRITICAL"
  else if ge (toNumber riskScore) (Num 51) then "HIGH"
  else if ge (toNumber riskScore) (Num 26) then "MEDIUM"
  else "LOW".

(** *** Charts *)

Definition colors : list string :=
  ["#8b5cf6"; "#3b82f6"; "#ec4899"; "#10b981"; "#f59e0b"].

Definition updateDonutLegend (labels : list string) (data : list jsval)
  : completion (list legendItem) :=
  mapM (fun '(index, label) =>
          value <- coerceNumber (nth index data JUndefined) ;;
          let percentage := numToFixed 0 (mul value (Num 100)) in
          Normal {| legendColor := nth index colors "undefined";
                    legendText := label;
                    legendValue := percentage ++ "%" |})
       (combine (seq 0 (List.length labels)) labels).

(** The default data of [updateDonutChart]. *)
Definition defaultThreatBreakdown : jsval :=
  JObj [ ("Brand Impersonation", JNum (45 # 100));
         ("Credential Harvesting", JNum (32 # 100));
         ("Malware Distribution", JNum (15 # 100));
         ("Social Engineering", JNum (5 # 100));
         ("Other / Unclassified", JNum (3 # 100)) ].

(** [updateDonutChart]: the chart is updated first (Chart.js is taken
    to accept the data), then the legend is computed and set. *)
Definition updateDonutChart (threatBreakdown : jsval) : run unit :=
  let threatBreakdown :=
    if negb (truthy threatBreakdown)
       || Nat.eqb (List.length (keys threatBreakdown)) 0
    then defaultThreatBreakdown
    else threatBreakdown in
  let labels := keys threatBreakdown in
  let data := values threatBreakdown in
  _ <~ emit (DonutUpdate labels data) ;;
  items <~ lift (updateDonutLegend labels data) ;;
  emit (LegendSet items).

(** *** Statistics *)

Definition setText (id text : string) : run unit :=
  emit (DomSet id "textContent" text).

(** The part of [loadStatistics] after [stats = data]: the metric
    cards, the donut chart and the trend charts. *)
Definition updateMetrics (data : jsval) : run unit :=
  total_analyzed <~ lift (getField data "total_analyzed") ;;
  text <~ lift (formatNumber total_analyzed) ;;
  _ <~ setText "totalAnalyzed" text ;;
  detection_accuracy <~ lift (getField data "detection_accuracy") ;;
  accuracy <~ lift (coerceNumber detection_accuracy) ;;
  _ <~ setText "accuracy" (numToFixed 0 (mul accuracy (Num 100)) ++ "%") ;;
  avg_response_time_ms <~ lift (getField data "avg_response_time_ms") ;;
  text <~ lift (coerceString avg_response_time_ms) ;;
  _ <~ setText "responseTime" ("<" ++ text ++ "ms") ;;
  today_count <~ lift (getField data "today_count") ;;
  text <~ lift (formatNumber today_count) ;;
  _ <~ setText "todayCount" ("+" ++ text ++ " today") ;;
  avg_response_time_ms <~ lift (getField data "avg_response_time_ms") ;;
  text <~ lift (coerceString avg_response_time_ms) ;;
  _ <~ setText "avgResponseTime" ("Average " ++ text ++ "ms") ;;
  threat_breakdown <~ lift (getField data "threat_breakdown") ;;
  _ <~ updateDonutChart threat_breakdown ;;
  emit MiniCharts.

(** [loadStatistics] returns the new value of the global [stats]
    (unchanged when the response could not be read) with its run. *)
Definition loadStatistics (net : network) (stats : jsval) : jsval * run unit :=
  let request := {| method := "GET"; path := API_BASE ++ "/stats"; body := None |} in
  let fetched := (response <~ fetch net request ;; lift (json response)) in
  (match snd fetched with Normal data => data | Throw _ => stats end,
   rcatch
     (data <~ fetched ;; updateMetrics data)
     (fun error => emit (ConsoleError "Failed to load statistics:" error))).

(** *** URL analysis *)

Definition setLoading (on : bool) : run unit :=
  if on then
    _ <~ emit (DomSet "analyzeBtn" "classList.add" "analyzing") ;;
    _ <~ emit (DomSet "btnText" "style.display" "none") ;;
    _ <~ emit (DomSet "spinner" "style.display" "block") ;;
    emit (DomSet "analyzeBtn" "disabled" "true")
  else
    _ <~ emit (DomSet "analyzeBtn" "classList.remove" "analyzing") ;;
    _ <~ emit (DomSet "btnText" "style.display" "inline") ;;
    _ <~ emit (DomSet "spinner" "style.display" "none") ;;
    emit (DomSet "analyzeBtn" "disabled" "false").

(** The success path of [analyzeURL], from the parsed [result] on. *)
Definition showResult (result : jsval) : run unit :=
  _ <~ emit (DomSet "confidenceDisplay" "style.display" "flex") ;;
  confidence <~ lift (getField result "confidence") ;;
  value <~ lift (coerceNumber confidence) ;;
  let confidencePercent := numToFixed 1 (mul value (Num 100)) in
  let confidenceLevel :=
    if gt value (round64 (8 # 10)) then "High"
    else if gt value (round64 (5 # 10)) then "Medium"
    else "Low" in
  _ <~ setText "confidenceValue"
         (confidencePercent ++ "% (" ++ confidenceLevel ++ ")") ;;
  prediction <~ lift (getField result "prediction") ;;
  _ <~ (if strictEqStr prediction "Phishing" then
          _ <~ emit (DomSet "alertBadge" "style.display" "flex") ;;
          risk_score <~ lift (getField result "risk_score") ;;
          risk <~ lift (coerceString risk_score) ;;
          threat_type <~ lift (getField result "threat_type") ;;
          type <~ lift (coerceString threat_type) ;;
          emit (Notification "PHISHING DETECTED!"
                  ("Risk Score: " ++ risk ++ "/100 | Threat Type: " ++ type)
                  "critical")
        else
          _ <~ emit (DomSet "alertBadge" "style.display" "none") ;;
          emit (Notification "URL appears legitimate"
                  ("Confidence: " ++ confidencePercent ++ "%")
                  "success")) ;;
  emit (SetTimeout "loadStatistics(); loadRecentThreats()" 500).

(** [analyzeURL], given the value of the input field.  The pictographs
    that open the notification titles are left out of the strings. *)
Definition analyzeURL (net : network) (urlInput : string) : run unit :=
  let url := trim urlInput in
  if negb (truthyStr url) then
    emit (Alert "Please enter a URL to analyze")
  else
    _ <~ setLoading true ;;
    rfinally
      (rcatch
         (response <~ fetch net {| method := "POST";
                                   path := API_BASE ++ "/analyze-url";
                                   body := Some (JObj [("url", JStr url)]) |} ;;
          _ <~ (if negb (ok response) then throw (Error "Analysis failed") else ret tt) ;;
          result <~ lift (json response) ;;
          showResult result)
         (fun error =>
            _ <~ emit (ConsoleError "Analysis error:" error) ;;
            emit (Notification "Analysis failed" "Please try again" "error")))
      (setLoading false).

End WithHost.

End LegacyDashboard.

(** ** [lib/supabaseClient.js] *)

Module supabaseClient.
Import JS Browser.

(** [import.meta.env]: a variable is a string or is absent. *)
Record env : Type := {
  VITE_SUPABASE_URL : option string;
  VITE_SUPABASE_ANON_KEY : option string
}.

(** The [auth] object of a client, as the application uses it.  A
    session is a JSON value, [null] when there is none; an
    authentication error is represented by its message. *)
Record auth : Type := {
  (** the [session] of the [{ data: { session } }] that [getSession()]
      resolves to, or its rejection *)
  getSession : completion jsval;
  (** the sessions that a callback registered with
      [onAuthStateChange] is later called with, in order *)
  onAuthStateChange : list jsval;
  signOut : completion unit;
  (** the [error] of the resolved [{ data, error }] ([None] for
      [null]), or the rejection *)
  signInWithPassword : string -> string -> completion (option string);
  signUp : string -> string -> completion (option string)
}.

Record client : Type := { auth_ : auth }.

(** [truthy] on an environment variable *)
Definition present (v : option string) : bool :=
  match v with
  | Some s => truthyStr s
  | None => false
  end.

Definition isSupabaseConfigured (e : env) : bool :=
  match VITE_SUPABASE_URL e with
  | Some supabaseUrl =>
      truthyStr supabaseUrl
      && startsWith "https://" supabaseUrl
      && present (VITE_SUPABASE_ANON_KEY e)
  | None => false
  end.

(** The object literal used when the configuration is incomplete. *)
Definition stub : client :=
  {| auth_ :=
       {| getSession := Normal JNull;
          onAuthStateChange := [];
          signOut := Normal tt;
          signInWithPassword := fun _ _ => Throw (Error "Supabase not configured");
          signUp := fun _ _ => Throw (Error "Supabase not configured") |} |}.

Section WithLibrary.
(** [createClient] of [@supabase/supabase-js] *)
Variable createClient : string -> string -> client.

Definition supabase (e : env) : client :=
  match VITE_SUPABASE_URL e, VITE_SUPABASE_ANON_KEY e with
  | Some supabaseUrl, Some supabaseAnonKey =>
      if isSupabaseConfigured e
      then createClient supabaseUrl supabaseAnonKey
      else stub
  | _, _ => stub
  end.

End WithLibrary.

End supabaseClient.

(** ** [pages/Login.jsx] and [pages/Signup.jsx] *)

Module Login.
Import JS Browser supabaseClient.

Record state : Type := {
  email : string;
  password : string;
  loading : bool;
  error : option string
}.

(** [handleLogin]: the state after the handler has finished and the
    navigation it performed. *)
Definition handleLogin (supabase : client) (st : state) : state * list effect :=
  let outcome :=
    bind (signInWithPassword (auth_ supabase) (email st) (password st))
         (fun error => match error with
                       | Some msg => Throw (Error msg)
                       | None => Normal tt
                       end) in
  match outcome with
  | Normal _ =>
      ({| email := email st; password := password st;
          loading := false; error := None |},
       [Navigate "/dashboard"])
  | Throw e =>
      ({| email := email st; password := password st;
          loading := false; error := Some (message e) |},
       [])
  end.

End Login.

Module Signup.
Import JS Browser supabaseClient.

Record state : Type := {
  email : string;
  password : string;
  firstName : string;
  lastName : string;
  loading : bool;
  error : option string
}.

Definition handleSignup (supabase : client) (st : state) : state * list effect :=
  let outcome :=
    bind (signUp (auth_ supabase) (email st) (password st))
         (fun error => match error with
                       | Some msg => Throw (Error msg)
                       | None => Normal tt
                       end) in
  match outcome with
  | Normal _ =>
      ({| email := email st; password := password st;
          firstName := firstName st; lastName := lastName st;
          loading := false; error := None |},
       [Alert "Account created! Check your email to verify your account.";
        Navigate "/login"])
  | Throw e =>
      ({| email := email st; password := password st;
          firstName := firstName st; lastName := lastName st;
          loading := false; error := Some (message e) |},
       [])
  end.

End Signup.

(** ** The analysis result card, shared by [LandingPage] and the
       analysis tab of [Dashboard] *)

Module ResultCard.
Import JS Browser.

(** What the card shows for a truthy [result]. *)
Record card : Type := {
  verdict : string;
  shownUrl : string;
  confidence : string;
  riskClassName : string;
  riskScore : jsval;
  threatType : jsval
}.

Section WithHost.
Context {host : Host}.

(** The class of the risk-score text, for a score whose conversion to a
    number completes:
    [risk_score > 70 ? 'text-critical' : risk_score > 30 ? 'text-warning' : 'text-success'] *)
Definition riskScoreClassName (risk_score : jsval) : string :=
  if gt (toNumber risk_score) (Num 70) then "text-critical"
  else if gt (toNumber risk_score) (Num 30) then "text-warning"
  else "text-success".

(** The class of the risk score in the threat feed and of the risk bar
    in the analysis logs, for a score whose conversion completes:
    [log.risk_score > 70 ? 'text-critical' : 'text-success'] *)
Definition logRiskClassName (risk_score : jsval) : string :=
  if gt (toNumber risk_score) (Num 70) then "text-critical" else "text-success".

(** [{result && ( ... )}]: what the card shows once its expressions
    have been evaluated (see [element]). *)
Definition render (url : string) (result : jsval) : option card :=
  if truthy result then
    Some {| verdict :=
              if strictEqStr (optField result "prediction") "Phishing"
              then "Phishing Detected" else "Legitimate URL";
            shownUrl := url;
            confidence :=
              numToFixed 1 (mul (toNumber (optField result "confidence")) (Num 100))
              ++ "%";
            riskClassName := riskScoreClassName (optField result "risk_score");
            riskScore := optField result "risk_score";
            threatType := or (optField result "threat_type") (JStr "None") |}
  else None.

(** The evaluation of [{result && ( ... )}] and the mounting of its
    element: the product and the comparison convert their operands,
    which can throw, and React rejects an object among the children. *)
Definition element (url : string) (result : jsval) : completion (option card) :=
  if truthy result then
    _ <- coerceNumber (optField result "confidence") ;;
    _ <- coerceNumber (optField result "risk_score") ;;
    _ <- React.child (optField result "risk_score") ;;
    _ <- React.child (or (optField result "threat_type") (JStr "None")) ;;
    Normal (render url result)
  else Normal None.

End WithHost.

(** [{error && ( ... )}] *)
Definition renderError (error : option string) : option string :=
  match error with
  | Some msg => if truthyStr msg then Some msg else None
  | None => None
  end.

End ResultCard.

(** ** [App.jsx] *)

Module App.
Import JS Browser supabaseClient.

(** *** [LandingPage] *)

Record state : Type := {
  url : string;
  isAnalyzing : bool;
  result : jsval;
  error : option string;
  session : jsval
}.

Definition initial : state :=
  {| url := ""; isAnalyzing := false; result := JNull; error := None;
     session := JNull |}.

Definition failure : string := "Analysis failed. Please try again.".

(** [handleAnalyze]: the state once the handler has finished, and the
    effects it had.  The dynamic [import('./lib/api')] is taken to
    resolve to the module. *)
Definition handleAnalyze (net : network) (st : state) : state * list effect :=
  if negb (truthyStr (url st)) then (st, [])
  else
    let (log, outcome) := api.analyzeUrl net (url st) in
    match outcome with
    | Normal data =>
        ({| url := url st; isAnalyzing := false; result := data;
            error := None; session := session st |}, log)
    | Throw _ =>
        ({| url := url st; isAnalyzing := false; result := JNull;
            error := Some failure; session := session st |}, log)
    end.

(** The two conditional blocks under the URL input. *)
Record view : Type := {
  errorMessage : option string;
  analysisResult : option ResultCard.card
}.

Definition render {host : Host} (st : state) : view :=
  {| errorMessage := ResultCard.renderError (error st);
     analysisResult := ResultCard.render (url st) (result st) |}.

(** *** [ProtectedRoute] *)

Module ProtectedRoute.

Record state : Type := {
  session : jsval;
  loading : bool
}.

Definition initial : state := {| session := JNull; loading := true |}.

(** The two callbacks registered by the effect. *)
Inductive event : Type :=
| SessionResolved (session : jsval)
| AuthStateChange (session : jsval).

Definition step (st : state) (ev : event) : state :=
  match ev with
  | SessionResolved s => {| session := s; loading := false |}
  | AuthStateChange s => {| session := s; loading := loading st |}
  end.

Definition run (events : list event) : state := fold_left step events initial.

Inductive element : Type :=
| Spinner
| NavigateTo (to : string)
| Children.

Definition render (st : state) : element :=
  if loading st then Spinner
  else if negb (truthy (session st)) then NavigateTo "/login"
  else Children.

(** The events a client can deliver to a mounted [ProtectedRoute]: the
    settlement of [getSession()], when it resolves, interleaved with
    the calls of the [onAuthStateChange] callback. *)
Definition resolution (c : client) : list event :=
  match getSession (auth_ c) with
  | Normal s => [SessionResolved s]
  | Throw _ => []
  end.

Definition changes (c : client) : list event :=
  map AuthStateChange (onAuthStateChange (auth_ c)).

Inductive interleaved {A : Type} : list A -> list A -> list A -> Prop :=
| interleaved_nil : interleaved [] [] []
| interleaved_left x l r m : interleaved l r m -> interleaved (x :: l) r (x :: m)
| interleaved_right x l r m : interleaved l r m -> interleaved l (x :: r) (x :: m).

(** A complete delivery, and what has been delivered at some moment. *)
Definition delivered (c : client) (events : list event) : Prop :=
  interleaved (resolution c) (changes c) events.

Definition deliveredSoFar (c : client) (events : list event) : Prop :=
  exists later, delivered c (events ++ later)%list.

End ProtectedRoute.

End App.

(** ** [pages/Dashboard.jsx] *)

Module Dashboard.
Import JS Browser.

Record state : Type := {
  activeTab : string;
  stats : jsval;
  recentLogs : jsval;
  allLogs : jsval;
  loading : bool;
  url : string;
  isAnalyzing : bool;
  result : jsval;
  error : option string
}.

Definition initial : state :=
  {| activeTab := "analysis"; stats := JNull; recentLogs := JArr [];
     allLogs := JArr []; loading := true; url := ""; isAnalyzing := false;
     result := JNull; error := None |}.

Definition failure : string := "Analysis failed. Please try again.".

(** The [catch] and [finally] blocks of [handleAnalyze]. *)
Definition failed (st : state) : state :=
  {| activeTab := activeTab st; stats := stats st; recentLogs := recentLogs st;
     allLogs := allLogs st; loading := loading st; url := url st;
     isAnalyzing := false; result := result st; error := Some failure |}.

Definition finished (st : state) : state :=
  {| activeTab := activeTab st; stats := stats st; recentLogs := recentLogs st;
     allLogs := allLogs st; loading := loading st; url := url st;
     isAnalyzing := false; result := result st; error := error st |}.

Section WithHost.
Context {host : Host}.

Definition handleAnalyze (net : network) (st : state) : state * list effect :=
  if negb (truthyStr (url st)) then (st, [])
  else
    let st0 :=
      {| activeTab := activeTab st; stats := stats st; recentLogs := recentLogs st;
         allLogs := allLogs st; loading := loading st; url := url st;
         isAnalyzing := true; result := JNull; error := None |} in
    let (log1, r1) := api.analyzeUrl net (url st) in
    match r1 with
    | Throw _ => (failed st0, log1)
    | Normal data =>
        let st1 :=
          {| activeTab := activeTab st0; stats := stats st0;
             recentLogs := recentLogs st0; allLogs := allLogs st0;
             loading := loading st0; url := url st0;
             isAnalyzing := true; result := data; error := None |} in
        let (log2, r2) := api.getStats net in
        match r2 with
        | Throw _ => (failed st1, (log1 ++ log2)%list)
        | Normal statsData =>
            let st2 :=
              {| activeTab := activeTab st1; stats := statsData;
                 recentLogs := recentLogs st1; allLogs := allLogs st1;
                 loading := loading st1; url := url st1;
                 isAnalyzing := true; result := data; error := None |} in
            let (log3, r3) :=
              rall2 (api.getRecentThreats net (JNum 20))
                    (api.getAnalysisLogs net (JNum 20)) in
            let log := (log1 ++ log2 ++ log3)%list in
            match r3 with
            | Throw _ => (failed st2, log)
            | Normal (threatsData, logsData) =>
                match getField threatsData "threats" with
                | Throw _ => (failed st2, log)
                | Normal threats =>
                    let st3 :=
                      {| activeTab := activeTab st2; stats := statsData;
                         recentLogs := or threats (JArr []);
                         allLogs := allLogs st2;
                         loading := loading st2; url := url st2;
                         isAnalyzing := true; result := data; error := None |} in
                    match getField logsData "logs" with
                    | Throw _ => (failed st3, log)
                    | Normal logs =>
                        (finished
                           {| activeTab := activeTab st3; stats := statsData;
                              recentLogs := recentLogs st3;
                              allLogs := or logs (JArr []);
                              loading := loading st3; url := url st3;
                              isAnalyzing := true; result := data;
                              error := None |}, log)
                    end
                end
            end
        end
    end.

(** The error banner and the result card of the analysis tab, once the
    card has been evaluated (see [analysisTab]). *)
Definition renderAnalysis (st : state) : option string * option ResultCard.card :=
  (ResultCard.renderError (error st), ResultCard.render (url st) (result st)).

(** The same, with the evaluation of the card. *)
Definition analysisTab (st : state)
  : completion (option string * option ResultCard.card) :=
  card <- ResultCard.element (url st) (result st) ;;
  Normal (ResultCard.renderError (error st), card).

(** *** The overview tab *)

Record statCard : Type := {
  label : string;
  value : jsval;
  trend : string;
  color : string
}.

(** The four cards of the stats grid, in the order in which their
    expressions are evaluated. *)
Definition statCards (stats : jsval) : completion (list statCard) :=
  today <- coerceString (or (optField stats "today_count") (JNum 0)) ;;
  accuracy <- coerceNumber (or (optField stats "detection_accuracy") (JNum 0)) ;;
  latency <- optToFixed 0 (optField stats "avg_response_time_ms") ;;
  Normal
    [ {| label := "Total Analyzed";
         value := or (optField stats "total_analyzed") (JNum 0);
         trend := "+" ++ today;
         color := "primary" |};
      {| label := "Phishing Detected";
         value := or (optField stats "phishing_detected") (JNum 0);
         trend := "Critical";
         color := "critical" |};
      {| label := "Accuracy";
         value := JStr (numToFixed 0 (mul accuracy (Num 100)) ++ "%");
         trend := "Stable";
         color := "success" |};
      {| label := "Avg Latency";
         value := JStr (toStringJS (or latency (JNum 0)) ++ "ms");
         trend := "Optimal";
         color := "secondary" |} ].

Definition COLORS : list string :=
  ["#8b5cf6"; "#3b82f6"; "#ec4899"; "#10b981"; "#f59e0b"].

(** An entry [{ name, value }] of the pie chart. *)
Definition getThreatData (breakdown : jsval) : list (string * jsval) :=
  if negb (truthy breakdown) then [] else entries breakdown.

(** [Object.values(stats?.threat_breakdown || {}).reduce((a, b) => a + b, 1)] *)
Definition legendTotal (stats : jsval) : completion prim :=
  fold_left (fun acc b =>
               a <- acc ;;
               p <- coercePrimitive b ;;
               Normal (plus a p))
            (values (or (optField stats "threat_breakdown") (JObj [])))
            (Normal (PNum (Num 1))).

(** The number whose [toFixed(0)] is shown next to a legend entry:
    [(entry.value / total) * 100].  The total is computed before the
    operands of the division are converted. *)
Definition legendShare (stats : jsval) (value : jsval) : completion number :=
  total <- legendTotal stats ;;
  v <- coerceNumber value ;;
  Normal (mul (div v (primToNumber total)) (Num 100)).

Record legendRow : Type := {
  rowColor : string;
  rowName : string;
  rowPercent : string
}.

(** The custom legend of the threat breakdown. *)
Definition legend (stats : jsval) : completion (list legendRow) :=
  mapM (fun '(index, (name, value)) =>
          share <- legendShare stats value ;;
          Normal {| rowColor := nth (index mod List.length COLORS) COLORS "undefined";
                    rowName := name;
                    rowPercent := numToFixed 0 share ++ "%" |})
       (let data := getThreatData (optField stats "threat_breakdown") in
        combine (seq 0 (List.length data)) data).

(** The overview tab: the stats grid, the total in the centre of the
    pie chart, the data handed to the pie chart and the legend. *)
Record overview : Type := {
  cards : list statCard;
  totalThreats : jsval;
  pie : list (string * jsval);
  legendRows : list legendRow
}.

(** The expressions of the overview tab are evaluated in the order of
    the markup; React then mounts the values of the cards and the total
    as children.  What the pie chart of recharts does with its data is
    not part of the sources. *)
Definition renderOverview (stats : jsval) : completion overview :=
  cards <- statCards stats ;;
  rows <- legend stats ;;
  _ <- mapM (fun card => React.child (value card)) cards ;;
  total <- React.child (or (optField stats "phishing_detected") (JNum 0)) ;;
  Normal {| cards := cards;
            totalThreats := total;
            pie := getThreatData (optField stats "threat_breakdown");
            legendRows := rows |}.


End WithHost.

(** A threat breakdown with numeric values, as a JSON object. *)
Definition numericBreakdown (b : list (string * Q)) : jsval :=
  JObj (map (fun e => (fst e, JNum (snd e))) b).


(** What [(value / total) * 100] computes on a numeric value. *)
Definition share (value : Q) (total : number) : number :=
  mul (div (round64 value) total) (Num 100).

(** The percentages of the legend, none when it cannot be computed. *)
Definition legendPercents {host : Host} (stats : jsval) : list string :=
  match legend stats with
  | Normal rows => map rowPercent rows
  | Throw _ => []
  end.


End Dashboard.

(** ** The attribution stage of the analysis pipeline *)

Module Pipeline.
Import JS.

(** Modelled from the spec: the two verdicts of a ClassificationResult. *)
Inductive Prediction : Type := Phishing | Legitimate.

(** Modelled from the spec: the closed ThreatTypeTaxonomy of the data
    model; the pipeline that produces results is not part of the front-end
    sources. *)
Inductive ThreatType : Type :=
| BrandImpersonation
| CredentialHarvesting
| MalwareDistribution
| SocialEngineering
| OtherUnclassified.

(** Modelled from the spec: the labels of the ThreatTypeTaxonomy, spelt as
    the data model lists them. *)
Definition label (t : ThreatType) : string :=
  match t with
  | BrandImpersonation => "Brand Impersonation"
  | CredentialHarvesting => "Credential Harvesting"
  | MalwareDistribution => "Malware Distribution"
  | SocialEngineering => "Social Engineering"
  | OtherUnclassified => "Other/Unclassified"
  end.

(** Modelled from the spec: the five members of the ThreatTypeTaxonomy, in
    the order of the data model. *)
Definition taxonomy : list string :=
  map label [BrandImpersonation; CredentialHarvesting; MalwareDistribution;
             SocialEngineering; OtherUnclassified].

(** Modelled from the spec: the lexical signals of the FeatureVector that
    the ThreatTypeClassifier reads (the feature extractor is absent from
    the sources). *)
Record Signals : Type := {
  brandToken : bool;
  credentialTokens : bool;
  malwareTokens : bool;
  socialTokens : bool
}.

(** Modelled from the spec: the ordered list of tagged matchers of the
    ThreatTypeClassifier, in priority order. *)
Definition matchers : list ((Signals -> bool) * ThreatType) :=
  [ (brandToken, BrandImpersonation);
    (credentialTokens, CredentialHarvesting);
    (malwareTokens, MalwareDistribution);
    (socialTokens, SocialEngineering) ].

(** Modelled from the spec: the matchers are tried in order and fall
    through to Other/Unclassified. *)
Fixpoint firstMatch (ms : list ((Signals -> bool) * ThreatType)) (s : Signals)
  : ThreatType :=
  match ms with
  | [] => OtherUnclassified
  | (matches, t) :: rest => if matches s then t else firstMatch rest s
  end.

(** Modelled from the spec: the ThreatTypeClassifier, which falls back to
    Other/Unclassified below the attribution threshold or when no rule
    matches. *)
Definition classifyThreatType (threshold : Q) (s : Signals) (confidence : Q)
  : ThreatType :=
  if Qlt_bool confidence threshold then OtherUnclassified
  else firstMatch matchers s.

(** Modelled from the spec: the ClassificationResult of the data model. *)
Record ClassificationResult : Type := {
  prediction : Prediction;
  confidence : Q;
  risk_score : Z;
  threat_type : option ThreatType;
  timestamp : string
}.

(** Modelled from the spec: the Attributing stage of the AnalysisPipeline,
    which invokes the ThreatTypeClassifier only for a Phishing verdict
    and completes the result. *)
Definition attribute (threshold : Q) (p : Prediction) (s : Signals)
  (confidence : Q) (risk_score : Z) (timestamp : string) : ClassificationResult :=
  {| prediction := p;
     confidence := confidence;
     risk_score := risk_score;
     threat_type :=
       match p with
       | Phishing => Some (classifyThreatType threshold s confidence)
       | Legitimate => None
       end;
     timestamp := timestamp |}.

(** Modelled from the spec: the JSON body of the [POST /api/analyze-url]
    response for a result, with the field names of the external
    interface. *)
Definition toJSON (r : ClassificationResult) : jsval :=
  JObj [ ("prediction",
          JStr match prediction r with
               | Phishing => "Phishing"
               | Legitimate => "Legitimate"
               end);
         ("confidence", JNum (confidence r));
         ("risk_score", JNum (inject_Z (risk_score r)));
         ("threat_type",
          match threat_type r with
          | Some t => JStr (label t)
          | None => JNull
          end);
         ("timestamp", JStr (timestamp r)) ].

End Pipeline.

(** ** The schema of the stats response and a host for the examples *)

(** The fields of the [GET /api/stats] response. *)
Definition statsFields : list string :=
  ["total_analyzed"; "phishing_detected"; "detection_accuracy";
   "avg_response_time_ms"; "today_count"; "threat_breakdown"].

(** Two stats objects carry the same schema fields. *)
Definition sameStats (d1 d2 : list (string * JS.jsval)) : Prop :=
  forall k, In k statsFields -> JS.lookup k d1 = JS.lookup k d2.

(** Two stats objects differ at most in the field [k]. *)
Definition differAtMost (k : string) (d1 d2 : list (string * JS.jsval)) : Prop :=
  forall k', k' <> k -> JS.lookup k' d1 = JS.lookup k' d2.

(** A display of the stats reads the field [k]: two responses that
    differ in that field alone are displayed differently. *)
Definition isRead {A : Type} (display : list (string * JS.jsval) -> A) (k : string)
  : Prop :=
  exists d1 d2, differAtMost k d1 d2 /\ display d1 <> display d2.

Module Sample.
Import JS.

(** The host part of a URL with an [http://] or [https://] scheme: the
    characters up to the first of [/ ? # :]. *)
Fixpoint hostPart (s : string) : string :=
  match s with
  | EmptyString => EmptyString
  | String c rest =>
      if existsb (Ascii.eqb c) ["/"; "?"; "#"; ":"]%char then EmptyString
      else String c (hostPart rest)
  end.

Definition afterScheme (s : string) : option string :=
  if String.prefix "http://" s then Some (String.substring 7 (String.length s) s)
  else if String.prefix "https://" s then Some (String.substring 8 (String.length s) s)
  else None.

(** A small stand-in for the platform, used by the examples only:
    integers print in decimal, no string converts to a number, and a URL
    parses when it has an http(s) scheme and a non-empty host without
    spaces. *)
Definition host : Host :=
  {| numberToString := fun q =>
       (if Qlt_bool q 0 then "-" else "") ++ digits (Qfloor (Qabs q));
     stringToNumber := fun _ => NaN;
     parseURL := fun s =>
       match afterScheme s with
       | Some rest =>
           let h := hostPart rest in
           if String.eqb h "" || existsb (Ascii.eqb " ") (list_ascii_of_string h)
           then None
           else Some {| hostname := h |}
       | None => None
       end |}.

(** A stats response. *)
Definition stats : list (string * jsval) :=
  [ ("total_analyzed", JNum 1250);
    ("phishing_detected", JNum 312);
    ("detection_accuracy", JNum (94 # 100));
    ("avg_response_time_ms", JNum 142);
    ("today_count", JNum 37);
    ("threat_breakdown",
     JObj [ ("Brand Impersonation", JNum 140);
            ("Credential Harvesting", JNum 100);
            ("Malware Distribution", JNum 47);
            ("Social Engineering", JNum 16);
            ("Other / Unclassified", JNum 9) ]) ].

(** A threat breakdown of six threat types with 100 detections each,
    and a stats response that carries it. *)
Definition even : list (string * Q) :=
  [("a", 100%Q); ("b", 100%Q); ("c", 100%Q); ("d", 100%Q); ("e", 100%Q);
   ("f", 100%Q)].


(** A client of a configured project with a user signed in. *)
Definition signedIn : supabaseClient.client :=
  {| supabaseClient.auth_ :=
       {| supabaseClient.getSession := Normal (JObj [("access_token", JStr "token")]);
          supabaseClient.onAuthStateChange := [JObj [("access_token", JStr "token")]];
          supabaseClient.signOut := Normal tt;
          supabaseClient.signInWithPassword := fun _ _ => Normal None;
          supabaseClient.signUp := fun _ _ => Normal None |} |}.

Definition configured : supabaseClient.env :=
  {| supabaseClient.VITE_SUPABASE_URL := Some "https://project.supabase.co";
     supabaseClient.VITE_SUPABASE_ANON_KEY := Some "anon" |}.

(** An environment whose URL has no [https://] scheme. *)
Definition insecure : supabaseClient.env :=
  {| supabaseClient.VITE_SUPABASE_URL := Some "http://localhost:54321";
     supabaseClient.VITE_SUPABASE_ANON_KEY := Some "anon" |}.

(** The result of the README for [http://secure-login-update.com/verify]. *)
Definition phishing : Pipeline.ClassificationResult :=
  Pipeline.attribute (6 # 10) Pipeline.Phishing
    {| Pipeline.brandToken := true; Pipeline.credentialTokens := true;
       Pipeline.malwareTokens := false; Pipeline.socialTokens := false |}
    (92 # 100) 92 "2026-02-05T10:35:57Z".

(** A server that answers every request with a validation error. *)
Definition refusing : Browser.network :=
  fun _ => Normal {| Browser.ok := false;
                     Browser.json := Normal (JObj [("detail", JStr "Invalid URL")]) |}.

(** A server that answers every request with the given JSON body. *)
Definition answering (body : jsval) : Browser.network :=
  fun _ => Normal {| Browser.ok := true; Browser.json := Normal body |}.

(** The landing page with the given text in the URL input. *)
Definition landing (url : string) : App.state :=
  {| App.url := url; App.isAnalyzing := false; App.result := JNull;
     App.error := None; App.session := JNull |}.

(** The dashboard, loaded, with the given text in the URL input. *)
Definition dashboard (url : string) : Dashboard.state :=
  {| Dashboard.activeTab := "analysis"; Dashboard.stats := JNull;
     Dashboard.recentLogs := JArr []; Dashboard.allLogs := JArr [];
     Dashboard.loading := false; Dashboard.url := url;
     Dashboard.isAnalyzing := false; Dashboard.result := JNull;
     Dashboard.error := None |}.

End Sample.

(** A label with its blanks dropped. *)
Fixpoint withoutSpaces (s : string) : string :=
  match s with
  | EmptyString => EmptyString
  | String c rest =>
      if Ascii.eqb c " " then withoutSpaces rest else String c (withoutSpaces rest)
  end.

(** The labels of the donut chart after [updateDonutChart]. *)
Definition donutLabels (updated : Browser.run unit) : list string :=
  match fst updated with
  | Browser.DonutUpdate labels _ :: _ => labels
  | _ => []
  end.

(** The band of the React colouring that corresponds to a severity label
    of the legacy dashboard: Critical is shown as critical, High and
    Medium as warning, Low as success. *)
Definition bandOf (severity : string) : string :=
  if String.eqb severity "CRITICAL" then "text-critical"
  else if String.eqb severity "LOW" then "text-success"
  else "text-warning".

(** The band of the React result views is a function of the severity
    bucket of the legacy dashboard, on the integers of [0,100]. *)
Definition bandFollowsSeverity {host : JS.Host} : Prop :=
  exists f : string -> string,
    forall r : Z, 0 <= r <= 100 ->
      ResultCard.riskScoreClassName (JS.JNum (inject_Z r))
      = f (LegacyDashboard.getSeverity (JS.JNum (inject_Z r))).

(** The severity bucket of the legacy dashboard is a function of the
    band of the React result views, on the integers of [0,100]. *)
Definition severityFollowsBand {host : JS.Host} : Prop :=
  exists g : string -> string,
    forall r : Z, 0 <= r <= 100 ->
      LegacyDashboard.getSeverity (JS.JNum (inject_Z r))
      = g (ResultCard.riskScoreClassName (JS.JNum (inject_Z r))).

(** ** Further string methods *)

Module Str.

Definition isUpper (c : ascii) : bool :=
  let n := nat_of_ascii c in Nat.leb 65 n && Nat.leb n 90.

Definition isLower (c : ascii) : bool :=
  let n := nat_of_ascii c in Nat.leb 97 n && Nat.leb n 122.

Definition toLowerChar (c : ascii) : ascii :=
  if isUpper c then ascii_of_nat (nat_of_ascii c + 32) else c.

Definition toUpperChar (c : ascii) : ascii :=
  if isLower c then ascii_of_nat (nat_of_ascii c - 32) else c.

Fixpoint mapChars (f : ascii -> ascii) (s : string) : string :=
  match s with
  | EmptyString => EmptyString
  | String c rest => String (f c) (mapChars f rest)
  end.

(** [s.toLowerCase()] and [s.toUpperCase()].  Strings are sequences of
    8-bit characters and the two mappings act on the letters A-Z and
    a-z, which is what JavaScript does on ASCII text. *)
Definition toLowerCase (s : string) : string := mapChars toLowerChar s.
Definition toUpperCase (s : string) : string := mapChars toUpperChar s.

(** [s.includes(needle)] *)
Fixpoint includes (needle s : string) : bool :=
  String.prefix needle s
  || match s with
     | EmptyString => false
     | String _ rest => includes needle rest
     end.

(** [s.replace(c, by)] for a one-character pattern: the first occurrence
    only. *)
Fixpoint replaceChar (c : ascii) (by_ : string) (s : string) : string :=
  match s with
  | EmptyString => EmptyString
  | String a rest =>
      if Ascii.eqb a c then by_ ++ rest else String a (replaceChar c by_ rest)
  end.

(** [s.split(sep)] for a one-character separator. *)
Fixpoint split (sep : ascii) (s : string) : list string :=
  match s with
  | EmptyString => [EmptyString]
  | String c rest =>
      if Ascii.eqb c sep then EmptyString :: split sep rest
      else match split sep rest with
           | [] => [String c EmptyString]
           | part :: parts => String c part :: parts
           end
  end.

(** [parts.join(sep)] *)
Fixpoint join (sep : string) (parts : list string) : string :=
  match parts with
  | [] => EmptyString
  | part :: rest =>
      match rest with
      | [] => part
      | _ :: _ => part ++ sep ++ join sep rest
      end
  end.

End Str.

(** ** The legacy dashboard script: the threat table, the notification
       and the chart data *)

Module RecentThreats.
Import JS Browser.

Definition brands : list string :=
  ["PayPal"; "Microsoft 365"; "Chase Bank"; "Amazon"; "Apple"; "Netflix"; "Google"].

(** The pattern looked for: [brand.toLowerCase().replace(' ', '')] *)
Definition needle (brand : string) : string :=
  Str.replaceChar " " "" (Str.toLowerCase brand).

(** The loop of [getTargetBrand]. *)
Fixpoint findBrand (urlLower : string) (candidates : list string) : string :=
  match candidates with
  | [] => "Unknown"
  | brand :: rest =>
      if Str.includes (needle brand) urlLower then brand
      else findBrand urlLower rest
  end.

Definition getTargetBrand (url : string) : string :=
  findBrand (Str.toLowerCase url) brands.

(** The background of [showNotification]. *)
Definition notificationBackground (type : string) : string :=
  if String.eqb type "critical" then "#ef4444"
  else if String.eqb type "success" then "#10b981"
  else "#3b82f6".

(** A row of the threat table. *)
Record row : Type := {
  time : string;
  domain : string;
  targetBrand : string;
  threatType : string;
  risk : string;
  severityClass : string;
  severity : string
}.

(** The new content of the table body. *)
Inductive table : Type :=
| Rows (rows : list row)
| NoThreats.

Section WithHost.
Context {host : Host}.
(** [new Date(v).toLocaleTimeString('en-US', ...)] *)
Variable toLocaleTimeString : jsval -> string.

(** [extractDomain(url)] on a value that need not be a string: without
    [startsWith] the [try] block throws, and without [substring] so
    does the handler. *)
Definition extractDomainOf (url : jsval) : completion string :=
  match url with
  | JStr s => LegacyDashboard.extractDomain s
  | JUndefined | JNull => Throw (TypeError "Cannot read properties of undefined")
  | _ => Throw (TypeError "url.substring is not a function")
  end.

(** The callback of [data.threats.map]: [new Date] converts the
    timestamp to a primitive, [getSeverity] compares the score with a
    number, and the template converts the threat type and the score to
    strings. *)
Definition threatRow (threat : jsval) : completion row :=
  timestamp <- getField threat "timestamp" ;;
  _ <- coercePrimitive timestamp ;;
  url <- getField threat "url" ;;
  domain <- extractDomainOf url ;;
  risk_score <- getField threat "risk_score" ;;
  _ <- coerceNumber risk_score ;;
  let severity := LegacyDashboard.getSeverity risk_score in
  threat_type <- getField threat "threat_type" ;;
  type <- coerceString (or threat_type (JStr "Unknown")) ;;
  risk <- coerceString risk_score ;;
  Normal {| time := toLocaleTimeString timestamp ++ " UTC";
            domain := domain;
            targetBrand := match url with
                           | JStr s => getTargetBrand s
                           | _ => "Unknown"
                           end;
            threatType := type;
            risk := risk ++ "/100";
            severityClass := "severity-" ++ Str.toLowerCase severity;
            severity := severity |}.

(** [data.threats && data.threats.length > 0] *)
Definition nonEmpty (threats : jsval) : completion bool :=
  if truthy threats then
    length <- coerceNumber (lengthOf threats) ;;
    Normal (gt length (Num 0))
  else Normal false.

(** [loadRecentThreats]: the run and the new table body, [None] when
    the table is left as it was. *)
Definition loadRecentThreats (net : network) : run (option table) :=
  rcatch
    (response <~ fetch net {| method := "GET";
                              path := LegacyDashboard.API_BASE
                                      ++ "/recent-threats?limit=10";
                              body := None |} ;;
     data <~ lift (json response) ;;
     threats <~ lift (getField data "threats") ;;
     filled <~ lift (nonEmpty threats) ;;
     if filled then
       match threats with
       | JArr items =>
           rows <~ lift (mapM threatRow items) ;;
           ret (Some (Rows rows))
       | _ => throw (TypeError "data.threats.map is not a function")
       end
     else ret (Some NoThreats))
    (fun error =>
       _ <~ emit (ConsoleError "Failed to load recent threats:" error) ;;
       ret None).

End WithHost.

End RecentThreats.

Module Charts.
Import JS.

(** [Math.max] and [Math.min] on finite numbers. *)
Definition max (a b : Q) : Q := if Qle_bool a b then b else a.
Definition min (a b : Q) : Q := if Qle_bool a b then a else b.

Section WithRandom.
(** The successive results of [Math.random()]; the functions take the
    number of draws already made. *)
Variable random : nat -> Q.

(** [Math.random() * (max - min) + min] *)
Definition between (draw : nat) (min max : Q) : number :=
  add (mul (round64 (random draw)) (sub (round64 max) (round64 min)))
      (round64 min).

Fixpoint generateScatterData (drawn count : nat) (minX maxX minY maxY : Q)
  : list (number * number) :=
  match count with
  | O => []
  | S count' =>
      (between drawn minX maxX, between (S drawn) minY maxY)
      :: generateScatterData (S (S drawn)) count' minX maxX minY maxY
  end.

(** The loop of [generateTrendData], from the current [value]; the
    step is taken in exact arithmetic, the clamp returns one of its
    arguments. *)
Fixpoint trendFrom (drawn count : nat) (value : Q) : list Q :=
  match count with
  | O => []
  | S count' =>
      let value := (value + (random drawn - (4 # 10)) * 10)%Q in
      let value := max 20%Q (min 80%Q value) in
      value :: trendFrom (S drawn) count' value
  end.

Definition generateTrendData (drawn count : nat) : list Q :=
  trendFrom drawn count 50%Q.

(** The three datasets of the scatter chart in [initializeCharts]. *)
Definition scatterDatasets : list (string * list (number * number)) :=
  [ ("High Risk Cluster", generateScatterData 0 20 60%Q 100%Q 0%Q 24%Q);
    ("Emerging Pattern", generateScatterData 40 15 40%Q 60%Q 0%Q 24%Q);
    ("Low Risk / False Positives", generateScatterData 70 25 0%Q 40%Q 0%Q 24%Q) ].

End WithRandom.

End Charts.

(** ** [pages/Dashboard.jsx]: loading, the profile and the threat feed *)

Module DashboardPage.
Import JS Browser.

(** The methods of [supabase.auth] that only the dashboard calls; an
    authentication error is represented by its message. *)
Record userApi : Type := {
  (** the [error] of the resolved [{ data, error }], or the rejection *)
  updateUser : jsval -> completion (option string);
  (** the [user] of the resolved [{ data: { user } }], or the rejection *)
  getUser : completion jsval
}.

Definition getInitials (email : string) : string :=
  if negb (truthyStr email) then "JD"
  else Str.toUpperCase (substring0 2 email).

(** [profileName.split(' ')[0]] *)
Definition firstName (profileName : string) : string :=
  hd EmptyString (Str.split " " profileName).

(** [profileName.split(' ').slice(1).join(' ')] *)
Definition lastName (profileName : string) : string :=
  Str.join " " (tl (Str.split " " profileName)).

(** The argument of [updateUser] in [handleUpdateProfile]. *)
Definition profileUpdate (profileName : string) : jsval :=
  JObj [("data", JObj [("first_name", JStr (firstName profileName));
                       ("last_name", JStr (lastName profileName))])].

Record profile : Type := {
  user : jsval;
  profileName : string;
  isEditing : bool;
  isSaving : bool
}.

(** [handleUpdateProfile]: the state once the handler has finished and
    what it logged. *)
Definition handleUpdateProfile (api : userApi) (st : profile)
  : profile * list effect :=
  let updated :=
    bind (updateUser api (profileUpdate (profileName st)))
         (fun error => match error with
                       | Some msg => Throw (Error msg)
                       | None => Normal tt
                       end) in
  match updated with
  | Throw e =>
      ({| user := user st; profileName := profileName st;
          isEditing := isEditing st; isSaving := false |},
       [ConsoleError "Error updating profile:" e])
  | Normal _ =>
      match getUser api with
      | Throw e =>
          ({| user := user st; profileName := profileName st;
              isEditing := false; isSaving := false |},
           [ConsoleError "Error updating profile:" e])
      | Normal updatedUser =>
          ({| user := updatedUser; profileName := profileName st;
              isEditing := false; isSaving := false |},
           [])
      end
  end.

Section WithHost.
Context {host : Host}.

(** The profile name computed when the user is loaded, for names whose
    conversion to a string completes:
    [user.user_metadata?.first_name ? `${first_name} ${last_name}` : 'Admin User'] *)
Definition loadedProfileName (user : jsval) : string :=
  let metadata := optField user "user_metadata" in
  if truthy (optField metadata "first_name")
  then toStringJS (optField metadata "first_name") ++ " "
       ++ toStringJS (optField metadata "last_name")
  else "Admin User".

(** The callback of [getUser().then] in the effect. *)
Definition userLoaded (loaded : jsval) (st : profile) : profile * list effect :=
  if truthy loaded then
    ({| user := loaded; profileName := loadedProfileName loaded;
        isEditing := isEditing st; isSaving := isSaving st |}, [])
  else (st, [Navigate "/"]).

(** [fetchData] of the effect: the state once it has finished and its
    effects. *)
Definition fetchData (net : network) (st : Dashboard.state)
  : Dashboard.state * list effect :=
  let loaded (stats recentLogs allLogs : jsval) : Dashboard.state :=
    {| Dashboard.activeTab := Dashboard.activeTab st;
       Dashboard.stats := stats;
       Dashboard.recentLogs := recentLogs;
       Dashboard.allLogs := allLogs;
       Dashboard.loading := false;
       Dashboard.url := Dashboard.url st;
       Dashboard.isAnalyzing := Dashboard.isAnalyzing st;
       Dashboard.result := Dashboard.result st;
       Dashboard.error := Dashboard.error st |} in
  let (log, settled) :=
    rall2 (api.getStats net)
          (rall2 (api.getRecentThreats net (JNum 20))
                 (api.getAnalysisLogs net (JNum 20))) in
  let failed stats recentLogs e :=
    (loaded stats recentLogs (Dashboard.allLogs st),
     (log ++ [ConsoleError "Failed to load dashboard data" e])%list) in
  match settled with
  | Throw e => failed (Dashboard.stats st) (Dashboard.recentLogs st) e
  | Normal (statsData, (threatsData, logsData)) =>
      match getField threatsData "threats" with
      | Throw e => failed statsData (Dashboard.recentLogs st) e
      | Normal threats =>
          match getField logsData "logs" with
          | Throw e => failed statsData (or threats (JArr [])) e
          | Normal logs =>
              (loaded statsData (or threats (JArr [])) (or logs (JArr [])), log)
          end
      end
  end.

(** A card of the live threat feed. *)
Record feedCard : Type := {
  alert : bool;
  feedUrl : jsval;
  feedPrediction : jsval;
  predictionClass : string;
  riskClass : string;
  feedRisk : jsval
}.

(** The callback of [recentLogs.map]: the comparison converts the risk
    score. *)
Definition feedCardOf (log : jsval) : completion feedCard :=
  prediction <- getField log "prediction" ;;
  _ <- coerceNumber (optField log "risk_score") ;;
  Normal {| alert := strictEqStr prediction "Phishing";
            feedUrl := optField log "url";
            feedPrediction := prediction;
            predictionClass :=
              if strictEqStr prediction "Phishing"
              then "text-critical" else "text-success";
            riskClass := ResultCard.logRiskClassName (optField log "risk_score");
            feedRisk := optField log "risk_score" |}.

(** The children that React mounts for a card: the URL, the prediction
    and the risk score. *)
Definition feedChildren (card : feedCard) : completion unit :=
  _ <- React.child (feedUrl card) ;;
  _ <- React.child (feedPrediction card) ;;
  _ <- React.child (feedRisk card) ;;
  Normal tt.

(** [recentLogs.length > 0] *)
Definition hasLogs (recentLogs : jsval) : completion bool :=
  match recentLogs with
  | JUndefined | JNull => Throw (TypeError "Cannot read properties of undefined")
  | _ =>
      length <- coerceNumber (lengthOf recentLogs) ;;
      Normal (gt length (Num 0))
  end.

(** The threat feed: the cards, or [None] for the line that says the
    network is clean. *)
Definition threatFeed (recentLogs : jsval) : completion (option (list feedCard)) :=
  filled <- hasLogs recentLogs ;;
  if filled then
    match recentLogs with
    | JArr items =>
        cards <- mapM feedCardOf items ;;
        _ <- mapM feedChildren cards ;;
        Normal (Some cards)
    | _ => Throw (TypeError "recentLogs.map is not a function")
    end
  else Normal None.

End WithHost.

End DashboardPage.

(** ** Projections of a run, used to state properties *)

(** The notifications raised, as (title, message, type). *)
Fixpoint notifications (l : list Browser.effect) : list (string * string * string) :=
  match l with
  | [] => []
  | Browser.Notification title message type :: rest =>
      (title, message, type) :: notifications rest
  | _ :: rest => notifications rest
  end.

(** The errors written to the console. *)
Fixpoint consoleErrors (l : list Browser.effect) : list JS.error :=
  match l with
  | [] => []
  | Browser.ConsoleError _ e :: rest => e :: consoleErrors rest
  | _ :: rest => consoleErrors rest
  end.

(** The writes to the DOM. *)
Fixpoint domWrites (l : list Browser.effect) : list (string * string * string) :=
  match l with
  | [] => []
  | Browser.DomSet element property value :: rest =>
      (element, property, value) :: domWrites rest
  | _ :: rest => domWrites rest
  end.

(** The types of the notifications raised. *)
Definition notificationTypes (l : list Browser.effect) : list string :=
  map snd (notifications l).

(** [v == null]: the value is [undefined] or [null]. *)
Definition nullish (v : JS.jsval) : bool :=
  match v with
  | JS.JUndefined | JS.JNull => true
  | _ => false
  end.

(** The elements written to, in order. *)
Definition written (l : list Browser.effect) : list string :=
  map (fun w => fst (fst w)) (domWrites l).

(** The request of the legacy [loadStatistics]. *)
Definition statsRequest : Browser.request :=
  {| Browser.method := "GET"; Browser.path := "/api/stats"; Browser.body := None |}.

(** The request of the legacy [loadRecentThreats]. *)
Definition recentThreatsRequest : Browser.request :=
  {| Browser.method := "GET"; Browser.path := "/api/recent-threats?limit=10";
     Browser.body := None |}.

(** The value is a string. *)
Definition isString (v : JS.jsval) : bool :=
  match v with
  | JS.JStr _ => true
  | _ => false
  end.

(** The user that [getUser] returns once the profile name has been
    saved: its metadata are the data of the update. *)
Definition savedUser (profileName : string) : JS.jsval :=
  JS.JObj [("user_metadata",
            JS.optField (DashboardPage.profileUpdate profileName) "data")].

(** The three refresh requests of the React dashboard. *)
Definition getStatsRequest : Browser.request :=
  {| Browser.method := "GET"; Browser.path := "/api/stats"; Browser.body := None |}.

Definition recentThreatsRequestOf {host : JS.Host} (limit : JS.jsval) : Browser.request :=
  {| Browser.method := "GET";
     Browser.path := "/api/recent-threats?limit=" ++ JS.toStringJS limit;
     Browser.body := None |}.

Definition analysisLogsRequestOf {host : JS.Host} (limit : JS.jsval) : Browser.request :=
  {| Browser.method := "GET";
     Browser.path := "/api/analysis-logs?limit=" ++ JS.toStringJS limit;
     Browser.body := None |}.

(** The value is a number. *)
Definition isNumber (v : JS.jsval) : bool :=
  match v with
  | JS.JNum _ => true
  | _ => false
  end.

(** The session an event of [ProtectedRoute] carries. *)
Definition eventSession (ev : App.ProtectedRoute.event) : JS.jsval :=
  match ev with
  | App.ProtectedRoute.SessionResolved s => s
  | App.ProtectedRoute.AuthStateChange s => s
  end.

(** The event is the settlement of [getSession()]. *)
Definition isResolution (ev : App.ProtectedRoute.event) : bool :=
  match ev with
  | App.ProtectedRoute.SessionResolved _ => true
  | App.ProtectedRoute.AuthStateChange _ => false
  end.

(** ** Further sample data for the examples *)

Module Fixtures.
Import JS.

(** A clock that prints every timestamp alike. *)
Definition clock : jsval -> string := fun _ => "10:35".

(** Two threats of a recent-threats response. *)
Definition threats : list jsval :=
  [ JObj [ ("url", JStr "http://paypal-secure-login.verify-account.xyz");
           ("prediction", JStr "Phishing");
           ("risk_score", JNum 92);
           ("threat_type", JStr "Brand Impersonation");
           ("timestamp", JStr "2026-02-05T10:35:57Z") ];
    JObj [ ("url", JStr "login.example.test/verify");
           ("prediction", JStr "Phishing");
           ("risk_score", JNum 51);
           ("threat_type", JNull);
           ("timestamp", JStr "2026-02-05T10:35:58Z") ] ].

Definition threatsBody : list (string * jsval) := [("threats", JArr threats)].

(** A server whose analysis works while every other endpoint answers
    with an error. *)
Definition statsDown : Browser.network :=
  fun r =>
    if String.eqb (Browser.path r) "/api/analyze-url"
    then Normal {| Browser.ok := true;
                   Browser.json := Normal (Pipeline.toJSON Sample.phishing) |}
    else Normal {| Browser.ok := false;
                   Browser.json := Normal (JObj [("detail", JStr "unavailable")]) |}.

End Fixtures.

(* ================================================================== *)
(** * Part II.  Verified properties                                     *)
(* ================================================================== *)

Import JS Browser.

(** ** Binary64 rounding *)

Section Binary64.
Local Open Scope Q_scope.


Ltac inj :=
  unfold Qle, Qlt; cbn [inject_Z Qnum Qden]; rewrite ?Z.mul_1_r; assumption || lia.

Lemma pow2_pos (e : Z) : 0 < pow2 e.
Proof. unfold pow2. apply Qpower_0_lt. reflexivity. Qed.

Lemma pow2_plus (a b : Z) : pow2 (a + b) == pow2 a * pow2 b.
Proof. unfold pow2. apply Qpower_plus. discriminate. Qed.

Lemma pow2_succ (a : Z) : pow2 (a + 1) == 2 * pow2 a.
Proof. rewrite pow2_plus. unfold pow2 at 2. rewrite Qpower_1_r. ring. Qed.

Lemma pow2_pred (a : Z) : pow2 a == 2 * pow2 (a - 1).
Proof. rewrite <- pow2_succ. now replace (a - 1 + 1)%Z with a by lia. Qed.

Lemma pow2_le (a b : Z) : (a <= b)%Z -> pow2 a <= pow2 b.
Proof. intros H. unfold pow2. apply Qpower_le_compat_l; [exact H | discriminate]. Qed.

Lemma pow2_lt (a b : Z) : (a < b)%Z -> pow2 a < pow2 b.
Proof. intros H. unfold pow2. apply Qpower_lt_compat_l; [exact H | reflexivity]. Qed.

Lemma pow2_lt_inv (a b : Z) : pow2 a < pow2 b -> (a < b)%Z.
Proof. intros H. unfold pow2 in H. apply Qpower_lt_compat_l_inv in H; [exact H | reflexivity]. Qed.

Lemma pow2_Z (a : Z) : (0 <= a)%Z -> pow2 a == inject_Z (2 ^ a).
Proof. intros H. unfold pow2. now rewrite Zpower_Qpower. Qed.

Lemma Qle_bool_true (a b : Q) : Qle_bool a b = true <-> a <= b.
Proof. apply Qle_bool_iff. Qed.

Lemma Qle_bool_false (a b : Q) : Qle_bool a b = false <-> b < a.
Proof.
  split; intros H.
  - apply Qnot_le_lt. intros Hle. apply Qle_bool_iff in Hle. congruence.
  - destruct (Qle_bool a b) eqn:E; [| reflexivity].
    apply Qle_bool_iff in E. exfalso. apply (Qlt_not_le _ _ H E).
Qed.

(** [ilog2 q] is the exponent of the binade of a positive [q]. *)
Lemma ilog2_spec (q : Q) : 0 < q -> pow2 (ilog2 q) <= q /\ q < pow2 (ilog2 q + 1).
Proof.
  intros Hq. destruct q as [n d].
  assert (Hn : (0 < n)%Z).
  { unfold Qlt in Hq. simpl in Hq. lia. }
  unfold ilog2. cbn [Qnum Qden].
  set (ln := Z.log2 n). set (ld := Z.log2 (Z.pos d)).
  assert (Hln : (0 <= ln)%Z) by apply Z.log2_nonneg.
  assert (Hld : (0 <= ld)%Z) by apply Z.log2_nonneg.
  destruct (Z.log2_spec n Hn) as [Hn1 Hn2]. fold ln in Hn1, Hn2.
  destruct (Z.log2_spec (Z.pos d) ltac:(lia)) as [Hd1 Hd2]. fold ld in Hd1, Hd2.
  assert (Hq' : n # d == inject_Z n / inject_Z (Z.pos d)) by apply Qmake_Qdiv.
  assert (HD : 0 < inject_Z (Z.pos d)) by (unfold Qlt; simpl; lia).
  assert (HA : pow2 ln == inject_Z (2 ^ ln)) by now apply pow2_Z.
  assert (HB : pow2 ld == inject_Z (2 ^ ld)) by now apply pow2_Z.
  assert (Hk : pow2 (ln - ld) == pow2 ln / pow2 ld).
  { unfold pow2. apply Qpower_minus. discriminate. }
  pose proof (pow2_pos ln) as HAp. pose proof (pow2_pos ld) as HBp.
  assert (HN1 : pow2 ln <= inject_Z n).
  { rewrite HA. rewrite <- Zle_Qle. exact Hn1. }
  assert (HN2 : inject_Z n < 2 * pow2 ln).
  { rewrite HA. change 2 with (inject_Z 2). rewrite <- inject_Z_mult, <- Zlt_Qlt.
    replace (Z.succ ln) with (ln + 1)%Z in Hn2 by lia.
    rewrite Z.pow_add_r in Hn2 by lia. lia. }
  assert (HD1 : pow2 ld <= inject_Z (Z.pos d)).
  { rewrite HB. rewrite <- Zle_Qle. exact Hd1. }
  assert (HD2 : inject_Z (Z.pos d) < 2 * pow2 ld).
  { rewrite HB. change 2 with (inject_Z 2). rewrite <- inject_Z_mult, <- Zlt_Qlt.
    replace (Z.succ ld) with (ld + 1)%Z in Hd2 by lia.
    rewrite Z.pow_add_r in Hd2 by lia. lia. }
  set (N := inject_Z n) in *. set (D := inject_Z (Z.pos d)) in *.
  set (A := pow2 ln) in *. set (B := pow2 ld) in *.
  assert (Hupper : N / D < 2 * (A / B)).
  { apply Qlt_shift_div_r; [exact HD |].
    assert (E : 2 * (A / B) * D == (2 * A * D) / B) by (field; lra).
    rewrite E. apply Qlt_shift_div_l; [exact HBp |]. nra. }
  assert (Hlower : A / B / 2 <= N / D).
  { apply Qle_shift_div_l; [exact HD |].
    assert (E : A / B / 2 * D == (A * D) / (2 * B)) by (field; lra).
    rewrite E. apply Qle_shift_div_r; [lra |]. nra. }
  destruct (Qle_bool (pow2 (ln - ld)) (n # d)) eqn:E.
  - apply Qle_bool_true in E. split; [exact E |].
    rewrite pow2_succ, Hk, Hq'. exact Hupper.
  - apply Qle_bool_false in E. split.
    + rewrite Hq'. 
      assert (E2 : pow2 (ln - ld - 1) == A / B / 2).
      { rewrite <- Hk. rewrite (pow2_pred (ln - ld)). field. }
      rewrite E2. exact Hlower.
    + replace (ln - ld - 1 + 1)%Z with (ln - ld)%Z by lia. exact E.
Qed.

Lemma ilog2_unique (q : Q) (e : Z) :
  pow2 e <= q -> q < pow2 (e + 1) -> ilog2 q = e.
Proof.
  intros H1 H2.
  assert (Hq : 0 < q) by (pose proof (pow2_pos e); lra).
  destruct (ilog2_spec q Hq) as [H3 H4].
  assert (Ha : (e < ilog2 q + 1)%Z) by (apply pow2_lt_inv; lra).
  assert (Hb : (ilog2 q < e + 1)%Z) by (apply pow2_lt_inv; lra).
  lia.
Qed.

Lemma ilog2_comp (a b : Q) : 0 < a -> a == b -> ilog2 a = ilog2 b.
Proof.
  intros Ha Hab. symmetry. destruct (ilog2_spec a Ha) as [H1 H2].
  apply ilog2_unique; rewrite <- Hab; assumption.
Qed.

Lemma ilog2_mono (a b : Q) : 0 < a -> a <= b -> (ilog2 a <= ilog2 b)%Z.
Proof.
  intros Ha Hab.
  destruct (ilog2_spec a Ha) as [H1 _].
  destruct (ilog2_spec b ltac:(lra)) as [_ H2].
  assert (H : (ilog2 a < ilog2 b + 1)%Z) by (apply pow2_lt_inv; lra).
  lia.
Qed.

(** *** Rounding to the nearest integer, ties to even *)

Lemma roundEven_comp (x y : Q) : x == y -> roundEven x = roundEven y.
Proof.
  intros H. unfold roundEven. rewrite (Qfloor_comp x y H).
  assert (E : (x - inject_Z (Qfloor y) ?= 1 # 2) = (y - inject_Z (Qfloor y) ?= 1 # 2)).
  { now rewrite H. }
  now rewrite E.
Qed.

Lemma roundEven_bounds (x : Q) : (Qfloor x <= roundEven x <= Qfloor x + 1)%Z.
Proof.
  unfold roundEven.
  destruct (x - inject_Z (Qfloor x) ?= 1 # 2); [destruct (Z.even (Qfloor x)) | |]; lia.
Qed.

Lemma roundEven_Z (n : Z) : roundEven (inject_Z n) = n.
Proof.
  unfold roundEven. rewrite Qfloor_Z.
  assert (E : (inject_Z n - inject_Z n ?= 1 # 2) = Lt).
  { apply (proj1 (Qlt_alt _ _)). lra. }
  now rewrite E.
Qed.

Lemma Qfloor_frac (x : Q) : 0 <= x - inject_Z (Qfloor x) /\ x - inject_Z (Qfloor x) < 1.
Proof.
  pose proof (Qfloor_le x). pose proof (Qlt_floor x) as H2.
  rewrite inject_Z_plus in H2. change (inject_Z 1) with 1 in H2. lra.
Qed.

Lemma roundEven_mono (x y : Q) : x <= y -> (roundEven x <= roundEven y)%Z.
Proof.
  intros H.
  pose proof (Qfloor_resp_le x y H) as Hf.
  pose proof (roundEven_bounds x) as Bx. pose proof (roundEven_bounds y) as By.
  destruct (Z.eq_dec (Qfloor x) (Qfloor y)) as [E | NE]; [| lia].
  unfold roundEven. rewrite <- E.
  destruct (x - inject_Z (Qfloor x) ?= 1 # 2) eqn:Cx;
    destruct (y - inject_Z (Qfloor x) ?= 1 # 2) eqn:Cy;
    try apply (proj2 (Qeq_alt _ _)) in Cx; try apply (proj2 (Qlt_alt _ _)) in Cx;
    try apply (proj2 (Qgt_alt _ _)) in Cx;
    try apply (proj2 (Qeq_alt _ _)) in Cy; try apply (proj2 (Qlt_alt _ _)) in Cy;
    try apply (proj2 (Qgt_alt _ _)) in Cy;
    try (exfalso; lra); destruct (Z.even (Qfloor x)); lia.
Qed.

Lemma roundEven_le (x : Q) (n : Z) : x <= inject_Z n -> (roundEven x <= n)%Z.
Proof. intros H. rewrite <- (roundEven_Z n). now apply roundEven_mono. Qed.

Lemma roundEven_ge (x : Q) (n : Z) : inject_Z n <= x -> (n <= roundEven x)%Z.
Proof. intros H. rewrite <- (roundEven_Z n). now apply roundEven_mono. Qed.

(** *** The binary64 grid *)

Lemma magnitude64_eq (a : Q) :
  magnitude64 a = inject_Z (roundEven (a / pow2 (exponent64 a))) * pow2 (exponent64 a).
Proof. reflexivity. Qed.

Lemma pow2_53 : pow2 53 == inject_Z (2 ^ 53).
Proof. now apply pow2_Z. Qed.

Lemma pow2_52 : pow2 52 == inject_Z (2 ^ 52).
Proof. now apply pow2_Z. Qed.

Lemma div_pow2_lt (a : Q) (e k : Z) : a < pow2 (e + k) -> a / pow2 e < pow2 k.
Proof.
  intros H. apply Qlt_shift_div_r; [apply pow2_pos |].
  rewrite <- pow2_plus. now replace (k + e)%Z with (e + k)%Z by lia.
Qed.

Lemma div_pow2_le (a : Q) (e k : Z) : a <= pow2 (e + k) -> a / pow2 e <= pow2 k.
Proof.
  intros H. apply Qle_shift_div_r; [apply pow2_pos |].
  rewrite <- pow2_plus. now replace (k + e)%Z with (e + k)%Z by lia.
Qed.

Lemma div_pow2_ge (a : Q) (e k : Z) : pow2 (e + k) <= a -> pow2 k <= a / pow2 e.
Proof.
  intros H. apply Qle_shift_div_l; [apply pow2_pos |].
  rewrite <- pow2_plus. now replace (k + e)%Z with (e + k)%Z by lia.
Qed.

(** The mantissa and the exponent that [magnitude64] computes. *)
Lemma magnitude64_form (a : Q) :
  0 < a ->
  let m := roundEven (a / pow2 (exponent64 a)) in
  let e := exponent64 a in
  (0 <= m <= 2 ^ 53)%Z /\ (-1074 <= e)%Z /\ (e = (-1074)%Z \/ (2 ^ 52 <= m)%Z).
Proof.
  intros Ha m e. unfold m, e.
  destruct (ilog2_spec a Ha) as [H1 H2].
  assert (He : (-1074 <= exponent64 a)%Z) by (unfold exponent64; lia).
  assert (He' : (ilog2 a + 1 <= exponent64 a + 53)%Z) by (unfold exponent64; lia).
  split; [split |].
  - apply roundEven_ge. change (inject_Z 0) with 0.
    apply Qle_shift_div_l; [apply pow2_pos | lra].
  - apply roundEven_le. rewrite <- pow2_53. apply Qlt_le_weak, div_pow2_lt.
    pose proof (pow2_le _ _ He'). lra.
  - split; [exact He |].
    destruct (Z.eq_dec (exponent64 a) (-1074)) as [E | NE]; [now left | right].
    assert (E : exponent64 a = (ilog2 a - 52)%Z) by (unfold exponent64 in *; lia).
    apply roundEven_ge. rewrite <- pow2_52. apply div_pow2_ge.
    rewrite E. now replace (ilog2 a - 52 + 52)%Z with (ilog2 a) by lia.
Qed.

Lemma magnitude64_nonneg (a : Q) : 0 < a -> 0 <= magnitude64 a.
Proof.
  intros Ha. rewrite magnitude64_eq.
  destruct (magnitude64_form a Ha) as [[Hm _] _].
  apply Qmult_le_0_compat; [| apply Qlt_le_weak, pow2_pos].
  change 0 with (inject_Z 0). inj.
Qed.

Lemma exponent64_mono (a b : Q) : 0 < a -> a <= b -> (exponent64 a <= exponent64 b)%Z.
Proof.
  intros Ha Hab. pose proof (ilog2_mono a b Ha Hab). unfold exponent64. lia.
Qed.

Lemma magnitude64_mono (a b : Q) : 0 < a -> a <= b -> magnitude64 a <= magnitude64 b.
Proof.
  intros Ha Hab. assert (Hb : 0 < b) by lra.
  rewrite !magnitude64_eq.
  pose proof (exponent64_mono a b Ha Hab) as He.
  destruct (Z.eq_dec (exponent64 a) (exponent64 b)) as [E | NE].
  - rewrite E. apply Qmult_le_compat_r; [| apply Qlt_le_weak, pow2_pos].
    rewrite <- Zle_Qle. apply roundEven_mono.
    apply Qmult_le_compat_r; [exact Hab |].
    apply Qlt_le_weak, Qinv_lt_0_compat, pow2_pos.
  - destruct (magnitude64_form a Ha) as [[_ Hma] _].
    destruct (magnitude64_form b Hb) as [[_ _] [_ [Eb | Hmb]]].
    { unfold exponent64 in *. lia. }
    set (ma := roundEven (a / pow2 (exponent64 a))) in *.
    set (mb := roundEven (b / pow2 (exponent64 b))) in *.
    apply Qle_trans with (inject_Z (2 ^ 53) * pow2 (exponent64 a)).
    { apply Qmult_le_compat_r; [| apply Qlt_le_weak, pow2_pos].
      inj. }
    apply Qle_trans with (inject_Z (2 ^ 52) * pow2 (exponent64 b)).
    { rewrite <- pow2_53, <- pow2_52, <- !pow2_plus. apply pow2_le. lia. }
    apply Qmult_le_compat_r; [| apply Qlt_le_weak, pow2_pos].
    inj.
Qed.

Lemma exponent64_comp (a b : Q) : 0 < a -> a == b -> exponent64 a = exponent64 b.
Proof. intros Ha Hab. unfold exponent64. now rewrite (ilog2_comp a b Ha Hab). Qed.

Lemma magnitude64_comp (a b : Q) : 0 < a -> a == b -> magnitude64 a == magnitude64 b.
Proof.
  intros Ha Hab. rewrite !magnitude64_eq.
  rewrite <- (exponent64_comp a b Ha Hab).
  rewrite (roundEven_comp (a / pow2 (exponent64 a)) (b / pow2 (exponent64 a)));
    [reflexivity |].
  unfold Qdiv. apply Qmult_comp; [exact Hab | reflexivity].
Qed.

(** A value on the grid is left as it is. *)
Lemma magnitude64_exact (m e : Z) :
  (0 < m <= 2 ^ 53)%Z -> (-1074 <= e)%Z -> (e = (-1074)%Z \/ (2 ^ 52 <= m)%Z) ->
  magnitude64 (inject_Z m * pow2 e) == inject_Z m * pow2 e.
Proof.
  intros [Hm0 Hm1] He Hnorm.
  set (r := inject_Z m * pow2 e).
  set (L := Z.log2 m).
  destruct (Z.log2_spec m Hm0) as [HL1 HL2]. fold L in HL1, HL2.
  assert (HL0 : (0 <= L)%Z) by apply Z.log2_nonneg.
  assert (HL53 : (L <= 53)%Z).
  { destruct (Z_le_gt_dec L 53) as [H | H]; [exact H | exfalso].
    assert (2 ^ 54 <= 2 ^ L)%Z by (apply Z.pow_le_mono_r; lia). lia. }
  pose proof (pow2_pos e) as Hpe.
  assert (Hlow : pow2 (L + e) <= r).
  { rewrite pow2_plus, (pow2_Z L HL0). unfold r.
    apply Qmult_le_compat_r; [| lra]. inj. }
  assert (Hupp : r < pow2 (L + e + 1)).
  { replace (L + e + 1)%Z with ((L + 1) + e)%Z by lia.
    rewrite pow2_plus, (pow2_Z (L + 1)) by lia. unfold r.
    apply Qmult_lt_compat_r; [exact Hpe |]. rewrite <- Zlt_Qlt.
    now replace (L + 1)%Z with (Z.succ L) by lia. }
  assert (Hlog : ilog2 r = (L + e)%Z) by now apply ilog2_unique.
  rewrite magnitude64_eq. unfold exponent64. rewrite Hlog.
  destruct (Z.eq_dec L 53) as [E53 | N53].
  - (* the mantissa is 2^53 *)
    assert (Em : m = (2 ^ 53)%Z) by (rewrite E53 in HL1; lia).
    rewrite E53. replace (Z.max (53 + e - 52) (-1074)) with (e + 1)%Z by lia.
    assert (Eq1 : r / pow2 (e + 1) == inject_Z (2 ^ 52)).
    { unfold r. rewrite Em, pow2_succ.
      change (inject_Z (2 ^ 53)) with (2 * inject_Z (2 ^ 52)).
      field. lra. }
    rewrite (roundEven_comp _ _ Eq1), roundEven_Z.
    unfold r. rewrite Em, pow2_succ.
    change (inject_Z (2 ^ 53)) with (2 * inject_Z (2 ^ 52)). ring.
  - assert (Ee : Z.max (L + e - 52) (-1074) = e).
    { destruct Hnorm as [-> | Hm52]; [lia |].
      assert (52 <= L)%Z; [| lia].
      destruct (Z_le_gt_dec 52 L) as [H | H]; [exact H | exfalso].
      assert (2 ^ (Z.succ L) <= 2 ^ 52)%Z by (apply Z.pow_le_mono_r; lia). lia. }
    rewrite Ee.
    assert (Eq1 : r / pow2 e == inject_Z m) by (unfold r; field; lra).
    rewrite (roundEven_comp _ _ Eq1), roundEven_Z. reflexivity.
Qed.

Lemma magnitude64_idem (a : Q) :
  0 < a -> 0 < magnitude64 a -> magnitude64 (magnitude64 a) == magnitude64 a.
Proof.
  intros Ha Hpos.
  destruct (magnitude64_form a Ha) as [[Hm0 Hm1] [He Hnorm]].
  rewrite magnitude64_eq in *.
  apply magnitude64_exact; try assumption.
  split; [| exact Hm1]. fold (exponent64 a).
  destruct (Z.eq_dec (roundEven (a / pow2 (exponent64 a))) 0) as [E | NE]; [| lia].
  rewrite E in Hpos. exfalso. change (inject_Z 0) with 0 in Hpos.
  rewrite Qmult_0_l in Hpos. inversion Hpos.
Qed.

(** *** [round64] *)

Lemma Qlt_bool_true (a b : Q) : Qlt_bool a b = true <-> a < b.
Proof.
  unfold Qlt_bool. rewrite negb_true_iff. apply Qle_bool_false.
Qed.

Lemma Qlt_bool_false_iff (a b : Q) : Qlt_bool a b = false <-> b <= a.
Proof.
  unfold Qlt_bool. rewrite negb_false_iff. apply Qle_bool_true.
Qed.

Lemma Qeq_bool_false (a b : Q) : Qeq_bool a b = false <-> ~ a == b.
Proof.
  split.
  - intros H E. apply Qeq_eq_bool in E. congruence.
  - intros H. destruct (Qeq_bool a b) eqn:E; [| reflexivity].
    apply Qeq_bool_eq in E. contradiction.
Qed.

Lemma round64_zero (q : Q) : q == 0 -> round64 q = Num 0.
Proof. intros H. unfold round64. now rewrite (Qeq_eq_bool _ _ H). Qed.

Lemma round64_pos (q : Q) :
  0 < q ->
  round64 q
  = if Qle_bool (pow2 1024) (Qred (magnitude64 q)) then Inf true
    else Num (Qred (magnitude64 q)).
Proof.
  intros Hq. unfold round64.
  assert (E0 : Qeq_bool q 0 = false) by (apply Qeq_bool_false; lra).
  assert (E1 : Qlt_bool 0 q = true) by now apply Qlt_bool_true.
  assert (E2 : Qred (magnitude64 (Qabs q)) = Qred (magnitude64 q)).
  { apply Qred_complete. apply magnitude64_comp.
    - rewrite Qabs_pos; lra.
    - apply Qabs_pos. lra. }
  now rewrite E0, E1, E2.
Qed.

Lemma round64_neg (q : Q) :
  q < 0 ->
  round64 q
  = if Qle_bool (pow2 1024) (Qred (magnitude64 (- q))) then Inf false
    else Num (- Qred (magnitude64 (- q))).
Proof.
  intros Hq. unfold round64.
  assert (E0 : Qeq_bool q 0 = false) by (apply Qeq_bool_false; lra).
  assert (E1 : Qlt_bool 0 q = false) by (apply Qlt_bool_false_iff; lra).
  assert (E2 : Qred (magnitude64 (Qabs q)) = Qred (magnitude64 (- q))).
  { apply Qred_complete. apply magnitude64_comp.
    - rewrite Qabs_neg; lra.
    - apply Qabs_neg. lra. }
  now rewrite E0, E1, E2.
Qed.

(** Rounding is monotone. *)
Lemma round64_mono (a b : Q) : a <= b -> le (round64 a) (round64 b) = true.
Proof.
  intros Hab. unfold le.
  destruct (Qlt_le_dec 0 a) as [Ha | Ha].
  - (* both positive *)
    assert (Hb : 0 < b) by lra.
    rewrite (round64_pos a Ha), (round64_pos b Hb).
    pose proof (magnitude64_mono a b Ha Hab) as Hm.
    pose proof (Qred_correct (magnitude64 a)) as Ra.
    pose proof (Qred_correct (magnitude64 b)) as Rb.
    destruct (Qle_bool (pow2 1024) (Qred (magnitude64 b))) eqn:Ob;
      destruct (Qle_bool (pow2 1024) (Qred (magnitude64 a))) eqn:Oa; cbn [ge orb negb];
      try reflexivity.
    + apply Qle_bool_true in Oa. apply Qle_bool_false in Ob. lra.
    + apply Qle_bool_true. lra.
  - destruct (Qlt_le_dec b 0) as [Hb | Hb].
    + (* both negative *)
      assert (Ha' : a < 0) by lra.
      rewrite (round64_neg a Ha'), (round64_neg b Hb).
      pose proof (magnitude64_mono (- b) (- a) ltac:(lra) ltac:(lra)) as Hm.
      pose proof (Qred_correct (magnitude64 (- a))) as Ra.
      pose proof (Qred_correct (magnitude64 (- b))) as Rb.
      destruct (Qle_bool (pow2 1024) (Qred (magnitude64 (- b)))) eqn:Ob;
        destruct (Qle_bool (pow2 1024) (Qred (magnitude64 (- a)))) eqn:Oa; cbn [ge orb negb];
        try reflexivity.
      * apply Qle_bool_true in Ob. apply Qle_bool_false in Oa. lra.
      * apply Qle_bool_true. lra.
    + (* a <= 0 <= b *)
      assert (Hlow : round64 a = Inf false
                     \/ exists r, round64 a = Num r /\ r <= 0).
      { destruct (Qeq_dec a 0) as [E | NE].
        - right. exists 0. rewrite (round64_zero a E). split; [reflexivity | lra].
        - assert (Ha' : a < 0) by lra.
          rewrite (round64_neg a Ha').
          destruct (Qle_bool _ _); [now left | right].
          eexists. split; [reflexivity |].
          rewrite (Qred_correct (magnitude64 (- a))).
          pose proof (magnitude64_nonneg (- a) ltac:(lra)). lra. }
      assert (Hupp : round64 b = Inf true
                     \/ exists r, round64 b = Num r /\ 0 <= r).
      { destruct (Qeq_dec b 0) as [E | NE].
        - right. exists 0. rewrite (round64_zero b E). split; [reflexivity | lra].
        - assert (Hb' : 0 < b) by lra.
          rewrite (round64_pos b Hb').
          destruct (Qle_bool _ _); [now left | right].
          eexists. split; [reflexivity |].
          rewrite (Qred_correct (magnitude64 b)).
          now apply magnitude64_nonneg. }
      destruct Hlow as [-> | [r [-> Hr]]]; destruct Hupp as [-> | [s [-> Hs]]];
        cbn [ge orb negb]; try reflexivity.
      apply Qle_bool_true. lra.
Qed.

(** The result of a rounding is a binary64 value: rounding leaves it
    as it is. *)
Lemma round64_idem (q r : Q) : round64 q = Num r -> round64 r = Num r.
Proof.
  intros H.
  destruct (Qeq_dec q 0) as [E | NE].
  { rewrite (round64_zero q E) in H. injection H as <-. reflexivity. }
  assert (Hgrid : forall a, 0 < a ->
            Qle_bool (pow2 1024) (Qred (magnitude64 a)) = false ->
            round64 (Qred (magnitude64 a)) = Num (Qred (magnitude64 a))
            /\ round64 (- Qred (magnitude64 a)) = Num (- Qred (magnitude64 a))).
  { intros a Ha Ho.
    pose proof (Qred_correct (magnitude64 a)) as Ra.
    pose proof (magnitude64_nonneg a Ha) as Hn.
    destruct (Qeq_dec (magnitude64 a) 0) as [Z | NZ].
    - assert (E0 : Qred (magnitude64 a) = 0).
      { change 0 with (Qred 0). now apply Qred_complete. }
      rewrite E0. split; reflexivity.
    - assert (Hp : 0 < magnitude64 a) by lra.
      pose proof (magnitude64_idem a Ha Hp) as Hi.
      assert (E1 : Qred (magnitude64 (Qred (magnitude64 a))) = Qred (magnitude64 a)).
      { apply Qred_complete. rewrite <- Hi at 2.
        apply magnitude64_comp; [lra | exact Ra]. }
      split.
      + rewrite round64_pos by lra. now rewrite E1, Ho.
      + rewrite round64_neg by lra.
        assert (E2 : Qred (magnitude64 (- - Qred (magnitude64 a)))
                     = Qred (magnitude64 a)).
        { rewrite <- E1 at 2. apply Qred_complete.
          apply magnitude64_comp; [lra | ring]. }
        now rewrite E2, Ho. }
  destruct (Qlt_le_dec 0 q) as [Hq | Hq].
  - rewrite (round64_pos q Hq) in H.
    destruct (Qle_bool _ _) eqn:Ho; [discriminate |].
    injection H as <-. now apply Hgrid.
  - assert (Hq' : q < 0) by lra.
    rewrite (round64_neg q Hq') in H.
    destruct (Qle_bool _ _) eqn:Ho; [discriminate |].
    injection H as <-. apply Hgrid; [lra | exact Ho].
Qed.

(** Between two binary64 values the rounding stays finite and between
    them. *)
Lemma round64_between (lo hi q : Q) :
  round64 lo = Num lo -> round64 hi = Num hi -> lo <= q -> q <= hi ->
  exists r, round64 q = Num r /\ lo <= r /\ r <= hi.
Proof.
  intros Hlo Hhi H1 H2.
  pose proof (round64_mono lo q H1) as M1.
  pose proof (round64_mono q hi H2) as M2.
  rewrite Hlo in M1. rewrite Hhi in M2. unfold le in *.
  destruct (round64 q) as [| [] | r] eqn:E; cbn [ge orb negb] in *; try discriminate.
  exists r. apply Qle_bool_true in M1. apply Qle_bool_true in M2.
  repeat split; assumption.
Qed.

Lemma round64_not_NaN (q : Q) : round64 q <> NaN.
Proof.
  unfold round64. destruct (Qeq_bool q 0); [discriminate |].
  destruct (Qle_bool _ _); discriminate.
Qed.

End Binary64.

(** ** Comparisons on integer-valued numbers *)

Lemma ge_inject_Z (a b : Z) : ge (Num (inject_Z a)) (Num (inject_Z b)) = (b <=? a)%Z.
Proof.
  unfold ge, Qle_bool; simpl. now rewrite !Z.mul_1_r.
Qed.

Lemma gt_inject_Z (a b : Z) : gt (Num (inject_Z a)) (Num (inject_Z b)) = (b <? a)%Z.
Proof.
  unfold gt, Qlt_bool, Qle_bool; simpl. rewrite !Z.mul_1_r.
  now rewrite Z.ltb_antisym.
Qed.

(** Comparing the number of an integer literal with an integer that
    is a binary64 value, as is its neighbour. *)
Lemma ge_round64_Z (r c : Z) :
  round64 (inject_Z c) = Num (inject_Z c) ->
  round64 (inject_Z (c - 1)) = Num (inject_Z (c - 1)) ->
  ge (round64 (inject_Z r)) (Num (inject_Z c)) = (c <=? r)%Z.
Proof.
  intros Hc Hp. destruct (Z.leb_spec c r) as [H | H].
  - assert (Hq : (inject_Z c <= inject_Z r)%Q) by (rewrite <- Zle_Qle; exact H).
    pose proof (round64_mono _ _ Hq) as M. rewrite Hc in M. exact M.
  - assert (Hq : (inject_Z r <= inject_Z (c - 1))%Q) by (rewrite <- Zle_Qle; lia).
    pose proof (round64_mono _ _ Hq) as M. rewrite Hp in M. unfold le in M.
    destruct (round64 (inject_Z r)) as [| [] | x]; cbn [ge negb] in *;
      try reflexivity; try discriminate.
    apply Qle_bool_iff in M. apply Qle_bool_false.
    assert (inject_Z (c - 1) < inject_Z c)%Q by (rewrite <- Zlt_Qlt; lia).
    lra.
Qed.

Lemma gt_round64_Z (r c : Z) :
  round64 (inject_Z c) = Num (inject_Z c) ->
  round64 (inject_Z (c + 1)) = Num (inject_Z (c + 1)) ->
  gt (round64 (inject_Z r)) (Num (inject_Z c)) = (c <? r)%Z.
Proof.
  intros Hc Hn. destruct (Z.ltb_spec c r) as [H | H].
  - assert (Hq : (inject_Z (c + 1) <= inject_Z r)%Q) by (rewrite <- Zle_Qle; lia).
    pose proof (round64_mono _ _ Hq) as M. rewrite Hn in M. unfold le in M.
    destruct (round64 (inject_Z r)) as [| [] | x]; cbn [ge gt negb] in *;
      try reflexivity; try discriminate.
    apply Qle_bool_iff in M. apply Qlt_bool_true.
    assert (inject_Z c < inject_Z (c + 1))%Q by (rewrite <- Zlt_Qlt; lia).
    lra.
  - assert (Hq : (inject_Z r <= inject_Z c)%Q) by (rewrite <- Zle_Qle; exact H).
    pose proof (round64_mono _ _ Hq) as M. rewrite Hc in M. unfold le in M.
    destruct (round64 (inject_Z r)) as [| [] | x]; cbn [ge gt negb] in *;
      try reflexivity; try discriminate.
    apply Qle_bool_iff in M. apply Qlt_bool_false_iff. exact M.
Qed.

(** ** Severity buckets and risk bands *)

Section Severity.
Context {host : Host}.

Lemma getSeverity_int (r : Z) :
  LegacyDashboard.getSeverity (JNum (inject_Z r))
  = if (76 <=? r)%Z then "CRITICAL"
    else if (51 <=? r)%Z then "HIGH"
    else if (26 <=? r)%Z then "MEDIUM"
    else "LOW".
Proof.
  unfold LegacyDashboard.getSeverity, toNumber.
  change (Num 76) with (Num (inject_Z 76)).
  change (Num 51) with (Num (inject_Z 51)).
  change (Num 26) with (Num (inject_Z 26)).
  now rewrite !ge_round64_Z by (vm_compute; reflexivity).
Qed.

Lemma riskScoreClassName_int (r : Z) :
  ResultCard.riskScoreClassName (JNum (inject_Z r))
  = if (70 <? r)%Z then "text-critical"
    else if (30 <? r)%Z then "text-warning"
    else "text-success".
Proof.
  unfold ResultCard.riskScoreClassName, toNumber.
  change (Num 70) with (Num (inject_Z 70)).
  change (Num 30) with (Num (inject_Z 30)).
  now rewrite !gt_round64_Z by (vm_compute; reflexivity).
Qed.

Ltac staircase :=
  repeat match goal with
         | |- context [(?a <=? ?b)%Z] => destruct (Z.leb_spec a b)
         | |- context [(?a <? ?b)%Z] => destruct (Z.ltb_spec a b)
         end;
  repeat split; intros; try discriminate; try lia; try reflexivity.

(** C1. On the integers of [0,100] [getSeverity] is the staircase
    26/51/76: it answers CRITICAL exactly from 76 on, HIGH exactly on
    51..75, MEDIUM exactly on 26..50 and LOW exactly up to 25; the six
    boundary scores 76, 75, 51, 50, 26 and 25 fall as the staircase
    says. *)
Theorem getSeverity_staircase (r : Z) :
  0 <= r <= 100 ->
  (LegacyDashboard.getSeverity (JNum (inject_Z r)) = "CRITICAL" <-> 76 <= r)
  /\ (LegacyDashboard.getSeverity (JNum (inject_Z r)) = "HIGH" <-> 51 <= r <= 75)
  /\ (LegacyDashboard.getSeverity (JNum (inject_Z r)) = "MEDIUM" <-> 26 <= r <= 50)
  /\ (LegacyDashboard.getSeverity (JNum (inject_Z r)) = "LOW" <-> r <= 25)
  /\ LegacyDashboard.getSeverity (JNum 76) = "CRITICAL"
  /\ LegacyDashboard.getSeverity (JNum 75) = "HIGH"
  /\ LegacyDashboard.getSeverity (JNum 51) = "HIGH"
  /\ LegacyDashboard.getSeverity (JNum 50) = "MEDIUM"
  /\ LegacyDashboard.getSeverity (JNum 26) = "MEDIUM"
  /\ LegacyDashboard.getSeverity (JNum 25) = "LOW".
Proof.
  intros Hr. rewrite getSeverity_int. staircase.
Qed.

(** C2, as amended.  The React result views colour the risk score by a
    staircase of their own, with steps at 31 and 71; on the integers of
    [0,100] it shows the band of the legacy severity bucket exactly
    outside 26..30 and 71..75. *)
Theorem riskScoreClassName_bands (r : Z) :
  0 <= r <= 100 ->
  (ResultCard.riskScoreClassName (JNum (inject_Z r)) = "text-critical" <-> 71 <= r)
  /\ (ResultCard.riskScoreClassName (JNum (inject_Z r)) = "text-warning"
      <-> 31 <= r <= 70)
  /\ (ResultCard.riskScoreClassName (JNum (inject_Z r)) = "text-success" <-> r <= 30)
  /\ (ResultCard.riskScoreClassName (JNum (inject_Z r))
      = bandOf (LegacyDashboard.getSeverity (JNum (inject_Z r)))
      <-> ~ 26 <= r <= 30 /\ ~ 71 <= r <= 75).
Proof.
  intros Hr. rewrite getSeverity_int, riskScoreClassName_int. staircase.
Qed.

End Severity.

Lemma getSeverity_staircase_witness :
  0 <= 76 <= 100
  /\ @LegacyDashboard.getSeverity Sample.host (JNum (inject_Z 76)) = "CRITICAL".
Proof.
  split; [lia |].
  apply (@getSeverity_staircase Sample.host 76); lia.
Defined.

Lemma riskScoreClassName_bands_witness :
  0 <= 71 <= 100
  /\ @ResultCard.riskScoreClassName Sample.host (JNum (inject_Z 71)) = "text-critical".
Proof.
  split; [lia |].
  apply (@riskScoreClassName_bands Sample.host 71); lia.
Defined.

(** C2 fails as stated: at 70 and 71 the legacy bucket is HIGH both
    times while the React band changes from warning to critical, and at
    25 and 26 the band is success both times while the bucket changes
    from LOW to MEDIUM; neither rendering is a function of the other. *)
Lemma severity_bands_disagree :
  @LegacyDashboard.getSeverity Sample.host (JNum 70) = "HIGH"
  /\ @LegacyDashboard.getSeverity Sample.host (JNum 71) = "HIGH"
  /\ @ResultCard.riskScoreClassName Sample.host (JNum 70) = "text-warning"
  /\ @ResultCard.riskScoreClassName Sample.host (JNum 71) = "text-critical"
  /\ ~ @bandFollowsSeverity Sample.host
  /\ ~ @severityFollowsBand Sample.host.
Proof.
  repeat split; try reflexivity.
  - intros [f Hf].
    pose proof (Hf 70 ltac:(lia)) as H70.
    pose proof (Hf 71 ltac:(lia)) as H71.
    vm_compute in H70, H71. congruence.
  - intros [g Hg].
    pose proof (Hg 25 ltac:(lia)) as H25.
    pose proof (Hg 26 ltac:(lia)) as H26.
    vm_compute in H25, H26. congruence.
Qed.

(** ** Blank input *)





Lemma truthyStr_false (s : string) : truthyStr s = false <-> s = "".
Proof.
  unfold truthyStr. rewrite negb_false_iff. apply String.eqb_eq.
Qed.

Section BlankInput.
Context {host : Host}.
Variable net : network.


End BlankInput.



(** A successful analysis, for comparison: the landing page stores the
    result and shows the verdict card, the legacy dashboard shows the
    confidence and raises the phishing notification. *)
Example successful_analysis :
  (let st := fst (App.handleAnalyze
                    (Sample.answering (Pipeline.toJSON Sample.phishing))
                    (Sample.landing "http://secure-login-update.com/verify")) in
   App.error st = None
   /\ @App.render Sample.host st
      = {| App.errorMessage := None;
           App.analysisResult :=
             Some {| ResultCard.verdict := "Phishing Detected";
                     ResultCard.shownUrl := "http://secure-login-update.com/verify";
                     ResultCard.confidence := "92.0%";
                     ResultCard.riskClassName := "text-critical";
                     ResultCard.riskScore := JNum 92;
                     ResultCard.threatType := JStr "Brand Impersonation" |} |})
  /\ @LegacyDashboard.analyzeURL Sample.host
       (Sample.answering (Pipeline.toJSON Sample.phishing))
       "  http://secure-login-update.com/verify "
     = ([ DomSet "analyzeBtn" "classList.add" "analyzing";
          DomSet "btnText" "style.display" "none";
          DomSet "spinner" "style.display" "block";
          DomSet "analyzeBtn" "disabled" "true";
          Fetch {| method := "POST"; path := "/api/analyze-url";
                   body := Some (JObj [("url",
                                        JStr "http://secure-login-update.com/verify")]) |};
          DomSet "confidenceDisplay" "style.display" "flex";
          DomSet "confidenceValue" "textContent" "92.0% (High)";
          DomSet "alertBadge" "style.display" "flex";
          Notification "PHISHING DETECTED!"
            "Risk Score: 92/100 | Threat Type: Brand Impersonation" "critical";
          SetTimeout "loadStatistics(); loadRecentThreats()" 500;
          DomSet "analyzeBtn" "classList.remove" "analyzing";
          DomSet "btnText" "style.display" "inline";
          DomSet "spinner" "style.display" "none";
          DomSet "analyzeBtn" "disabled" "false" ],
        Normal tt).
Proof.
  split; [split |]; vm_compute; reflexivity.
Qed.

(** ** A failed analysis *)

Section FailedAnalysis.
Context {host : Host}.
Variable net : network.

Lemma analyzeUrl_not_ok (url : string) (r : response) :
  net (api.analyzeRequest url) = Normal r ->
  ok r = false ->
  api.analyzeUrl net url
  = ([Fetch (api.analyzeRequest url);
      ConsoleError "API Error:" (Error "Analysis failed")],
     Throw (Error "Analysis failed")).
Proof.
  intros Hnet Hok.
  unfold api.analyzeUrl, api.call, fetch, rcatch, rbind.
  rewrite Hnet, Hok. reflexivity.
Qed.

(** C4. When the response to [POST /api/analyze-url] is not ok,
    [api.analyzeUrl] throws and yields no value; [handleAnalyze], on the
    landing page and on the dashboard, ends with [result] null and the
    error message set, and the page shows the error and no verdict
    card. *)
Theorem failed_analysis_is_an_error
  (url : string) (r : response) (st : App.state) (dst : Dashboard.state) :
  url <> "" ->
  App.url st = url ->
  Dashboard.url dst = url ->
  net (api.analyzeRequest url) = Normal r ->
  ok r = false ->
  snd (api.analyzeUrl net url) = Throw (Error "Analysis failed")
  /\ (App.result (fst (App.handleAnalyze net st)) = JNull
      /\ App.error (fst (App.handleAnalyze net st))
         = Some "Analysis failed. Please try again."
      /\ App.analysisResult (App.render (fst (App.handleAnalyze net st))) = None
      /\ App.errorMessage (App.render (fst (App.handleAnalyze net st)))
         = Some "Analysis failed. Please try again.")
  /\ (Dashboard.result (fst (Dashboard.handleAnalyze net dst)) = JNull
      /\ Dashboard.error (fst (Dashboard.handleAnalyze net dst))
         = Some "Analysis failed. Please try again."
      /\ Dashboard.renderAnalysis (fst (Dashboard.handleAnalyze net dst))
         = (Some "Analysis failed. Please try again.", None)).
Proof.
  intros Hurl Hst Hdst Hnet Hok.
  pose proof (analyzeUrl_not_ok url r Hnet Hok) as Hcall.
  assert (Htruthy : truthyStr url = true).
  { destruct (truthyStr url) eqn:E; [reflexivity |].
    apply truthyStr_false in E. contradiction. }
  split; [now rewrite Hcall |].
  split.
  - unfold App.handleAnalyze. rewrite Hst, Htruthy, Hcall. simpl.
    repeat split; reflexivity.
  - unfold Dashboard.handleAnalyze. rewrite Hdst, Htruthy, Hcall. simpl.
    repeat split; reflexivity.
Qed.

End FailedAnalysis.

Lemma failed_analysis_is_an_error_witness :
  "http://example.test" <> ""
  /\ ok {| ok := false; json := Normal (JObj [("detail", JStr "Invalid URL")]) |} = false
  /\ App.result (fst (App.handleAnalyze Sample.refusing
                        (Sample.landing "http://example.test"))) = JNull.
Proof.
  split; [discriminate |]. split; [reflexivity |].
  apply (@failed_analysis_is_an_error Sample.host Sample.refusing
           "http://example.test"
           {| ok := false; json := Normal (JObj [("detail", JStr "Invalid URL")]) |}
           (Sample.landing "http://example.test")
           (Sample.dashboard "http://example.test"));
    [discriminate | reflexivity | reflexivity | reflexivity | reflexivity].
Defined.

(** ** Threat types *)

(** C5. In every result completed by the attribution stage,
    [threat_type] is null exactly when the prediction is Legitimate: a
    Legitimate result carries no threat type and a Phishing result
    carries a label of the taxonomy. *)
Theorem threat_type_null_iff_legitimate
  (threshold : Q) (p : Pipeline.Prediction) (s : Pipeline.Signals)
  (confidence : Q) (risk_score : Z) (timestamp : string) :
  (Pipeline.threat_type
     (Pipeline.attribute threshold p s confidence risk_score timestamp) = None
   <-> Pipeline.prediction
         (Pipeline.attribute threshold p s confidence risk_score timestamp)
       = Pipeline.Legitimate)
  /\ Pipeline.threat_type
       (Pipeline.attribute threshold Pipeline.Legitimate s confidence risk_score
          timestamp) = None
  /\ exists t,
       Pipeline.threat_type
         (Pipeline.attribute threshold Pipeline.Phishing s confidence risk_score
            timestamp) = Some t
       /\ In (Pipeline.label t) Pipeline.taxonomy.
Proof.
  repeat split.
  - destruct p; simpl; [discriminate | reflexivity].
  - destruct p; simpl; [discriminate | reflexivity].
  - simpl. eexists. split; [reflexivity |].
    destruct (Pipeline.classifyThreatType threshold s confidence);
      simpl; tauto.
Qed.

(** The result card shows [None] as the threat type exactly for the
    Legitimate results of the attribution stage. *)
Lemma threat_type_display {host : Host} (url : string)
  (r : Pipeline.ClassificationResult) :
  exists card,
    ResultCard.render url (Pipeline.toJSON r) = Some card
    /\ ResultCard.threatType card
       = match Pipeline.threat_type r with
         | Some t => JStr (Pipeline.label t)
         | None => JStr "None"
         end.
Proof.
  unfold ResultCard.render. simpl truthy. cbv iota.
  eexists. split; [reflexivity |]. simpl.
  destruct (Pipeline.threat_type r) as [[]|]; reflexivity.
Qed.

Section Taxonomy.
Context {host : Host}.

(** C6, as amended.  The default threat breakdown of [updateDonutChart],
    used for a missing or empty breakdown, has five distinct labels: the
    first four are members of the taxonomy letter for letter, the fifth
    is written [Other / Unclassified] and is the taxonomy's
    [Other/Unclassified] once the blanks are dropped. *)
Theorem default_breakdown_labels :
  keys LegacyDashboard.defaultThreatBreakdown
  = ["Brand Impersonation"; "Credential Harvesting"; "Malware Distribution";
     "Social Engineering"; "Other / Unclassified"]
  /\ NoDup (keys LegacyDashboard.defaultThreatBreakdown)
  /\ firstn 4 (keys LegacyDashboard.defaultThreatBreakdown)
     = firstn 4 Pipeline.taxonomy
  /\ map withoutSpaces (keys LegacyDashboard.defaultThreatBreakdown)
     = map withoutSpaces Pipeline.taxonomy
  /\ donutLabels (LegacyDashboard.updateDonutChart JUndefined)
     = keys LegacyDashboard.defaultThreatBreakdown
  /\ donutLabels (LegacyDashboard.updateDonutChart (JObj []))
     = keys LegacyDashboard.defaultThreatBreakdown.
Proof.
  repeat split; try reflexivity.
  repeat constructor; simpl; intuition discriminate.
Qed.

End Taxonomy.

(** C6 fails as stated: the fifth default label, [Other / Unclassified],
    is used by the program and is not a member of the taxonomy, whose
    fifth member [Other/Unclassified] is in turn not a default label. *)
Lemma default_label_outside_taxonomy :
  In "Other / Unclassified" (keys LegacyDashboard.defaultThreatBreakdown)
  /\ ~ In "Other / Unclassified" Pipeline.taxonomy
  /\ In "Other/Unclassified" Pipeline.taxonomy
  /\ ~ In "Other/Unclassified" (keys LegacyDashboard.defaultThreatBreakdown).
Proof.
  repeat split.
  - simpl. tauto.
  - simpl. intuition discriminate.
  - simpl. tauto.
  - simpl. intuition discriminate.
Qed.

(** ** [extractDomain] *)

Lemma length_substring0 (n : nat) (s : string) :
  String.length (substring0 n s) = Nat.min n (String.length s).
Proof.
  unfold substring0. revert s.
  induction n as [| n IH]; intros [| c s]; simpl; try reflexivity.
  now rewrite IH.
Qed.

Lemma prefix_substring0 (n : nat) (s : string) :
  String.prefix (substring0 n s) s = true.
Proof.
  unfold substring0. revert s.
  induction n as [| n IH]; intros [| c s]; simpl; try reflexivity.
  rewrite IH. now destruct (ascii_dec c c).
Qed.

Section ExtractDomain.
Context {host : Host}.

(** C9. [extractDomain] returns a string for every input string and
    never throws: the hostname when the input, prefixed with [http://]
    unless it starts with [http], parses as a URL, and otherwise the
    first 30 characters of the input followed by three dots. *)
Theorem extractDomain_total (url : string) :
  (exists s, LegacyDashboard.extractDomain url = Normal s)
  /\ LegacyDashboard.extractDomain url
     = Normal
         match parseURL (if startsWith "http" url then url else "http://" ++ url) with
         | Some urlObj => hostname urlObj
         | None => substring0 30 url ++ "..."
         end
  /\ String.length (substring0 30 url) = Nat.min 30 (String.length url)
  /\ String.prefix (substring0 30 url) url = true.
Proof.
  assert (H : LegacyDashboard.extractDomain url
              = Normal
                  match parseURL (if startsWith "http" url then url
                                  else "http://" ++ url) with
                  | Some urlObj => hostname urlObj
                  | None => substring0 30 url ++ "..."
                  end).
  { unfold LegacyDashboard.extractDomain, newURL, tryCatch, bind.
    destruct (parseURL _); reflexivity. }
  split; [eexists; exact H |].
  split; [exact H |].
  split; [apply length_substring0 | apply prefix_substring0].
Qed.

End ExtractDomain.

Example extractDomain_hostname :
  @LegacyDashboard.extractDomain Sample.host "https://github.com/login?next=1"
  = Normal "github.com".
Proof. reflexivity. Qed.

Example extractDomain_prefixed :
  @LegacyDashboard.extractDomain Sample.host "paypal-secure-login.verify-account.xyz/a"
  = Normal "paypal-secure-login.verify-account.xyz".
Proof. reflexivity. Qed.

Example extractDomain_fallback :
  @LegacyDashboard.extractDomain Sample.host
    "this is not a url at all, it has blanks and is long"
  = Normal "this is not a url at all, it h...".
Proof. reflexivity. Qed.

(** ** An unconfigured Supabase client *)

Lemma interleaved_nil_r {A : Type} (l m : list A) :
  App.ProtectedRoute.interleaved l [] m -> m = l.
Proof.
  revert m. induction l as [| x l IH]; intros m H.
  - inversion H; reflexivity.
  - inversion H; subst. f_equal. now apply IH.
Qed.

Lemma interleaved_refl_l {A : Type} (l : list A) :
  App.ProtectedRoute.interleaved l [] l.
Proof.
  induction l; constructor; assumption.
Qed.

Section Unconfigured.
Import supabaseClient.
Variable createClient : string -> string -> client.

Lemma unconfigured_is_stub (e : env) :
  VITE_SUPABASE_URL e = None
  \/ (exists u, VITE_SUPABASE_URL e = Some u /\ startsWith "https://" u = false)
  \/ VITE_SUPABASE_ANON_KEY e = None ->
  supabase createClient e = stub.
Proof.
  unfold supabase, isSupabaseConfigured.
  intros [H | [[u [Hu Hs]] | H]].
  - now rewrite H.
  - rewrite Hu, Hs, andb_false_r. simpl.
    now destruct (VITE_SUPABASE_ANON_KEY e).
  - rewrite H. now destruct (VITE_SUPABASE_URL e).
Qed.

Lemma stub_deliveries (events : list App.ProtectedRoute.event) :
  App.ProtectedRoute.deliveredSoFar stub events ->
  events = [] \/ events = [App.ProtectedRoute.SessionResolved JNull].
Proof.
  intros [later H]. apply interleaved_nil_r in H. simpl in H.
  destruct events as [| ev [| ev' rest]]; [now left | right | discriminate].
  simpl in H. now inversion H.
Qed.

(** C10. When [VITE_SUPABASE_URL] is absent or does not start with
    [https://], or [VITE_SUPABASE_ANON_KEY] is absent, the exported
    client is the stub: [getSession] resolves to a null session,
    [signInWithPassword] and [signUp] throw, logging in never navigates,
    [ProtectedRoute] never renders its children, and once [getSession]
    has settled, which it does, it redirects to [/login]. *)
Theorem unconfigured_supabase_never_admits (e : env) :
  VITE_SUPABASE_URL e = None
  \/ (exists u, VITE_SUPABASE_URL e = Some u /\ startsWith "https://" u = false)
  \/ VITE_SUPABASE_ANON_KEY e = None ->
  supabase createClient e = stub
  /\ getSession (auth_ (supabase createClient e)) = Normal JNull
  /\ (forall email password,
        signInWithPassword (auth_ (supabase createClient e)) email password
        = Throw (Error "Supabase not configured"))
  /\ (forall email password,
        signUp (auth_ (supabase createClient e)) email password
        = Throw (Error "Supabase not configured"))
  /\ (forall st, snd (Login.handleLogin (supabase createClient e) st) = [])
  /\ (forall events,
        App.ProtectedRoute.deliveredSoFar (supabase createClient e) events ->
        App.ProtectedRoute.render (App.ProtectedRoute.run events)
        <> App.ProtectedRoute.Children)
  /\ (forall events,
        App.ProtectedRoute.delivered (supabase createClient e) events ->
        App.ProtectedRoute.render (App.ProtectedRoute.run events)
        = App.ProtectedRoute.NavigateTo "/login")
  /\ (exists events,
        App.ProtectedRoute.delivered (supabase createClient e) events).
Proof.
  intros H. rewrite (unconfigured_is_stub e H).
  repeat split; try reflexivity.
  - intros events Hev.
    destruct (stub_deliveries events Hev) as [-> | ->]; discriminate.
  - intros events Hev. apply interleaved_nil_r in Hev. now subst.
  - exists [App.ProtectedRoute.SessionResolved JNull].
    apply interleaved_refl_l.
Qed.

End Unconfigured.

Lemma unconfigured_supabase_never_admits_witness :
  (supabaseClient.VITE_SUPABASE_URL Sample.insecure = None
   \/ (exists u, supabaseClient.VITE_SUPABASE_URL Sample.insecure = Some u
                 /\ startsWith "https://" u = false)
   \/ supabaseClient.VITE_SUPABASE_ANON_KEY Sample.insecure = None)
  /\ supabaseClient.supabase (fun _ _ => Sample.signedIn) Sample.insecure
     = supabaseClient.stub.
Proof.
  assert (H : supabaseClient.VITE_SUPABASE_URL Sample.insecure = None
              \/ (exists u, supabaseClient.VITE_SUPABASE_URL Sample.insecure = Some u
                            /\ startsWith "https://" u = false)
              \/ supabaseClient.VITE_SUPABASE_ANON_KEY Sample.insecure = None).
  { right; left. exists "http://localhost:54321". split; reflexivity. }
  split; [exact H |].
  apply (unconfigured_supabase_never_admits (fun _ _ => Sample.signedIn)
           Sample.insecure H).
Defined.

(** With a complete configuration the library's client is exported; a
    signed-in user reaches the children of [ProtectedRoute] and logging
    in navigates to the dashboard. *)
Example configured_supabase_admits :
  supabaseClient.supabase (fun _ _ => Sample.signedIn) Sample.configured
  = Sample.signedIn
  /\ App.ProtectedRoute.delivered Sample.signedIn
       [App.ProtectedRoute.SessionResolved (JObj [("access_token", JStr "token")]);
        App.ProtectedRoute.AuthStateChange (JObj [("access_token", JStr "token")])]
  /\ App.ProtectedRoute.render
       (App.ProtectedRoute.run
          [App.ProtectedRoute.SessionResolved (JObj [("access_token", JStr "token")]);
           App.ProtectedRoute.AuthStateChange (JObj [("access_token", JStr "token")])])
     = App.ProtectedRoute.Children
  /\ snd (Login.handleLogin Sample.signedIn
            {| Login.email := "a@b.c"; Login.password := "pw";
               Login.loading := false; Login.error := None |})
     = [Navigate "/dashboard"].
Proof.
  repeat split; try reflexivity.
  repeat constructor.
Qed.

(** ** [toFixed] *)

Section Rounding.
Local Open Scope Q_scope.

Lemma toFixedInt_comp (f : nat) (x y : Q) :
  x == y -> toFixedInt f x = toFixedInt f y.
Proof.
  intros H. unfold toFixedInt. now rewrite H.
Qed.

Lemma Qlt_bool_comp (x y z : Q) : x == y -> Qlt_bool x z = Qlt_bool y z.
Proof.
  intros H. unfold Qlt_bool. now rewrite H.
Qed.

Lemma toFixed_comp (f : nat) (x y : Q) : x == y -> toFixed f x = toFixed f y.
Proof.
  intros H. unfold toFixed.
  now rewrite (toFixedInt_comp f x y H), (Qlt_bool_comp x y 0 H).
Qed.

Lemma Qlt_bool_false (x y : Q) : y <= x -> Qlt_bool x y = false.
Proof.
  intros H. unfold Qlt_bool. apply negb_false_iff. now apply Qle_bool_iff.
Qed.

(** [x.toFixed(0)] of a non-negative [x] is the decimal numeral of the
    rounded value. *)
Lemma toFixed0_nonneg (x : Q) : 0 <= x -> toFixed 0 x = digits (toFixedInt 0 x).
Proof.
  intros H. unfold toFixed. now rewrite (Qlt_bool_false x 0 H).
Qed.

(** Rounding to the nearest integer, halves upwards. *)
Lemma toFixedInt0_nonneg (x : Q) :
  0 <= x -> toFixedInt 0 x = Qfloor (x + (1 # 2)).
Proof.
  intros H. unfold toFixedInt. apply Qfloor_comp.
  rewrite (Qabs_pos x H). simpl. ring.
Qed.

Lemma toFixedInt0_bounds (x : Q) :
  0 <= x -> x <= 100 -> (0 <= toFixedInt 0 x <= 100)%Z.
Proof.
  intros H0 H100. rewrite (toFixedInt0_nonneg x H0). split.
  - change 0%Z with (Qfloor 0). apply Qfloor_resp_le. lra.
  - change 100%Z with (Qfloor (100 + (1 # 2))). apply Qfloor_resp_le. lra.
Qed.

End Rounding.

(** ** Runs *)

Lemma rbind_lift {A B} (c : completion A) (k : A -> run B) :
  rbind (lift c) k = match c with Normal a => k a | Throw e => ([], Throw e) end.
Proof.
  unfold rbind, lift. destruct c as [a | e]; [| reflexivity].
  now destruct (k a).
Qed.

Lemma fst_rbind_emit {B} (e : effect) (k : unit -> run B) :
  fst (rbind (emit e) k) = e :: fst (k tt).
Proof. unfold rbind, emit. now destruct (k tt). Qed.

Lemma fst_rbind {A B} (m : run A) (k : A -> run B) :
  fst (rbind m k)
  = match snd m with
    | Normal a => (fst m ++ fst (k a))%list
    | Throw _ => fst m
    end.
Proof.
  destruct m as [l [a | e]]; simpl; [| reflexivity]. now destruct (k a).
Qed.

Ltac lifts := repeat (rewrite rbind_lift; cbn beta iota).

Lemma rbind_emit {B} (e : effect) (k : unit -> run B) :
  rbind (emit e) k = (e :: fst (k tt), snd (k tt)).
Proof. unfold rbind, emit. simpl. now destruct (k tt). Qed.

(** Evaluate the plumbing of a run and leave the arithmetic and the
    conversions as they are written. *)
Ltac run_steps :=
  cbn -[numToFixed mul div add sub gt ge le round64 toNumber toStringJS
        coercible optField strictEqStr String.append truthy toFixed
        numberString optToFixed].

Lemma strictEqStr_iff (v : jsval) (s : string) :
  strictEqStr v s = true <-> v = JStr s.
Proof.
  destruct v; simpl; split; intros H; try discriminate.
  - apply String.eqb_eq in H. now subst.
  - injection H as ->. apply String.eqb_refl.
Qed.

Lemma getField_optField (v : jsval) (k : string) :
  nullish v = false -> getField v k = Normal (optField v k).
Proof. destruct v; try discriminate; reflexivity. Qed.

Lemma requests_app (l1 l2 : list effect) :
  requests (l1 ++ l2) = (requests l1 ++ requests l2)%list.
Proof.
  induction l1 as [| [] l1 IH]; simpl; try assumption; try reflexivity.
  now rewrite IH.
Qed.

Lemma notifications_app (l1 l2 : list effect) :
  notifications (l1 ++ l2) = (notifications l1 ++ notifications l2)%list.
Proof.
  induction l1 as [| [] l1 IH]; simpl; try assumption; try reflexivity.
  now rewrite IH.
Qed.

Lemma notificationTypes_app (l1 l2 : list effect) :
  notificationTypes (l1 ++ l2) = (notificationTypes l1 ++ notificationTypes l2)%list.
Proof.
  unfold notificationTypes. now rewrite notifications_app, map_app.
Qed.

(** ** The stats response *)

Section Stats.
Context {host : Host}.

Ltac schema H :=
  repeat match goal with
         | |- context [lookup ?k ?d] =>
             lazymatch goal with
             | H' : sameStats d _ |- _ =>
                 rewrite (H' k) by (simpl; tauto)
             end
         end.

Lemma updateMetrics_same (d1 d2 : list (string * jsval)) :
  sameStats d1 d2 ->
  LegacyDashboard.updateMetrics (JObj d1) = LegacyDashboard.updateMetrics (JObj d2).
Proof.
  intros H. unfold LegacyDashboard.updateMetrics, getField.
  schema H. reflexivity.
Qed.

Lemma renderOverview_same (d1 d2 : list (string * jsval)) :
  sameStats d1 d2 ->
  Dashboard.renderOverview (JObj d1) = Dashboard.renderOverview (JObj d2).
Proof.
  intros H.
  unfold Dashboard.renderOverview, Dashboard.statCards, Dashboard.legend,
    Dashboard.legendShare, Dashboard.legendTotal, optField.
  schema H. reflexivity.
Qed.

Lemma lookup_setField_other (k k' : string) (v : jsval) (d : list (string * jsval)) :
  k' <> k -> lookup k' (setField k v d) = lookup k' d.
Proof.
  intros Hk. induction d as [| [k0 v0] d IH]; simpl; [reflexivity |].
  destruct (String.eqb k k0) eqn:E; simpl.
  - apply String.eqb_eq in E. subst k0.
    destruct (String.eqb k' k) eqn:E'; [| reflexivity].
    apply String.eqb_eq in E'. contradiction.
  - now rewrite IH.
Qed.

Lemma differAtMost_setField (k : string) (v1 v2 : jsval) (d : list (string * jsval)) :
  differAtMost k (setField k v1 d) (setField k v2 d).
Proof.
  intros k' Hk. now rewrite !lookup_setField_other.
Qed.

(** The effects of [updateDonutChart] are an update of the chart and,
    when the legend could be computed, the legend. *)
Lemma updateDonutChart_effects (threatBreakdown : jsval) :
  exists labels data,
    fst (LegacyDashboard.updateDonutChart threatBreakdown) = [DonutUpdate labels data]
    \/ exists items,
         fst (LegacyDashboard.updateDonutChart threatBreakdown)
         = [DonutUpdate labels data; LegendSet items].
Proof.
  unfold LegacyDashboard.updateDonutChart, emit, lift, rbind.
  do 2 eexists.
  destruct (LegacyDashboard.updateDonutLegend _ _) as [items | e]; simpl.
  - right. eexists. reflexivity.
  - left. reflexivity.
Qed.

Lemma toFixed_percent (p : Q) :
  (0 <= p <= 100)%Q -> numToFixed 0 (Num p) = digits (toFixedInt 0 p).
Proof.
  intros [H0 H100]. unfold numToFixed.
  assert (E : Qle_bool (inject_Z (10 ^ 21)) (Qabs p) = false).
  { apply Qle_bool_false. rewrite (Qabs_pos p H0).
    apply Qle_lt_trans with 100%Q; [exact H100 | reflexivity]. }
  rewrite E. now apply toFixed0_nonneg.
Qed.

(** A fraction of [0,1] times 100 is a number of [0,100]. *)
Lemma percent_of_fraction (acc : Q) :
  (0 <= acc <= 1)%Q ->
  exists a percent,
    round64 acc = Num a /\ mul (Num a) (Num 100) = Num percent
    /\ (0 <= percent <= 100)%Q.
Proof.
  intros [H0 H1].
  destruct (round64_between 0 1 acc eq_refl eq_refl H0 H1) as [a [Ha [Ha0 Ha1]]].
  assert (Hp0 : (0 <= a * 100)%Q) by nra.
  assert (Hp1 : (a * 100 <= 100)%Q) by nra.
  destruct (round64_between 0 100 (a * 100) eq_refl eq_refl Hp0 Hp1)
    as [p [Hp [Hpa Hpb]]].
  exists a, p. repeat split; assumption.
Qed.

Lemma legacy_accuracy_text (d : list (string * jsval)) (acc : Q) (text : string) :
  lookup "detection_accuracy" d = JNum acc ->
  In (DomSet "accuracy" "textContent" text)
     (fst (LegacyDashboard.updateMetrics (JObj d))) ->
  text = numToFixed 0 (mul (round64 acc) (Num 100)) ++ "%".
Proof.
  intros Hacc.
  unfold LegacyDashboard.updateMetrics, getField, LegacyDashboard.setText.
  rewrite Hacc. lifts. cbn [coerceNumber coercible toNumber].
  destruct (LegacyDashboard.formatNumber (lookup "total_analyzed" d));
    [| simpl; tauto].
  rewrite fst_rbind_emit. intros [H | H]; [discriminate |]. revert H.
  rewrite fst_rbind_emit. intros [H | H]; [injection H; congruence |].
  revert H.
  destruct (coerceString (lookup "avg_response_time_ms" d)); [| simpl; tauto].
  rewrite fst_rbind_emit. intros [H | H]; [discriminate |]. revert H.
  destruct (LegacyDashboard.formatNumber (lookup "today_count" d));
    [| simpl; tauto].
  rewrite fst_rbind_emit. intros [H | H]; [discriminate |]. revert H.
  rewrite fst_rbind_emit. intros [H | H]; [discriminate |]. revert H.
  rewrite fst_rbind.
  destruct (updateDonutChart_effects (lookup "threat_breakdown" d))
    as [labels [data [Hd | [items Hd]]]]; rewrite Hd;
    destruct (snd (LegacyDashboard.updateDonutChart (lookup "threat_breakdown" d)));
    simpl; intuition discriminate.
Qed.

Lemma react_accuracy_card (d : list (string * jsval)) (acc : Q)
  (cards : list Dashboard.statCard) :
  lookup "detection_accuracy" d = JNum acc ->
  Dashboard.statCards (JObj d) = Normal cards ->
  nth 2 (map Dashboard.value cards) JUndefined
  = JStr (numToFixed 0 (mul (round64 acc) (Num 100)) ++ "%").
Proof.
  intros Hacc. unfold Dashboard.statCards, optField.
  rewrite Hacc.
  destruct (coerceString _); [| discriminate]. cbn [bind].
  assert (E : coerceNumber (or (JNum acc) (JNum 0))
              = Normal (toNumber (or (JNum acc) (JNum 0)))).
  { unfold or. destruct (truthy (JNum acc)); reflexivity. }
  rewrite E. cbn [bind].
  destruct (optToFixed 0 (lookup "avg_response_time_ms" d)); [| discriminate].
  cbn [bind]. intros Hcards. injection Hcards as <-. cbn [map nth Dashboard.value].
  do 2 f_equal.
  unfold or, truthy.
  destruct (round64 acc) as [| s | r] eqn:Er;
    [| | destruct (Qeq_bool r 0) eqn:E0];
    cbn [negb toNumber]; rewrite ?Er; try reflexivity.
  apply Qeq_bool_eq in E0. rewrite (round64_zero 0) by reflexivity. unfold mul.
  rewrite (round64_zero (r * 100)) by (rewrite E0; reflexivity).
  rewrite (round64_zero (0 * 100)) by reflexivity.
  reflexivity.
Qed.

End Stats.

Section StatsResponse.
Context {host : Host}.

Ltac reads k v1 v2 base :=
  let H := fresh in
  exists (setField k v1 base), (setField k v2 base);
  split; [apply differAtMost_setField | intros H; vm_compute in H; discriminate H].

(** C7. The dashboards read the stats response through the six fields
    [total_analyzed], [phishing_detected], [detection_accuracy],
    [avg_response_time_ms], [today_count] and [threat_breakdown]: two
    responses that agree on them are displayed alike by the legacy
    [loadStatistics] and by the overview of the React dashboard, the
    overview reads each of the six and the legacy page each but
    [phishing_detected].  A [detection_accuracy] in [0,1] is multiplied
    by 100, which gives a number between 0 and 100, and shown rounded
    to an integer followed by a percent sign. *)
Theorem stats_fields_consumed
  (d1 d2 d : list (string * jsval)) (acc : Q) (text : string)
  (cards : list Dashboard.statCard) :
  sameStats d1 d2 ->
  lookup "detection_accuracy" d = JNum acc ->
  (0 <= acc <= 1)%Q ->
  In (DomSet "accuracy" "textContent" text)
     (fst (LegacyDashboard.updateMetrics (JObj d))) ->
  Dashboard.statCards (JObj d) = Normal cards ->
  LegacyDashboard.updateMetrics (JObj d1) = LegacyDashboard.updateMetrics (JObj d2)
  /\ Dashboard.renderOverview (JObj d1) = Dashboard.renderOverview (JObj d2)
  /\ Forall (isRead (fun s => Dashboard.renderOverview (JObj s))) statsFields
  /\ Forall (isRead (fun s => LegacyDashboard.updateMetrics (JObj s)))
            ["total_analyzed"; "detection_accuracy"; "avg_response_time_ms";
             "today_count"; "threat_breakdown"]
  /\ exists percent : Q,
       mul (toNumber (JNum acc)) (Num 100) = Num percent
       /\ (0 <= percent <= 100)%Q
       /\ text = digits (toFixedInt 0 percent) ++ "%"
       /\ nth 2 (map Dashboard.value cards) JUndefined
          = JStr (digits (toFixedInt 0 percent) ++ "%")
       /\ (0 <= toFixedInt 0 percent <= 100)%Z.
Proof.
  intros Hsame Hacc Hrange Hin Hcards.
  split; [now apply updateMetrics_same |].
  split; [now apply renderOverview_same |].
  split.
  { unfold statsFields. repeat constructor.
    - reads "total_analyzed" (JStr "a") (JStr "b") [("total_analyzed", JNull)].
    - reads "phishing_detected" (JStr "a") (JStr "b") [("phishing_detected", JNull)].
    - reads "detection_accuracy" (JNum 1) (JNum 0) [("detection_accuracy", JNull)].
    - reads "avg_response_time_ms" (JNum 1) (JNum 2) [("avg_response_time_ms", JNull)].
    - reads "today_count" (JStr "a") (JStr "b") [("today_count", JNull)].
    - reads "threat_breakdown" (JObj [("a", JNum 1)]) (JObj [("b", JNum 1)])
            [("threat_breakdown", JNull)]. }
  split.
  { repeat constructor.
    - reads "total_analyzed" (JNum 2000) (JNum 3000) Sample.stats.
    - reads "detection_accuracy" (JNum 1) (JNum 0) Sample.stats.
    - reads "avg_response_time_ms" (JStr "1") (JStr "2") Sample.stats.
    - reads "today_count" (JNum 2000) (JNum 3000) Sample.stats.
    - reads "threat_breakdown" (JObj [("a", JNum 1)]) (JObj [("b", JNum 1)])
            Sample.stats. }
  destruct (percent_of_fraction acc Hrange) as [a [percent [Ha [Hp Hb]]]].
  exists percent. cbn [toNumber]. rewrite Ha.
  pose proof (legacy_accuracy_text d acc text Hacc Hin) as Htext.
  pose proof (react_accuracy_card d acc cards Hacc Hcards) as Hcard.
  rewrite Ha, Hp in Htext, Hcard. rewrite (toFixed_percent percent Hb) in Htext, Hcard.
  split; [exact Hp |]. split; [exact Hb |].
  split; [exact Htext |]. split; [exact Hcard |].
  destruct Hb. now apply toFixedInt0_bounds.
Qed.

End StatsResponse.

Lemma stats_fields_consumed_witness :
  lookup "detection_accuracy" Sample.stats = JNum (94 # 100)
  /\ (0 <= 94 # 100 <= 1)%Q
  /\ In (DomSet "accuracy" "textContent" "94%")
        (fst (@LegacyDashboard.updateMetrics Sample.host (JObj Sample.stats)))
  /\ exists percent : Q,
       mul (@toNumber Sample.host (JNum (94 # 100))) (Num 100) = Num percent
       /\ "94%" = digits (toFixedInt 0 percent) ++ "%".
Proof.
  assert (Hin : In (DomSet "accuracy" "textContent" "94%")
                   (fst (@LegacyDashboard.updateMetrics Sample.host
                           (JObj Sample.stats))))
    by (vm_compute; tauto).
  assert (Hr : (0 <= 94 # 100 <= 1)%Q) by (split; discriminate).
  split; [reflexivity |]. split; [exact Hr |]. split; [exact Hin |].
  destruct (@stats_fields_consumed Sample.host Sample.stats Sample.stats Sample.stats
              (94 # 100) "94%"
              (match @Dashboard.statCards Sample.host (JObj Sample.stats) with
               | Normal cards => cards
               | Throw _ => []
               end)
              (fun k _ => eq_refl) eq_refl Hr Hin eq_refl)
    as [_ [_ [_ [_ [percent [Hp [_ [Ht _]]]]]]]].
  exists percent. split; assumption.
Defined.

(** The product with 100 is rounded to a binary64 value before it is
    shown: an accuracy of 0.945 is shown as 95 percent and one of 0.575
    as 57 percent. *)
Example accuracy_is_rounded_twice :
  @LegacyDashboard.updateMetrics Sample.host
    (JObj (setField "detection_accuracy" (JNum (945 # 1000)) Sample.stats))
  = @LegacyDashboard.updateMetrics Sample.host
      (JObj (setField "detection_accuracy" (JNum (95 # 100)) Sample.stats))
  /\ In (DomSet "accuracy" "textContent" "95%")
        (fst (@LegacyDashboard.updateMetrics Sample.host
                (JObj (setField "detection_accuracy" (JNum (945 # 1000))
                         Sample.stats))))
  /\ In (DomSet "accuracy" "textContent" "57%")
        (fst (@LegacyDashboard.updateMetrics Sample.host
                (JObj (setField "detection_accuracy" (JNum (575 # 1000))
                         Sample.stats)))).
Proof.
  split; [vm_compute; reflexivity |]. split; vm_compute; tauto.
Qed.

Example loadStatistics_sample :
  snd (@LegacyDashboard.loadStatistics Sample.host
         (Sample.answering (JObj Sample.stats)) JNull)
  = ([ Fetch {| method := "GET"; path := "/api/stats"; body := None |};
       DomSet "totalAnalyzed" "textContent" "1.3K";
       DomSet "accuracy" "textContent" "94%";
       DomSet "responseTime" "textContent" "<142ms";
       DomSet "todayCount" "textContent" "+37 today";
       DomSet "avgResponseTime" "textContent" "Average 142ms";
       DonutUpdate
         ["Brand Impersonation"; "Credential Harvesting"; "Malware Distribution";
          "Social Engineering"; "Other / Unclassified"]
         [JNum 140; JNum 100; JNum 47; JNum 16; JNum 9];
       LegendSet
         [ {| legendColor := "#8b5cf6"; legendText := "Brand Impersonation";
              legendValue := "14000%" |};
           {| legendColor := "#3b82f6"; legendText := "Credential Harvesting";
              legendValue := "10000%" |};
           {| legendColor := "#ec4899"; legendText := "Malware Distribution";
              legendValue := "4700%" |};
           {| legendColor := "#10b981"; legendText := "Social Engineering";
              legendValue := "1600%" |};
           {| legendColor := "#f59e0b"; legendText := "Other / Unclassified";
              legendValue := "900%" |} ];
       MiniCharts ],
      Normal tt).
Proof. vm_compute. reflexivity. Qed.

(** ** The threat-breakdown legend *)

Section Legend.
Context {host : Host}.
Local Open Scope Q_scope.


Lemma falsy_entries (v : jsval) : truthy v = false -> entries v = [].
Proof.
  destruct v as [| | b | q | s | items | fields]; simpl; try reflexivity;
    try discriminate.
  intros H. apply truthyStr_false in H. now subst s.
Qed.





Lemma combine_seq_names (A B : Type) (f : nat -> string * A -> B)
  (g : B -> string) (data : list (string * A)) (k : nat) :
  (forall i e, g (f i e) = fst e) ->
  map g (map (fun p => f (fst p) (snd p)) (combine (seq k (List.length data)) data))
  = map fst data.
Proof.
  intros H. revert k. induction data as [| e data IH]; intros k; simpl;
    [reflexivity |].
  now rewrite H, IH.
Qed.



(** *** The total and the shares of positive values *)








End Legend.



(** The share is rounded to a binary64 value before [toFixed] rounds
    it to an integer: 29 of a total of 200 is 14.5 percent, which the
    legend shows as 14 and not as 15. *)
Example legend_share_is_rounded_twice :
  @Dashboard.legendPercents Sample.host
    (JObj [("threat_breakdown", Dashboard.numericBreakdown [("a", 29%Q); ("b", 170%Q)])])
  = ["14%"; "85%"]
  /\ Qfloor ((29 / (1 + 29 + 170) * 100 + (1 # 2))%Q) = 15.
Proof. split; vm_compute; reflexivity. Qed.

(* ================================================================== *)
(** * Part III.  Further properties of the sources                      *)
(* ================================================================== *)

(** ** The API service *)

Lemma api_call_requests (net : network) (r : request) (failure : string) :
  requests (fst (api.call net r failure)) = [r].
Proof.
  unfold api.call, fetch, rcatch, rbind, lift, throw, ret, emit.
  destruct (net r) as [[[] [|]] |]; reflexivity.
Qed.

Section ApiCalls.
Context {host : Host}.
Variable net : network.

(** With a limit that converts to a string, a listing is a call with
    the limit in the path. *)
Lemma listing_coercible (resource : string) (limit : jsval) (failure : string) :
  coercible limit = true ->
  api.listing net resource limit failure
  = api.call net {| method := "GET"; path := resource ++ toStringJS limit;
                    body := None |} failure.
Proof.
  intros H. unfold api.listing, api.call, coerceString. rewrite H.
  now rewrite rbind_lift.
Qed.

Lemma listing_unconvertible (resource : string) (limit : jsval) (failure : string) :
  coercible limit = false ->
  api.listing net resource limit failure
  = ([ConsoleError "API Error:" unconvertible], Throw unconvertible).
Proof.
  intros H. unfold api.listing, coerceString. rewrite H. reflexivity.
Qed.

(** X1. A method of the API service sends exactly one request, unless
    the limit cannot be converted to a string.  It returns a value
    exactly when the response is ok and its body parses, and that value
    is the parsed body; in every other case it logs the error once
    under [API Error:] and rethrows that same error.  An undefined
    limit is replaced by 10 for the recent threats and by 20 for the
    analysis logs; a limit that cannot be converted is logged and
    rethrown without a request. *)
Theorem api_call_outcome (r : request) (failure : string) :
  requests (fst (api.call net r failure)) = [r]
  /\ (forall v, snd (api.call net r failure) = Normal v
                <-> exists resp, net r = Normal resp /\ ok resp = true
                                 /\ json resp = Normal v)
  /\ (forall v, snd (api.call net r failure) = Normal v ->
                fst (api.call net r failure) = [Fetch r])
  /\ (forall e, snd (api.call net r failure) = Throw e ->
                fst (api.call net r failure)
                = [Fetch r; ConsoleError "API Error:" e])
  /\ (forall resp, net r = Normal resp -> ok resp = false ->
                   snd (api.call net r failure) = Throw (Error failure))
  /\ (forall url,
        api.analyzeUrl net url = api.call net (api.analyzeRequest url) "Analysis failed"
        /\ api.getStats net = api.call net getStatsRequest "Failed to fetch stats")
  /\ (forall limit,
        coercible limit = true ->
        api.getRecentThreats net limit
        = api.call net (recentThreatsRequestOf (defaultTo limit (JNum 10)))
                   "Failed to fetch threats"
        /\ api.getAnalysisLogs net limit
           = api.call net (analysisLogsRequestOf (defaultTo limit (JNum 20)))
                      "Failed to fetch analysis logs")
  /\ (forall limit,
        coercible limit = false ->
        api.getRecentThreats net limit
        = ([ConsoleError "API Error:" unconvertible], Throw unconvertible)
        /\ api.getAnalysisLogs net limit
           = ([ConsoleError "API Error:" unconvertible], Throw unconvertible)).
Proof.
  pose proof (api_call_requests net) as Hone.
  split; [apply Hone |].
  rewrite <- and_assoc, <- and_assoc, <- and_assoc. split.
  2: { split; [intros url; split; reflexivity |]. split.
       - intros limit Hc. unfold api.getRecentThreats, api.getAnalysisLogs.
         assert (H10 : coercible (defaultTo limit (JNum 10)) = true)
           by (destruct limit; try exact Hc; reflexivity).
         assert (H20 : coercible (defaultTo limit (JNum 20)) = true)
           by (destruct limit; try exact Hc; reflexivity).
         rewrite !listing_coercible by assumption. split; reflexivity.
       - intros limit Hc. unfold api.getRecentThreats, api.getAnalysisLogs.
         assert (Hd : forall d, defaultTo limit d = limit)
           by (intros d; destruct limit; try reflexivity; discriminate Hc).
         rewrite !Hd, !listing_unconvertible by assumption. split; reflexivity. }
  rewrite !and_assoc.
  unfold api.call, fetch, rcatch, rbind, lift, throw, ret, emit.
  destruct (net r) as [[okr jsonr] | e0]; simpl.
  - destruct okr; simpl.
    + destruct jsonr as [v0 | e1]; simpl.
      * repeat split; try reflexivity.
        -- intros H. injection H as <-. eexists; repeat split; reflexivity.
        -- intros [resp [Hr [_ Hj]]]. injection Hr as <-. simpl in Hj.
           congruence.
        -- discriminate.
        -- intros resp Hr Hok. injection Hr as <-. discriminate.
      * repeat split; try reflexivity; try discriminate.
        -- intros [resp [Hr [_ Hj]]]. injection Hr as <-. discriminate.
        -- intros e H. now injection H as <-.
        -- intros resp Hr Hok. injection Hr as <-. discriminate.
    + repeat split; try reflexivity; try discriminate.
      * intros [resp [Hr [Hok _]]]. injection Hr as <-. discriminate.
      * intros e H. now injection H as <-.
  - repeat split; try reflexivity; try discriminate.
    + intros [resp [Hr _]]. discriminate.
    + intros e H. now injection H as <-.
Qed.

(** The limit that the dashboard passes converts to a string. *)
Lemma getRecentThreats_number (q : Q) :
  api.getRecentThreats net (JNum q)
  = api.call net (recentThreatsRequestOf (JNum q)) "Failed to fetch threats".
Proof. unfold api.getRecentThreats. now rewrite listing_coercible. Qed.

Lemma getAnalysisLogs_number (q : Q) :
  api.getAnalysisLogs net (JNum q)
  = api.call net (analysisLogsRequestOf (JNum q)) "Failed to fetch analysis logs".
Proof. unfold api.getAnalysisLogs. now rewrite listing_coercible. Qed.

End ApiCalls.

(** ** The legacy dashboard: analysing a URL *)

Section LegacyAnalysis.
Context {host : Host}.
Variable net : network.

(** [showResult] sends nothing; it either completes after one
    notification or throws before any, and it throws exactly when the
    body is null or undefined or a value that it converts does not
    convert. *)
Lemma showResult_cases (result : jsval) :
  requests (fst (LegacyDashboard.showResult result)) = []
  /\ ((snd (LegacyDashboard.showResult result) = Normal tt
       /\ notificationTypes (fst (LegacyDashboard.showResult result))
          = [(if nullish result || negb (coercible (optField result "confidence"))
              then "error"
              else if strictEqStr (optField result "prediction") "Phishing"
                   then if coercible (optField result "risk_score")
                           && coercible (optField result "threat_type")
                        then "critical" else "error"
                   else "success")])
      \/ ((exists e, snd (LegacyDashboard.showResult result) = Throw e)
          /\ notificationTypes (fst (LegacyDashboard.showResult result)) = []
          /\ (if nullish result || negb (coercible (optField result "confidence"))
              then "error"
              else if strictEqStr (optField result "prediction") "Phishing"
                   then if coercible (optField result "risk_score")
                           && coercible (optField result "threat_type")
                        then "critical" else "error"
                   else "success") = "error")).
Proof.
  unfold LegacyDashboard.showResult, LegacyDashboard.setText.
  destruct (nullish result) eqn:Hn.
  { destruct result; try discriminate Hn; (split; [reflexivity |]);
      right; (split; [eexists; reflexivity | split; reflexivity]). }
  rewrite !(getField_optField result) by exact Hn.
  unfold coerceNumber, coerceString. cbn [orb]. run_steps.
  destruct (coercible (optField result "confidence")); cbn [negb];
    [| split; [reflexivity |];
       right; (split; [eexists; reflexivity | split; reflexivity])].
  run_steps.
  destruct (strictEqStr (optField result "prediction") "Phishing"); run_steps.
  - destruct (coercible (optField result "risk_score")); cbn [andb]; run_steps;
      [| split; [reflexivity |];
         right; (split; [eexists; reflexivity | split; reflexivity])].
    destruct (coercible (optField result "threat_type")); run_steps;
      (split; [reflexivity |]);
      [left; split; reflexivity
      | right; (split; [eexists; reflexivity | split; reflexivity])].
  - split; [reflexivity |]. left; split; reflexivity.
Qed.

(** The [try] statement of [analyzeURL]: whatever the network does it
    completes, having sent the request first and nothing else, and
    raises one notification. *)
Lemma analysis_attempt (req : request) :
  let attempt :=
    rcatch
      (response <~ fetch net req ;;
       _ <~ (if negb (ok response) then throw (Error "Analysis failed") else ret tt) ;;
       result <~ lift (json response) ;;
       LegacyDashboard.showResult result)
      (fun error =>
         _ <~ emit (ConsoleError "Analysis error:" error) ;;
         emit (Notification "Analysis failed" "Please try again" "error")) in
  snd attempt = Normal tt
  /\ (exists middle, fst attempt = Fetch req :: middle)
  /\ requests (fst attempt) = [req]
  /\ notificationTypes (fst attempt)
     = [match net req with
        | Normal r =>
            if ok r then
              match json r with
              | Normal result => (if nullish result || negb (coercible (optField result "confidence"))
              then "error"
              else if strictEqStr (optField result "prediction") "Phishing"
                   then if coercible (optField result "risk_score")
                           && coercible (optField result "threat_type")
                        then "critical" else "error"
                   else "success")
              | Throw _ => "error"
              end
            else "error"
        | Throw _ => "error"
        end].
Proof.
  unfold fetch, rcatch, rbind, lift, throw, ret, emit.
  destruct (net req) as [[okr jsonr] | e0]; cbn [ok json negb fst snd app].
  2: { repeat split; try reflexivity. eexists. reflexivity. }
  destruct okr; cbn [ok json negb fst snd app].
  2: { repeat split; try reflexivity. eexists. reflexivity. }
  destruct jsonr as [result | e1]; cbn [ok json negb fst snd app].
  2: { repeat split; try reflexivity. eexists. reflexivity. }
  destruct (showResult_cases result) as [Hreq Hcase].
  destruct (LegacyDashboard.showResult result) as [l c]. cbn [fst snd] in *.
  destruct Hcase as [[-> Htypes] | [[e ->] [Hnone ->]]]; cbn [fst snd app].
  - repeat split; try (eexists; reflexivity).
    + cbn [requests]. now rewrite Hreq.
    + change (Fetch req :: l) with ([Fetch req] ++ l)%list.
      now rewrite notificationTypes_app, Htypes.
  - repeat split; try (eexists; reflexivity).
    + change (Fetch req :: l ++ ?t)%list with ([Fetch req] ++ l ++ t)%list.
      now rewrite !requests_app, Hreq.
    + change (Fetch req :: l ++ ?t)%list with ([Fetch req] ++ l ++ t)%list.
      now rewrite !notificationTypes_app, Hnone.
Qed.

(** What [analyzeURL] does around its [try] statement. *)
Lemma analyzeURL_frame (input : string) :
  trim input <> "" ->
  exists attempt : run unit,
    LegacyDashboard.analyzeURL net input
    = ((fst (LegacyDashboard.setLoading true) ++ fst attempt
        ++ fst (LegacyDashboard.setLoading false))%list, Normal tt)
    /\ (exists middle, fst attempt = Fetch (api.analyzeRequest (trim input)) :: middle)
    /\ requests (fst attempt) = [api.analyzeRequest (trim input)]
    /\ notificationTypes (fst attempt)
       = [match net (api.analyzeRequest (trim input)) with
          | Normal r =>
              if ok r then
                match json r with
                | Normal result => (if nullish result || negb (coercible (optField result "confidence"))
              then "error"
              else if strictEqStr (optField result "prediction") "Phishing"
                   then if coercible (optField result "risk_score")
                           && coercible (optField result "threat_type")
                        then "critical" else "error"
                   else "success")
                | Throw _ => "error"
                end
              else "error"
          | Throw _ => "error"
          end].
Proof.
  intros Hurl.
  assert (Htruthy : truthyStr (trim input) = true).
  { destruct (truthyStr (trim input)) eqn:E; [reflexivity |].
    apply truthyStr_false in E. contradiction. }
  unfold LegacyDashboard.analyzeURL. rewrite Htruthy. simpl negb. cbv iota.
  change {| method := "POST";
            path := LegacyDashboard.API_BASE ++ "/analyze-url";
            body := Some (JObj [("url", JStr (trim input))]) |}
    with (api.analyzeRequest (trim input)).
  generalize (api.analyzeRequest (trim input)) as req. intros req.
  pose proof (analysis_attempt req) as H. cbv zeta in H.
  destruct H as [Hdone [Hshape [Hreq Hnote]]].
  match type of Hdone with
  | snd ?a = _ => set (attempt := a) in *
  end.
  exists attempt. split; [| split; [exact Hshape | split; assumption]].
  destruct attempt as [l [[] | e]]; [reflexivity | discriminate Hdone].
Qed.

(** X2. For an input that is not blank, whatever the network does,
    [analyzeURL] completes without throwing, sends exactly one request,
    which carries the trimmed input, puts the button into its loading
    state first and restores it last, and raises exactly one
    notification. *)
Theorem analyzeURL_envelope (input : string) :
  trim input <> "" ->
  snd (LegacyDashboard.analyzeURL net input) = Normal tt
  /\ requests (fst (LegacyDashboard.analyzeURL net input))
     = [api.analyzeRequest (trim input)]
  /\ (exists middle,
        fst (LegacyDashboard.analyzeURL net input)
        = (fst (LegacyDashboard.setLoading true)
           ++ Fetch (api.analyzeRequest (trim input)) :: middle
           ++ fst (LegacyDashboard.setLoading false))%list)
  /\ List.length (notifications (fst (LegacyDashboard.analyzeURL net input))) = 1%nat.
Proof.
  intros Hurl.
  destruct (analyzeURL_frame input Hurl)
    as (attempt & -> & [middle Hshape] & Hreq & Hnote).
  cbn [fst snd].
  split; [reflexivity |].
  split; [rewrite !requests_app, Hreq; reflexivity |].
  split; [exists middle; rewrite Hshape; reflexivity |].
  apply (f_equal (@List.length string)) in Hnote.
  unfold notificationTypes in Hnote. rewrite length_map in Hnote.
  rewrite !notifications_app, !length_app, Hnote. reflexivity.
Qed.

(** X3. For an input that is not blank, the one notification of
    [analyzeURL] is the phishing alert exactly when the response is ok,
    its body has the prediction [Phishing], and the confidence, the
    risk score and the threat type of the body convert; it announces a
    legitimate URL exactly when the response is ok, its body is neither
    null nor undefined, the prediction is anything else and the
    confidence converts; it is the failure notice in every other case:
    the request was rejected, the response was not ok, the body did not
    parse or was null, or a value that the display converts does not
    convert. *)
Theorem analyzeURL_notification (input : string) :
  trim input <> "" ->
  (notificationTypes (fst (LegacyDashboard.analyzeURL net input)) = ["critical"]
   <-> exists r result,
         net (api.analyzeRequest (trim input)) = Normal r
         /\ ok r = true /\ json r = Normal result
         /\ optField result "prediction" = JStr "Phishing"
         /\ coercible (optField result "confidence") = true
         /\ coercible (optField result "risk_score") = true
         /\ coercible (optField result "threat_type") = true)
  /\ (notificationTypes (fst (LegacyDashboard.analyzeURL net input)) = ["success"]
      <-> exists r result,
            net (api.analyzeRequest (trim input)) = Normal r
            /\ ok r = true /\ json r = Normal result
            /\ result <> JUndefined /\ result <> JNull
            /\ optField result "prediction" <> JStr "Phishing"
            /\ coercible (optField result "confidence") = true)
  /\ (notificationTypes (fst (LegacyDashboard.analyzeURL net input)) = ["error"]
      <-> forall r result,
            net (api.analyzeRequest (trim input)) = Normal r ->
            ok r = true -> json r = Normal result ->
            result = JUndefined \/ result = JNull
            \/ coercible (optField result "confidence") = false
            \/ (optField result "prediction" = JStr "Phishing"
                /\ (coercible (optField result "risk_score") = false
                    \/ coercible (optField result "threat_type") = false))).
Proof.
  intros Hurl.
  destruct (analyzeURL_frame input Hurl)
    as (attempt & -> & _ & _ & Hnote).
  cbn [fst]. rewrite !notificationTypes_app, Hnote.
  change (notificationTypes (fst (LegacyDashboard.setLoading true))) with (@nil string).
  change (notificationTypes (fst (LegacyDashboard.setLoading false))) with (@nil string).
  cbn [app]. clear Hnote attempt.
  generalize (api.analyzeRequest (trim input)) as req. intros req.
  destruct (net req) as [[okr jsonr] | e0]; cbn [ok json].
  2: { split; [| split]; (split; intros Hx); try discriminate Hx; try reflexivity.
       - destruct Hx as (r & res & Hr & _). discriminate Hr.
       - destruct Hx as (r & res & Hr & _). discriminate Hr.
       - intros r res Hr. discriminate Hr. }
  destruct okr.
  2: { split; [| split]; (split; intros Hx); try discriminate Hx; try reflexivity.
       - destruct Hx as (r & res & Hr & Hok & _). injection Hr as <-. discriminate Hok.
       - destruct Hx as (r & res & Hr & Hok & _). injection Hr as <-. discriminate Hok.
       - intros r res Hr Hok. injection Hr as <-. discriminate Hok. }
  destruct jsonr as [result | e1].
  2: { split; [| split]; (split; intros Hx); try discriminate Hx; try reflexivity.
       - destruct Hx as (r & res & Hr & _ & Hj & _). injection Hr as <-. discriminate Hj.
       - destruct Hx as (r & res & Hr & _ & Hj & _). injection Hr as <-. discriminate Hj.
       - intros r res Hr _ Hj. injection Hr as <-. discriminate Hj. }
  assert (Hnull : nullish result = true <-> result = JUndefined \/ result = JNull).
  { destruct result; simpl; split; intros H; try discriminate H; auto;
      destruct H; discriminate. }
  pose proof (strictEqStr_iff (optField result "prediction") "Phishing") as Hstrict.
  destruct (nullish result) eqn:En; cbn [orb].
  { assert (Hcase : result = JUndefined \/ result = JNull) by now apply Hnull.
    split; [| split]; (split; intros Hx); try discriminate Hx; try reflexivity.
    - destruct Hx as (r & res & Hr & _ & Hj & Hp & _). injection Hr as <-.
      injection Hj as <-. destruct Hcase; subst; discriminate Hp.
    - destruct Hx as (r & res & Hr & _ & Hj & Hu & Hn & _). injection Hr as <-.
      injection Hj as <-. destruct Hcase; contradiction.
    - intros r res Hr _ Hj. injection Hr as <-. injection Hj as <-.
      destruct Hcase; auto. }
  assert (Hu : result <> JUndefined) by (intros ->; discriminate En).
  assert (Hn : result <> JNull) by (intros ->; discriminate En).
  destruct (coercible (optField result "confidence")) eqn:Ec; cbn [negb].
  2: { split; [| split]; (split; intros Hx); try discriminate Hx; try reflexivity.
       - destruct Hx as (r & res & Hr & _ & Hj & _ & Hc & _). injection Hr as <-.
         injection Hj as <-. congruence.
       - destruct Hx as (r & res & Hr & _ & Hj & _ & _ & _ & Hc). injection Hr as <-.
         injection Hj as <-. congruence.
       - intros r res Hr _ Hj. injection Hr as <-. injection Hj as <-. auto. }
  destruct (strictEqStr (optField result "prediction") "Phishing") eqn:E.
  - assert (Hp : optField result "prediction" = JStr "Phishing") by now apply Hstrict.
    destruct (coercible (optField result "risk_score")) eqn:Er; cbn [andb].
    2: { split; [| split]; (split; intros Hx); try discriminate Hx; try reflexivity.
         - destruct Hx as (r & res & Hr & _ & Hj & _ & _ & Hc & _). injection Hr as <-.
           injection Hj as <-. congruence.
         - destruct Hx as (r & res & Hr & _ & Hj & _ & _ & Hq & _). injection Hr as <-.
           injection Hj as <-. contradiction.
         - intros r res Hr _ Hj. injection Hr as <-. injection Hj as <-.
           right; right; right. split; [exact Hp | left; exact Er]. }
    destruct (coercible (optField result "threat_type")) eqn:Et.
    2: { split; [| split]; (split; intros Hx); try discriminate Hx; try reflexivity.
         - destruct Hx as (r & res & Hr & _ & Hj & _ & _ & _ & Hc). injection Hr as <-.
           injection Hj as <-. congruence.
         - destruct Hx as (r & res & Hr & _ & Hj & _ & _ & Hq & _). injection Hr as <-.
           injection Hj as <-. contradiction.
         - intros r res Hr _ Hj. injection Hr as <-. injection Hj as <-.
           right; right; right. split; [exact Hp | right; exact Et]. }
    split; [| split]; (split; intros Hx); try discriminate Hx; try reflexivity.
    + exists {| ok := true; json := Normal result |}, result.
      repeat split; assumption.
    + destruct Hx as (r & res & Hr & _ & Hj & _ & _ & Hq & _). injection Hr as <-.
      injection Hj as <-. contradiction.
    + destruct (Hx _ _ eq_refl eq_refl eq_refl) as [H | [H | [H | [_ [H | H]]]]];
        congruence.
  - assert (Hp : optField result "prediction" <> JStr "Phishing").
    { intros Heq. apply Hstrict in Heq. congruence. }
    split; [| split]; (split; intros Hx); try discriminate Hx; try reflexivity.
    + destruct Hx as (r & res & Hr & _ & Hj & Hq & _). injection Hr as <-.
      injection Hj as <-. contradiction.
    + exists {| ok := true; json := Normal result |}, result.
      repeat split; assumption.
    + destruct (Hx _ _ eq_refl eq_refl eq_refl) as [H | [H | [H | [H _]]]];
        congruence.
Qed.

End LegacyAnalysis.

Lemma analyzeURL_envelope_witness :
  trim " http://example.test " <> ""
  /\ snd (@LegacyDashboard.analyzeURL Sample.host Sample.refusing
            " http://example.test ") = Normal tt.
Proof.
  assert (H : trim " http://example.test " <> "") by discriminate.
  split; [exact H |].
  apply (@analyzeURL_envelope Sample.host Sample.refusing
           " http://example.test " H).
Defined.
(** ** The legacy dashboard: statistics *)

Section LegacyStatistics.
Context {host : Host}.

(** X4. [formatNumber] throws exactly on [undefined], on [null] and on
    a value that does not convert to a primitive; every other value
    yields a string. *)
Theorem formatNumber_throws_iff (num : jsval) :
  (exists e, LegacyDashboard.formatNumber num = Throw e)
  <-> nullish num = true \/ coercible num = false.
Proof.
  unfold LegacyDashboard.formatNumber, callToString, coerceNumber, coerceString.
  destruct (coercible num) eqn:Hc; cbn [bind].
  - split.
    + intros [e H]. left. destruct num; try reflexivity;
        destruct (ge _ _); discriminate.
    + intros [H | H]; [| discriminate H].
      destruct num; try discriminate; eexists; reflexivity.
  - split; [intros _; right; reflexivity | intros _; eexists; reflexivity].
Qed.

Lemma formatNumber_cases (num : jsval) :
  (negb (nullish num) && coercible num = false
   /\ exists e, LegacyDashboard.formatNumber num = Throw e)
  \/ (negb (nullish num) && coercible num = true
      /\ exists s, LegacyDashboard.formatNumber num = Normal s).
Proof.
  unfold LegacyDashboard.formatNumber, callToString, coerceNumber, coerceString.
  destruct (coercible num) eqn:Hc; cbn [bind].
  - destruct num;
      try (left; split; [reflexivity | eexists; reflexivity]);
      right; (split; [reflexivity |]);
      match goal with
      | |- context [if ?c then _ else _] => destruct c
      end; eexists; reflexivity.
  - left. split; [apply andb_false_r | eexists; reflexivity].
Qed.

Lemma forallb_nth {A : Type} (p : A -> bool) (d : A) (l : list A) (k : nat) (pre : list A) :
  List.length pre = k ->
  forallb (fun i => p (nth i (pre ++ l) d)) (seq k (List.length l)) = forallb p l.
Proof.
  revert k pre. induction l as [| x l IH]; intros k pre Hk; [reflexivity |].
  cbn [List.length seq forallb].
  rewrite app_nth2 by lia. rewrite Hk, Nat.sub_diag. cbn [nth].
  f_equal.
  replace (pre ++ x :: l)%list with ((pre ++ [x]) ++ l)%list
    by (now rewrite <- app_assoc).
  apply IH. rewrite length_app. simpl. lia.
Qed.

(** The legend is computed entry by entry and fails at the first value
    that does not convert to a number. *)
Lemma legend_from (k : nat) (labels : list string) (data : list jsval) :
  mapM (fun '(index, label) =>
          value <- coerceNumber (nth index data JUndefined) ;;
          Normal {| legendColor := nth index LegacyDashboard.colors "undefined";
                    legendText := label;
                    legendValue := numToFixed 0 (mul value (Num 100)) ++ "%" |})
       (combine (seq k (List.length labels)) labels)
  = if forallb (fun i => coercible (nth i data JUndefined))
               (seq k (List.length labels))
    then Normal
           (map (fun '(index, label) =>
                   {| legendColor := nth index LegacyDashboard.colors "undefined";
                      legendText := label;
                      legendValue :=
                        numToFixed 0
                          (mul (toNumber (nth index data JUndefined)) (Num 100))
                        ++ "%" |})
                (combine (seq k (List.length labels)) labels))
    else Throw unconvertible.
Proof.
  revert k. induction labels as [| label labels IH]; intros k; [reflexivity |].
  cbn [List.length seq combine mapM map forallb].
  unfold coerceNumber at 1.
  destruct (coercible (nth k data JUndefined)); cbn [bind andb]; [| reflexivity].
  rewrite IH.
  now destruct (forallb _ (seq (S k) (List.length labels))).
Qed.

Lemma length_keys_values (v : jsval) :
  List.length (keys v) = List.length (values v).
Proof. unfold keys, values. now rewrite !length_map. Qed.

(** [updateDonutChart] updates the chart and then either sets the
    legend or throws, according to whether the values of the breakdown
    convert. *)
Lemma updateDonutChart_cases (threatBreakdown : jsval) :
  exists labels data,
    if forallb coercible (values threatBreakdown)
    then exists items,
           LegacyDashboard.updateDonutChart threatBreakdown
           = ([DonutUpdate labels data; LegendSet items], Normal tt)
    else LegacyDashboard.updateDonutChart threatBreakdown
         = ([DonutUpdate labels data], Throw unconvertible).
Proof.
  unfold LegacyDashboard.updateDonutChart, LegacyDashboard.updateDonutLegend.
  rewrite legend_from.
  destruct (negb (truthy threatBreakdown)
            || Nat.eqb (List.length (keys threatBreakdown)) 0) eqn:Hdefault;
    do 2 eexists.
  - assert (Hvalues : forallb coercible (values threatBreakdown) = true).
    { apply orb_true_iff in Hdefault. destruct Hdefault as [H | H].
      - destruct threatBreakdown as [| | b | q | s | items | fields];
          try reflexivity; try discriminate H.
        destruct s; [reflexivity | discriminate H].
      - apply Nat.eqb_eq in H. rewrite length_keys_values in H.
        now destruct (values threatBreakdown). }
    rewrite Hvalues. eexists. reflexivity.
  - rewrite length_keys_values.
    pose proof (forallb_nth coercible JUndefined (values threatBreakdown) 0 []
                  eq_refl) as Hnth.
    cbn [app] in Hnth. rewrite Hnth.
    destruct (forallb coercible (values threatBreakdown)).
    + eexists. reflexivity.
    + reflexivity.
Qed.

Ltac metrics_steps :=
  cbn -[numToFixed mul div add sub gt ge le round64 toNumber toStringJS
        coercible optField strictEqStr String.append truthy toFixed
        numberString LegacyDashboard.formatNumber
        LegacyDashboard.updateDonutChart nullish].

(** X5. [loadStatistics] writes the metrics in a fixed order and stops
    at the first value it cannot show.  With a null body, or a
    [total_analyzed] that is missing or does not convert, nothing is
    written; a [detection_accuracy] that does not convert stops it
    after one field, an [avg_response_time_ms] that does not convert
    after two, a [today_count] that is missing or does not convert
    after three, and then the charts are left alone.  Otherwise all
    five fields are written and the donut chart is updated; the legend
    and the trend charts follow when every value of the breakdown
    converts, and nothing follows the chart when one does not. *)
Theorem updateMetrics_progress (data : jsval) :
  let shown v := negb (nullish v) && coercible v in
  let out := LegacyDashboard.updateMetrics data in
  (nullish data = true \/ shown (optField data "total_analyzed") = false ->
   fst out = [] /\ exists e, snd out = Throw e)
  /\ (shown (optField data "total_analyzed") = true ->
      coercible (optField data "detection_accuracy") = false ->
      written (fst out) = ["totalAnalyzed"]
      /\ List.length (fst out) = 1%nat
      /\ exists e, snd out = Throw e)
  /\ (shown (optField data "total_analyzed") = true ->
      coercible (optField data "detection_accuracy") = true ->
      coercible (optField data "avg_response_time_ms") = false ->
      written (fst out) = ["totalAnalyzed"; "accuracy"]
      /\ List.length (fst out) = 2%nat
      /\ exists e, snd out = Throw e)
  /\ (shown (optField data "total_analyzed") = true ->
      coercible (optField data "detection_accuracy") = true ->
      coercible (optField data "avg_response_time_ms") = true ->
      shown (optField data "today_count") = false ->
      written (fst out) = ["totalAnalyzed"; "accuracy"; "responseTime"]
      /\ List.length (fst out) = 3%nat
      /\ exists e, snd out = Throw e)
  /\ (shown (optField data "total_analyzed") = true ->
      coercible (optField data "detection_accuracy") = true ->
      coercible (optField data "avg_response_time_ms") = true ->
      shown (optField data "today_count") = true ->
      written (fst out)
      = ["totalAnalyzed"; "accuracy"; "responseTime"; "todayCount";
         "avgResponseTime"]
      /\ (forallb coercible (values (optField data "threat_breakdown")) = true ->
          List.length (fst out) = 8%nat
          /\ last (fst out) (Alert "") = MiniCharts
          /\ snd out = Normal tt)
      /\ (forallb coercible (values (optField data "threat_breakdown")) = false ->
          List.length (fst out) = 6%nat
          /\ (exists labels values, last (fst out) (Alert "") = DonutUpdate labels values)
          /\ exists e, snd out = Throw e)).
Proof.
  cbv zeta.
  unfold LegacyDashboard.updateMetrics, LegacyDashboard.setText.
  destruct (nullish data) eqn:Hdata.
  { assert (Hout : forall k, optField data k = JUndefined)
      by (intros k; destruct data; try discriminate Hdata; reflexivity).
    rewrite !Hout. cbn [nullish negb coercible andb].
    assert (Hget : forall k, exists e, getField data k = Throw e)
      by (intros k; destruct data; try discriminate Hdata; eexists; reflexivity).
    destruct (Hget "total_analyzed") as [e ->]. rewrite rbind_lift.
    split; [intros _; split; [reflexivity | eexists; reflexivity] |].
    repeat split; intros; discriminate. }
  rewrite !(getField_optField data) by exact Hdata.
  generalize (optField data "total_analyzed") as total.
  generalize (optField data "detection_accuracy") as accuracy.
  generalize (optField data "avg_response_time_ms") as avg.
  generalize (optField data "today_count") as today.
  generalize (optField data "threat_breakdown") as breakdown.
  intros breakdown today avg accuracy total.
  unfold coerceNumber, coerceString. metrics_steps.
  destruct (formatNumber_cases total) as [[Ht [e Hf]] | [Ht [s Hf]]];
    rewrite Ht, Hf; metrics_steps.
  { split; [intros _; split; [reflexivity | eexists; reflexivity] |].
    repeat split; intros; discriminate. }
  destruct (coercible accuracy) eqn:Ha; metrics_steps.
  2: { split; [intros [H | H]; discriminate H |].
       split; [intros _ _; repeat split; eexists; reflexivity |].
       repeat split; intros; discriminate. }
  destruct (coercible avg) eqn:Hv; metrics_steps.
  2: { split; [intros [H | H]; discriminate H |].
       split; [intros; discriminate |].
       split; [intros _ _ _; repeat split; eexists; reflexivity |].
       repeat split; intros; discriminate. }
  destruct (formatNumber_cases today) as [[Hd [e Hg]] | [Hd [s' Hg]]];
    rewrite Hd, Hg; metrics_steps.
  { split; [intros [H | H]; discriminate H |].
    split; [intros; discriminate |].
    split; [intros; discriminate |].
    split; [intros _ _ _ _; repeat split; eexists; reflexivity |].
    intros; discriminate. }
  split; [intros [H | H]; discriminate H |].
  split; [intros; discriminate |].
  split; [intros; discriminate |].
  split; [intros; discriminate |].
  intros _ _ _ _.
  destruct (updateDonutChart_cases breakdown) as (labels & values & Hchart).
  destruct (forallb coercible (JS.values breakdown)).
  - destruct Hchart as [items ->].
    split; [reflexivity |].
    split; [intros _; repeat split | intros H; discriminate H].
  - rewrite Hchart.
    split; [reflexivity |].
    split; [intros H; discriminate H |].
    intros _. repeat split; [| eexists; reflexivity].
    exists labels, values. reflexivity.
Qed.

Lemma quiet_rbind {A B : Type} (m : run A) (k : A -> run B) :
  requests (fst m) = [] /\ consoleErrors (fst m) = [] ->
  (forall a, requests (fst (k a)) = [] /\ consoleErrors (fst (k a)) = []) ->
  requests (fst (rbind m k)) = [] /\ consoleErrors (fst (rbind m k)) = [].
Proof.
  intros [Hr Hc] Hk. rewrite fst_rbind.
  destruct (snd m) as [a | e]; [| now split].
  destruct (Hk a) as [Hr' Hc'].
  assert (Happ : forall l1 l2, consoleErrors (l1 ++ l2)
                   = (consoleErrors l1 ++ consoleErrors l2)%list).
  { clear. induction l1 as [| [] l1 IH]; intros; simpl; try apply IH; try reflexivity.
    now rewrite IH. }
  now rewrite requests_app, Happ, Hr, Hc, Hr', Hc'.
Qed.

Lemma quiet_lift {A : Type} (c : completion A) :
  requests (fst (lift c)) = [] /\ consoleErrors (fst (lift c)) = [].
Proof. destruct c; split; reflexivity. Qed.

Lemma updateMetrics_quiet (data : jsval) :
  requests (fst (LegacyDashboard.updateMetrics data)) = []
  /\ consoleErrors (fst (LegacyDashboard.updateMetrics data)) = []
  /\ (snd (LegacyDashboard.updateMetrics data) = Normal tt
      \/ exists e, snd (LegacyDashboard.updateMetrics data) = Throw e).
Proof.
  assert (Hquiet : requests (fst (LegacyDashboard.updateMetrics data)) = []
                   /\ consoleErrors (fst (LegacyDashboard.updateMetrics data)) = []).
  { unfold LegacyDashboard.updateMetrics, LegacyDashboard.setText,
      LegacyDashboard.updateDonutChart.
    repeat (apply quiet_rbind; [| intros ?]);
      try apply quiet_lift; split; reflexivity. }
  destruct Hquiet as [Hr Hc]. split; [exact Hr | split; [exact Hc |]].
  destruct (snd (LegacyDashboard.updateMetrics data)) as [[] | e];
    [left; reflexivity | right; eexists; reflexivity].
Qed.

Section WithNetwork.
Variable net : network.

(** X6. Whatever the network does, [loadStatistics] completes without
    throwing, sends exactly one request, [GET /api/stats], and logs at
    most one error.  The global [stats] becomes the body when one
    could be read and keeps its value otherwise.  The [ok] flag of the
    response is not consulted: the body of an error response is
    displayed like any other. *)
Theorem loadStatistics_envelope (stats : jsval) :
  snd (snd (LegacyDashboard.loadStatistics net stats)) = Normal tt
  /\ requests (fst (snd (LegacyDashboard.loadStatistics net stats)))
     = [statsRequest]
  /\ (List.length (consoleErrors (fst (snd (LegacyDashboard.loadStatistics net stats))))
      <= 1)%nat
  /\ fst (LegacyDashboard.loadStatistics net stats)
     = match net statsRequest with
       | Normal r => match json r with
                     | Normal data => data
                     | Throw _ => stats
                     end
       | Throw _ => stats
       end
  /\ (forall net' r,
        net statsRequest = Normal r ->
        net' statsRequest = Normal {| ok := negb (ok r); json := json r |} ->
        LegacyDashboard.loadStatistics net' stats
        = LegacyDashboard.loadStatistics net stats).
Proof.
  unfold LegacyDashboard.loadStatistics.
  change {| method := "GET"; path := LegacyDashboard.API_BASE ++ "/stats";
            body := None |} with statsRequest.
  unfold fetch, rcatch, rbind, lift, emit.
  destruct (net statsRequest) as [[okr jsonr] | e0] eqn:Hnet; cbn [json ok snd fst].
  2: { repeat split; try reflexivity; try (simpl; lia).
       intros net' r Hr. discriminate Hr. }
  destruct jsonr as [data | e1]; cbn [snd fst].
  2: { repeat split; try reflexivity; try (simpl; lia).
       intros net' r Hr Hr'. injection Hr as <-. rewrite Hr'. reflexivity. }
  destruct (updateMetrics_quiet data) as [Hreq [Herr Hdone]].
  destruct (LegacyDashboard.updateMetrics data) as [l [[] | e]] eqn:Hm;
    cbn [fst snd] in *.
  - repeat split; try reflexivity.
    + simpl. now rewrite Hreq.
    + simpl. rewrite Herr. simpl. lia.
    + intros net' r Hr Hr'. injection Hr as <-. rewrite Hr'. cbn [json snd fst].
      rewrite Hm. reflexivity.
  - repeat split; try reflexivity.
    + simpl. rewrite requests_app, Hreq. reflexivity.
    + simpl. assert (Hc : forall l1 l2, consoleErrors (l1 ++ l2)
                              = (consoleErrors l1 ++ consoleErrors l2)%list).
      { clear. induction l1 as [| [] l1 IH]; intros; simpl; try apply IH; try reflexivity.
        now rewrite IH. }
      rewrite Hc, Herr. simpl. lia.
    + intros net' r Hr Hr'. injection Hr as <-. rewrite Hr'. cbn [json snd fst].
      rewrite Hm. reflexivity.
Qed.

End WithNetwork.

End LegacyStatistics.
(** ** Severity and risk colours beyond the integers of [0,100] *)

Section AnyScore.
Context {host : Host}.
Local Open Scope Q_scope.

Lemma Qle_bool_spec (a b : Q) : BoolSpec (a <= b) (b < a) (Qle_bool a b).
Proof.
  destruct (Qle_bool a b) eqn:E; constructor.
  - now apply Qle_bool_iff.
  - apply Qnot_le_lt. intros H. apply Qle_bool_iff in H. congruence.
Qed.

Ltac qcases :=
  repeat match goal with
         | |- context [Qle_bool ?a ?b] => destruct (Qle_bool_spec a b)
         end;
  simpl;
  repeat split; intros; try discriminate; try lra; try reflexivity.

(** X7. [getSeverity] is the staircase on every binary64 score, not
    only on the integers of [0,100]: CRITICAL from 76 on, HIGH on
    [51,76), MEDIUM on [26,51), LOW below 26.  A score that converts
    to [NaN], such as a missing one, is LOW. *)
Theorem getSeverity_any_score (q : Q) (v : jsval) :
  round64 q = Num q ->
  coercible v = true ->
  toNumber v = NaN ->
  (LegacyDashboard.getSeverity (JNum q) = "CRITICAL"%string <-> 76 <= q)
  /\ (LegacyDashboard.getSeverity (JNum q) = "HIGH"%string <-> 51 <= q /\ q < 76)
  /\ (LegacyDashboard.getSeverity (JNum q) = "MEDIUM"%string <-> 26 <= q /\ q < 51)
  /\ (LegacyDashboard.getSeverity (JNum q) = "LOW"%string <-> q < 26)
  /\ LegacyDashboard.getSeverity v = "LOW"%string.
Proof.
  intros Hq _ Hv. unfold LegacyDashboard.getSeverity. rewrite Hv.
  cbn [toNumber]. rewrite Hq. unfold ge. qcases.
Qed.

(** X8. The result card and the threat feed colour a risk score
    consistently at the top: the feed and the logs show it as critical
    exactly when the card does.  What the card shows as warning, the
    feed shows as success, and a score that converts to [NaN] is shown
    as success by both. *)
Theorem risk_colours_agree_on_critical (score v : jsval) :
  coercible v = true ->
  toNumber v = NaN ->
  (ResultCard.logRiskClassName score = "text-critical"%string
   <-> ResultCard.riskScoreClassName score = "text-critical"%string)
  /\ (ResultCard.riskScoreClassName score = "text-warning"%string ->
      ResultCard.logRiskClassName score = "text-success"%string)
  /\ (ResultCard.riskScoreClassName score = "text-success"%string ->
      ResultCard.logRiskClassName score = "text-success"%string)
  /\ ResultCard.riskScoreClassName v = "text-success"%string
  /\ ResultCard.logRiskClassName v = "text-success"%string.
Proof.
  intros _ Hv. unfold ResultCard.logRiskClassName, ResultCard.riskScoreClassName.
  rewrite Hv. simpl.
  destruct (gt (toNumber score) (Num 70)); [| destruct (gt (toNumber score) (Num 30))];
    repeat split; intros; try discriminate; reflexivity.
Qed.

End AnyScore.

Lemma getSeverity_any_score_witness :
  round64 (151 # 2) = Num (151 # 2)
  /\ coercible JUndefined = true
  /\ @toNumber Sample.host JUndefined = NaN
  /\ @LegacyDashboard.getSeverity Sample.host (JNum (151 # 2)) = "HIGH"
  /\ @LegacyDashboard.getSeverity Sample.host JUndefined = "LOW".
Proof.
  assert (Hq : round64 (151 # 2) = Num (151 # 2)) by (vm_compute; reflexivity).
  split; [exact Hq |]. split; [reflexivity |]. split; [reflexivity |].
  destruct (@getSeverity_any_score Sample.host (151 # 2) JUndefined Hq eq_refl eq_refl)
    as (_ & Hhigh & _ & _ & Hlow).
  split; [| exact Hlow].
  apply Hhigh. split; [discriminate | reflexivity].
Defined.

Lemma risk_colours_agree_on_critical_witness :
  coercible JUndefined = true
  /\ @toNumber Sample.host JUndefined = NaN
  /\ @ResultCard.logRiskClassName Sample.host JUndefined = "text-success".
Proof.
  split; [reflexivity |]. split; [reflexivity |].
  apply (@risk_colours_agree_on_critical Sample.host (JNum 50) JUndefined
           eq_refl eq_refl).
Defined.

(** ** The legacy dashboard: the target brand *)

Lemma findBrand_member (u : string) (bs : list string) :
  RecentThreats.findBrand u bs = "Unknown"
  \/ (In (RecentThreats.findBrand u bs) bs
      /\ Str.includes (RecentThreats.needle (RecentThreats.findBrand u bs)) u = true).
Proof.
  induction bs as [| b bs IH]; simpl; [now left |].
  destruct (Str.includes (RecentThreats.needle b) u) eqn:E.
  - right. split; [now left | exact E].
  - destruct IH as [IH | [IH1 IH2]]; [now left | right; split; [now right | exact IH2]].
Qed.

Lemma findBrand_unknown (u : string) (bs : list string) :
  ~ In "Unknown" bs ->
  (RecentThreats.findBrand u bs = "Unknown"
   <-> forall b, In b bs -> Str.includes (RecentThreats.needle b) u = false).
Proof.
  induction bs as [| b bs IH]; simpl; intros Hnot.
  - split; [intros _ b [] | reflexivity].
  - destruct (Str.includes (RecentThreats.needle b) u) eqn:E.
    + split.
      * intros ->. exfalso. apply Hnot. now left.
      * intros H. rewrite (H b (or_introl eq_refl)) in E. discriminate.
    + rewrite IH by (intros H; apply Hnot; now right).
      split.
      * intros H b' [<- | Hb]; [exact E | now apply H].
      * intros H b' Hb. apply H. now right.
Qed.

(** X9. [getTargetBrand] answers one of its seven brands or [Unknown].
    It answers [Unknown] exactly when none of the patterns paypal,
    microsoft365, chasebank, amazon, apple, netflix and google occurs
    in the lower-cased URL; a brand it answers has its pattern in the
    URL, and a URL with paypal in it is always attributed to PayPal,
    whatever else it contains. *)
Theorem getTargetBrand_matches (url : string) :
  (RecentThreats.getTargetBrand url = "Unknown"
   \/ In (RecentThreats.getTargetBrand url) RecentThreats.brands)
  /\ (RecentThreats.getTargetBrand url = "Unknown"
      <-> forall b, In b RecentThreats.brands ->
                    Str.includes (RecentThreats.needle b) (Str.toLowerCase url) = false)
  /\ (RecentThreats.getTargetBrand url <> "Unknown" ->
      Str.includes (RecentThreats.needle (RecentThreats.getTargetBrand url))
                   (Str.toLowerCase url) = true)
  /\ map RecentThreats.needle RecentThreats.brands
     = ["paypal"; "microsoft365"; "chasebank"; "amazon"; "apple"; "netflix"; "google"]
  /\ (Str.includes "paypal" (Str.toLowerCase url) = true ->
      RecentThreats.getTargetBrand url = "PayPal").
Proof.
  unfold RecentThreats.getTargetBrand.
  pose proof (findBrand_member (Str.toLowerCase url) RecentThreats.brands) as Hm.
  split; [destruct Hm as [H | [H _]]; [now left | now right] |].
  split.
  { apply findBrand_unknown. simpl. intuition discriminate. }
  split; [intros Hne; destruct Hm as [H | [_ H]]; [contradiction | exact H] |].
  split; [reflexivity |].
  intros Hp. simpl.
  change (RecentThreats.needle "PayPal") with "paypal". now rewrite Hp.
Qed.

Lemma toLowerChar_toUpperChar (c : ascii) :
  Str.toLowerChar (Str.toUpperChar c) = Str.toLowerChar c.
Proof.
  destruct c as [[] [] [] [] [] [] [] []]; reflexivity.
Qed.

Lemma toLowerChar_idem (c : ascii) :
  Str.toLowerChar (Str.toLowerChar c) = Str.toLowerChar c.
Proof.
  destruct c as [[] [] [] [] [] [] [] []]; reflexivity.
Qed.

Lemma toLowerCase_toUpperCase (s : string) :
  Str.toLowerCase (Str.toUpperCase s) = Str.toLowerCase s.
Proof.
  unfold Str.toLowerCase, Str.toUpperCase in *.
  induction s as [| c s IH]; cbn [Str.mapChars]; [reflexivity |].
  now rewrite toLowerChar_toUpperChar, IH.
Qed.

Lemma toLowerCase_idem (s : string) :
  Str.toLowerCase (Str.toLowerCase s) = Str.toLowerCase s.
Proof.
  unfold Str.toLowerCase in *.
  induction s as [| c s IH]; cbn [Str.mapChars]; [reflexivity |].
  now rewrite toLowerChar_idem, IH.
Qed.

(** X10. [getTargetBrand] does not depend on the case of the letters
    a-z of the URL: writing them all in upper case, or all in lower
    case, gives the same brand. *)
Theorem getTargetBrand_ignores_case (url : string) :
  RecentThreats.getTargetBrand (Str.toUpperCase url)
  = RecentThreats.getTargetBrand url
  /\ RecentThreats.getTargetBrand (Str.toLowerCase url)
     = RecentThreats.getTargetBrand url.
Proof.
  unfold RecentThreats.getTargetBrand.
  now rewrite toLowerCase_toUpperCase, toLowerCase_idem.
Qed.

Example getTargetBrand_samples :
  RecentThreats.getTargetBrand "http://PayPal-secure-login.verify-account.xyz" = "PayPal"
  /\ RecentThreats.getTargetBrand "https://login.microsoft365.support/apple" = "Microsoft 365"
  /\ RecentThreats.getTargetBrand "https://login.microsoftonline.com" = "Unknown"
  /\ RecentThreats.getTargetBrand "https://chase-bank.example" = "Unknown".
Proof. repeat split; reflexivity. Qed.

(** ** The legacy dashboard: the threat table *)

Lemma mapM_Forall2 {A B : Type} (f : A -> completion B) (l : list A) (ys : list B) :
  mapM f l = Normal ys -> Forall2 (fun x y => f x = Normal y) l ys.
Proof.
  revert ys. induction l as [| x l IH]; simpl; intros ys H.
  - injection H as <-. constructor.
  - destruct (f x) as [y | e] eqn:Hx; simpl in H; [| discriminate].
    destruct (mapM f l) as [ys' | e] eqn:Hl; simpl in H; [| discriminate].
    injection H as <-. constructor; [exact Hx | now apply IH].
Qed.

Lemma mapM_total {A B : Type} (f : A -> completion B) (l : list A) :
  Forall (fun x => exists y, f x = Normal y) l ->
  exists ys, mapM f l = Normal ys.
Proof.
  induction 1 as [| x l [y Hx] _ [ys IH]]; simpl.
  - eexists. reflexivity.
  - rewrite Hx, IH. simpl. eexists. reflexivity.
Qed.

Lemma mapM_throws {A B : Type} (f : A -> completion B) (l : list A) (x : A) :
  In x l -> (exists e, f x = Throw e) ->
  exists e, mapM f l = Throw e.
Proof.
  intros Hin [e Hx]. induction l as [| x' l IH]; [contradiction |].
  simpl. destruct Hin as [-> | Hin].
  - rewrite Hx. simpl. eexists. reflexivity.
  - destruct (f x') as [y | e'] eqn:Hx'; simpl; [| eexists; reflexivity].
    destruct (IH Hin) as [e'' ->]. simpl. eexists. reflexivity.
Qed.

Lemma coercible_or (a d : jsval) :
  coercible d = true -> coercible (or a d) = coercible a.
Proof.
  intros Hd. unfold or. destruct (truthy a) eqn:H; [reflexivity |].
  rewrite Hd. destruct a; try reflexivity; discriminate H.
Qed.

Section ThreatTable.
Context {host : Host}.
Variable toLocaleTimeString : jsval -> string.

Lemma extractDomain_returns (url : string) :
  exists d, LegacyDashboard.extractDomain url = Normal d.
Proof.
  unfold LegacyDashboard.extractDomain, newURL, tryCatch, bind.
  destruct (parseURL _); eexists; reflexivity.
Qed.

Lemma threatRow_normal_iff (threat : jsval) :
  (exists row, RecentThreats.threatRow toLocaleTimeString threat = Normal row)
  <-> nullish threat = false
      /\ isString (optField threat "url") = true
      /\ coercible (optField threat "timestamp") = true
      /\ coercible (optField threat "risk_score") = true
      /\ coercible (optField threat "threat_type") = true.
Proof.
  unfold RecentThreats.threatRow.
  destruct (nullish threat) eqn:Hn.
  { destruct threat; try discriminate Hn;
      (split; [intros [row H]; discriminate H | intros [H _]; discriminate H]). }
  rewrite !(getField_optField threat) by exact Hn.
  unfold coercePrimitive, coerceNumber, coerceString. cbn [bind].
  destruct (coercible (optField threat "timestamp")); cbn [bind];
    [| split; [intros [row H]; discriminate H | intros (_ & _ & H & _); discriminate H]].
  destruct (optField threat "url") as [| | b | q | s | items | fs];
    cbn [RecentThreats.extractDomainOf bind isString];
    try (split; [intros [row H]; discriminate H | intros (_ & H & _); discriminate H]).
  destruct (extractDomain_returns s) as [d ->]. cbn [bind].
  destruct (coercible (optField threat "risk_score")); cbn [bind];
    [| split; [intros [row H]; discriminate H
              | intros (_ & _ & _ & H & _); discriminate H]].
  rewrite coercible_or by reflexivity.
  destruct (coercible (optField threat "threat_type")); cbn [bind];
    [| split; [intros [row H]; discriminate H
              | intros (_ & _ & _ & _ & H); discriminate H]].
  split; [intros _; repeat split | intros _; eexists; reflexivity].
Qed.

(** X11. A row of the threat table can be built exactly for a threat
    that is an object with a string [url] whose [timestamp],
    [risk_score] and [threat_type] convert to primitives; the row then
    carries the severity that [getSeverity] gives to its [risk_score],
    the brand that [getTargetBrand] finds in its URL, the domain that
    [extractDomain] returns, and [Unknown] as threat type when
    [threat_type] is missing or null. *)
Theorem threatRow_defined_iff (threat : jsval) :
  ((exists row, RecentThreats.threatRow toLocaleTimeString threat = Normal row)
   <-> exists fields url,
         threat = JObj fields /\ lookup "url" fields = JStr url
         /\ coercible (lookup "timestamp" fields) = true
         /\ coercible (lookup "risk_score" fields) = true
         /\ coercible (lookup "threat_type" fields) = true)
  /\ (forall row url,
        RecentThreats.threatRow toLocaleTimeString threat = Normal row ->
        optField threat "url" = JStr url ->
        RecentThreats.severity row
        = LegacyDashboard.getSeverity (optField threat "risk_score")
        /\ RecentThreats.targetBrand row = RecentThreats.getTargetBrand url
        /\ LegacyDashboard.extractDomain url = Normal (RecentThreats.domain row)
        /\ (nullish (optField threat "threat_type") = true ->
            RecentThreats.threatType row = "Unknown")).
Proof.
  split.
  - rewrite threatRow_normal_iff. split.
    + intros (Hn & Hs & Ht & Hr & Hy). destruct threat; try discriminate Hs.
      simpl in Hs. destruct (lookup "url" fields) eqn:E; try discriminate Hs.
      eexists _, _. split; [reflexivity |]. split; [exact E |].
      repeat split; assumption.
    + intros (fields & url & -> & Hu & Ht & Hr & Hy). cbn [optField nullish].
      rewrite Hu. repeat split; assumption.
  - intros row url H Hs.
    destruct threat as [| | b | q | s | items | fields]; try discriminate Hs.
    cbn [optField] in Hs. unfold RecentThreats.threatRow in H.
    cbn [getField] in H. unfold coercePrimitive, coerceNumber, coerceString in H.
    cbn [bind] in H.
    destruct (coercible (lookup "timestamp" fields)); cbn [bind] in H;
      [| discriminate H].
    rewrite Hs in H. cbn [RecentThreats.extractDomainOf bind] in H.
    destruct (LegacyDashboard.extractDomain url) as [d | e] eqn:Hd;
      cbn [bind] in H; [| discriminate H].
    destruct (coercible (lookup "risk_score" fields)); cbn [bind] in H;
      [| discriminate H].
    rewrite coercible_or in H by reflexivity.
    destruct (coercible (lookup "threat_type" fields)); cbn [bind] in H;
      [| discriminate H].
    injection H as <-. cbn [RecentThreats.severity RecentThreats.targetBrand
                              RecentThreats.domain RecentThreats.threatType optField].
    repeat split.
    intros Hn. destruct (lookup "threat_type" fields); try discriminate; reflexivity.
Qed.

Variable net : network.

(** X12. Whatever the network does, [loadRecentThreats] completes
    without throwing and sends exactly one request,
    [GET /api/recent-threats?limit=10]; it leaves the table as it was
    exactly when it logs an error, and it logs at most one. *)
Theorem loadRecentThreats_envelope :
  (exists t, snd (RecentThreats.loadRecentThreats toLocaleTimeString net) = Normal t)
  /\ requests (fst (RecentThreats.loadRecentThreats toLocaleTimeString net))
     = [recentThreatsRequest]
  /\ (snd (RecentThreats.loadRecentThreats toLocaleTimeString net) = Normal None
      <-> exists e,
            consoleErrors (fst (RecentThreats.loadRecentThreats toLocaleTimeString net))
            = [e])
  /\ (snd (RecentThreats.loadRecentThreats toLocaleTimeString net) <> Normal None
      -> consoleErrors (fst (RecentThreats.loadRecentThreats toLocaleTimeString net))
         = []).
Proof.
  unfold RecentThreats.loadRecentThreats.
  change {| method := "GET";
            path := LegacyDashboard.API_BASE ++ "/recent-threats?limit=10";
            body := None |} with recentThreatsRequest.
  unfold fetch, rcatch, rbind, lift, throw, ret, emit.
  destruct (net recentThreatsRequest) as [[okr jsonr] | e0]; cbn [json].
  2: { simpl. repeat split; try (eexists; reflexivity); try reflexivity.
       intros H. contradiction H. reflexivity. }
  destruct jsonr as [data | e1].
  2: { simpl. repeat split; try (eexists; reflexivity); try reflexivity.
       intros H. contradiction H. reflexivity. }
  destruct (getField data "threats") as [threats | e2]; cbn [fst snd app].
  2: { simpl. repeat split; try (eexists; reflexivity); try reflexivity.
       intros H. contradiction H. reflexivity. }
  destruct (RecentThreats.nonEmpty threats) as [[|] | e3]; cbn [fst snd app].
  3: { simpl. repeat split; try (eexists; reflexivity); try reflexivity.
       intros H. contradiction H. reflexivity. }
  2: { simpl. repeat split; try (eexists; reflexivity); try reflexivity;
         try (intros H; discriminate H); try (intros [e H]; discriminate H). }
  destruct threats as [| | b | q | s | items | fs]; cbn [fst snd app];
    try (simpl; repeat split; try (eexists; reflexivity); try reflexivity;
         try (intros H; contradiction H; reflexivity);
         try (intros H; discriminate H);
         try (intros [e H]; discriminate H); fail).
  destruct (mapM (RecentThreats.threatRow toLocaleTimeString) items)
    as [rows | e]; simpl.
  - repeat split; try (eexists; reflexivity); try reflexivity;
      try (intros H; discriminate H); try (intros [e H]; discriminate H).
  - repeat split; try (eexists; reflexivity); try reflexivity;
      try (intros H; contradiction H; reflexivity).
Qed.

Lemma nonEmpty_list (items : list jsval) :
  RecentThreats.nonEmpty (JArr items)
  = Normal (match items with [] => false | _ :: _ => true end).
Proof.
  unfold RecentThreats.nonEmpty, coerceNumber. cbn [truthy lengthOf coercible bind toNumber].
  f_equal. change (Num 0) with (Num (inject_Z 0)).
  rewrite gt_round64_Z by (vm_compute; reflexivity).
  destruct items; [reflexivity |]. cbn [List.length].
  apply Z.ltb_lt. lia.
Qed.

(** X13. When the body of the response is an object: without
    [threats], or with an empty list, the table shows the line that
    no threats were detected; with a non-empty list of objects that
    have string URLs and timestamps, risk scores and threat types that
    convert, it shows one row per threat, in the order of the list;
    and when a single threat of the list is null, lacks a string URL
    or has a timestamp, a risk score or a threat type that does not
    convert, the whole table is left as it was. *)
Theorem loadRecentThreats_table (r : response) (fields : list (string * jsval)) :
  net recentThreatsRequest = Normal r ->
  json r = Normal (JObj fields) ->
  (nullish (lookup "threats" fields) = true \/ lookup "threats" fields = JArr [] ->
   snd (RecentThreats.loadRecentThreats toLocaleTimeString net)
   = Normal (Some RecentThreats.NoThreats))
  /\ (forall items,
        lookup "threats" fields = JArr items ->
        items <> [] ->
        Forall (fun t => nullish t = false
                         /\ isString (optField t "url") = true
                         /\ coercible (optField t "timestamp") = true
                         /\ coercible (optField t "risk_score") = true
                         /\ coercible (optField t "threat_type") = true) items ->
        exists rows,
          snd (RecentThreats.loadRecentThreats toLocaleTimeString net)
          = Normal (Some (RecentThreats.Rows rows))
          /\ Forall2 (fun t row =>
                        RecentThreats.threatRow toLocaleTimeString t = Normal row)
                     items rows
          /\ List.length rows = List.length items)
  /\ (forall items t,
        lookup "threats" fields = JArr items ->
        In t items ->
        nullish t = true \/ isString (optField t "url") = false
        \/ coercible (optField t "timestamp") = false
        \/ coercible (optField t "risk_score") = false
        \/ coercible (optField t "threat_type") = false ->
        snd (RecentThreats.loadRecentThreats toLocaleTimeString net) = Normal None).
Proof.
  intros Hnet Hjson.
  unfold RecentThreats.loadRecentThreats.
  change {| method := "GET";
            path := LegacyDashboard.API_BASE ++ "/recent-threats?limit=10";
            body := None |} with recentThreatsRequest.
  unfold fetch, rcatch, rbind, lift, throw, ret, emit, getField.
  rewrite Hnet, Hjson. cbn [fst snd].
  split; [| split].
  - intros [Hn | He].
    + destruct (lookup "threats" fields); try discriminate Hn; reflexivity.
    + rewrite He, nonEmpty_list. reflexivity.
  - intros items Hitems Hne Hall. rewrite Hitems, nonEmpty_list.
    destruct items as [| t0 items0] eqn:Hi; [contradiction |]. rewrite <- Hi in *.
    destruct (mapM_total (RecentThreats.threatRow toLocaleTimeString) items)
      as [rows Hrows].
    { eapply Forall_impl; [| exact Hall]. intros t Ht.
      now apply (threatRow_normal_iff t). }
    cbn [fst snd app]. rewrite Hrows. simpl. exists rows. split; [reflexivity |].
    pose proof (mapM_Forall2 _ _ _ Hrows) as H2.
    split; [exact H2 |]. symmetry. eapply Forall2_length. exact H2.
  - intros items t Hitems Hin Hbad. rewrite Hitems, nonEmpty_list.
    destruct items as [| t0 items0] eqn:Hi; [contradiction |]. rewrite <- Hi in *.
    destruct (mapM_throws (RecentThreats.threatRow toLocaleTimeString) items t Hin)
      as [e He].
    { destruct (RecentThreats.threatRow toLocaleTimeString t) as [row | e] eqn:E;
        [| now exists e].
      assert (Hok : nullish t = false
                    /\ isString (optField t "url") = true
                    /\ coercible (optField t "timestamp") = true
                    /\ coercible (optField t "risk_score") = true
                    /\ coercible (optField t "threat_type") = true)
        by (apply (threatRow_normal_iff t); now exists row).
      destruct Hok as (H1 & H2 & H3 & H4 & H5).
      destruct Hbad as [H | [H | [H | [H | H]]]]; congruence. }
    cbn [fst snd app]. rewrite He. reflexivity.
Qed.

End ThreatTable.
(** ** The legacy dashboard: chart data *)

Section ChartData.
Variable random : nat -> Q.
Local Open Scope Q_scope.

Lemma clamp_bounds (v : Q) :
  20 <= Charts.max 20 (Charts.min 80 v) /\ Charts.max 20 (Charts.min 80 v) <= 80.
Proof.
  unfold Charts.max, Charts.min.
  destruct (Qle_bool_spec 80 v);
    match goal with
    | |- context [Qle_bool ?a ?b] => destruct (Qle_bool_spec a b)
    end; split; lra.
Qed.

Lemma trendFrom_bounds (drawn count : nat) (value : Q) :
  List.length (Charts.trendFrom random drawn count value) = count
  /\ Forall (fun v => 20 <= v /\ v <= 80) (Charts.trendFrom random drawn count value).
Proof.
  revert drawn value. induction count as [| count IH]; intros drawn value; simpl.
  - split; [reflexivity | constructor].
  - destruct (IH (S drawn)
                (Charts.max 20 (Charts.min 80 (value + (random drawn - (4 # 10)) * 10))))
      as [Hlen Hall].
    split; [now rewrite Hlen |].
    constructor; [apply clamp_bounds | exact Hall].
Qed.

(** X14. [generateTrendData] returns as many values as asked for, and
    every one of them lies between 20 and 80, whatever [Math.random]
    returns. *)
Theorem generateTrendData_bounds (drawn count : nat) :
  List.length (Charts.generateTrendData random drawn count) = count
  /\ Forall (fun v => 20 <= v /\ v <= 80)
            (Charts.generateTrendData random drawn count).
Proof.
  unfold Charts.generateTrendData. apply trendFrom_bounds.
Qed.

Lemma between_bounds (draw : nat) (lo hi : Q) :
  (forall n, round64 (random n) = Num (random n) /\ 0 <= random n /\ random n < 1) ->
  round64 lo = Num lo -> round64 hi = Num hi -> lo <= hi ->
  (exists d, round64 (hi - lo) = Num d /\ d == hi - lo) ->
  exists x, Charts.between random draw lo hi = Num x /\ lo <= x /\ x <= hi.
Proof.
  intros Hr Hlo Hhi Hle (d & Hd & Hexact).
  destruct (Hr draw) as (Hrep & H0 & H1).
  unfold Charts.between. rewrite Hrep, Hlo, Hhi.
  unfold sub. cbn [neg add]. change (hi + - lo) with (hi - lo). rewrite Hd.
  cbn [mul].
  destruct (round64_between 0 d (random draw * d) eq_refl (round64_idem _ _ Hd))
    as (m & Hm & Hm0 & Hmd); [nra | nra |].
  rewrite Hm. cbn [add].
  destruct (round64_between lo hi (m + lo) Hlo Hhi) as (x & Hx & Hx0 & Hx1);
    [lra | lra |].
  exists x. repeat split; assumption.
Qed.

Lemma scatter_bounds (drawn count : nat) (minX maxX minY maxY : Q) :
  (forall n, round64 (random n) = Num (random n) /\ 0 <= random n /\ random n < 1) ->
  round64 minX = Num minX -> round64 maxX = Num maxX -> minX <= maxX ->
  (exists d, round64 (maxX - minX) = Num d /\ d == maxX - minX) ->
  round64 minY = Num minY -> round64 maxY = Num maxY -> minY <= maxY ->
  (exists d, round64 (maxY - minY) = Num d /\ d == maxY - minY) ->
  List.length (Charts.generateScatterData random drawn count minX maxX minY maxY)
  = count
  /\ Forall (fun p => exists x y,
                        p = (Num x, Num y)
                        /\ (minX <= x /\ x <= maxX) /\ (minY <= y /\ y <= maxY))
            (Charts.generateScatterData random drawn count minX maxX minY maxY).
Proof.
  intros Hr Hx0 Hx1 Hx Hdx Hy0 Hy1 Hy Hdy. revert drawn.
  induction count as [| count IH]; intros drawn; simpl.
  - split; [reflexivity | constructor].
  - destruct (IH (S (S drawn))) as [Hlen Hall].
    split; [now rewrite Hlen |].
    constructor; [| exact Hall].
    destruct (between_bounds drawn minX maxX Hr Hx0 Hx1 Hx Hdx) as (x & -> & Hbx).
    destruct (between_bounds (S drawn) minY maxY Hr Hy0 Hy1 Hy Hdy) as (y & -> & Hby).
    exists x, y. repeat split; tauto.
Qed.

(** X15. With [Math.random] in [0,1), bounds that are binary64 numbers
    with the lower one not above the upper one, and differences of the
    bounds that are exact, [generateScatterData] returns as many points
    as asked for, each a pair of finite numbers inside the rectangle
    given, its edges included.  The three clusters of the scatter
    chart therefore have 20, 15 and 25 points with threat scores in
    [60,100], [40,60] and [0,40], and times in [0,24]. *)
Theorem generateScatterData_bounds
  (drawn count : nat) (minX maxX minY maxY : Q) :
  (forall n, round64 (random n) = Num (random n) /\ 0 <= random n /\ random n < 1) ->
  round64 minX = Num minX -> round64 maxX = Num maxX -> minX <= maxX ->
  (exists d, round64 (maxX - minX) = Num d /\ d == maxX - minX) ->
  round64 minY = Num minY -> round64 maxY = Num maxY -> minY <= maxY ->
  (exists d, round64 (maxY - minY) = Num d /\ d == maxY - minY) ->
  (List.length (Charts.generateScatterData random drawn count minX maxX minY maxY)
   = count
   /\ Forall (fun p => exists x y,
                         p = (Num x, Num y)
                         /\ (minX <= x /\ x <= maxX) /\ (minY <= y /\ y <= maxY))
             (Charts.generateScatterData random drawn count minX maxX minY maxY))
  /\ map (fun d => List.length (snd d)) (Charts.scatterDatasets random)
     = [20%nat; 15%nat; 25%nat]
  /\ Forall2 (fun d range =>
                Forall (fun p => exists x y,
                                   p = (Num x, Num y)
                                   /\ (fst range <= x /\ x <= snd range)
                                   /\ (0 <= y /\ y <= 24)) (snd d))
             (Charts.scatterDatasets random)
             [(60, 100); (40, 60); (0, 40)].
Proof.
  intros Hr Hx0 Hx1 Hx Hdx Hy0 Hy1 Hy Hdy.
  split; [now apply scatter_bounds |].
  assert (Hcluster : forall drawn' count' lo hi,
            round64 lo = Num lo -> round64 hi = Num hi -> lo <= hi ->
            (exists d, round64 (hi - lo) = Num d /\ d == hi - lo) ->
            List.length (Charts.generateScatterData random drawn' count' lo hi 0 24)
            = count'
            /\ Forall (fun p => exists x y,
                                  p = (Num x, Num y)
                                  /\ (lo <= x /\ x <= hi) /\ (0 <= y /\ y <= 24))
                      (Charts.generateScatterData random drawn' count' lo hi 0 24)).
  { intros drawn' count' lo hi Hlo Hhi Hle Hd.
    apply scatter_bounds; try assumption.
    - reflexivity.
    - vm_compute; reflexivity.
    - discriminate.
    - exists 24. split; [vm_compute; reflexivity | reflexivity]. }
  assert (H1 : exists d, round64 (100 - 60) = Num d /\ d == 100 - 60)
    by (exists 40; split; [vm_compute; reflexivity | reflexivity]).
  assert (H2 : exists d, round64 (60 - 40) = Num d /\ d == 60 - 40)
    by (exists 20; split; [vm_compute; reflexivity | reflexivity]).
  assert (H3 : exists d, round64 (40 - 0) = Num d /\ d == 40 - 0)
    by (exists 40; split; [vm_compute; reflexivity | reflexivity]).
  assert (R100 : round64 100 = Num 100) by (vm_compute; reflexivity).
  assert (R60 : round64 60 = Num 60) by (vm_compute; reflexivity).
  assert (R40 : round64 40 = Num 40) by (vm_compute; reflexivity).
  assert (R0 : round64 0 = Num 0) by reflexivity.
  unfold Charts.scatterDatasets. split.
  - cbn [map snd].
    rewrite (proj1 (Hcluster 0%nat 20%nat 60 100 R60 R100 ltac:(discriminate) H1)).
    rewrite (proj1 (Hcluster 40%nat 15%nat 40 60 R40 R60 ltac:(discriminate) H2)).
    rewrite (proj1 (Hcluster 70%nat 25%nat 0 40 R0 R40 ltac:(discriminate) H3)).
    reflexivity.
  - constructor; [| constructor; [| constructor; [| constructor]]]; cbn [fst snd].
    + apply (Hcluster 0%nat 20%nat 60 100 R60 R100 ltac:(discriminate) H1).
    + apply (Hcluster 40%nat 15%nat 40 60 R40 R60 ltac:(discriminate) H2).
    + apply (Hcluster 70%nat 25%nat 0 40 R0 R40 ltac:(discriminate) H3).
Qed.

End ChartData.

Lemma generateScatterData_bounds_witness :
  (forall n : nat,
      round64 ((fun _ => 1 # 2) n) = Num ((fun _ => 1 # 2) n)
      /\ (0 <= (fun _ => 1 # 2) n /\ (fun _ => 1 # 2) n < 1)%Q)
  /\ List.length (Charts.generateScatterData (fun _ => 1 # 2) 0 20 60 100 0 24) = 20%nat.
Proof.
  assert (H : forall n : nat,
             round64 ((fun _ => 1 # 2) n) = Num ((fun _ => 1 # 2) n)
             /\ (0 <= (fun _ => 1 # 2) n /\ (fun _ => 1 # 2) n < 1)%Q)
    by (intros n; split; [vm_compute; reflexivity
                         | split; [discriminate | reflexivity]]).
  split; [exact H |].
  apply (generateScatterData_bounds (fun _ => 1 # 2) 0 20 60 100 0 24 H);
    try (vm_compute; reflexivity); try discriminate.
  - exists 40%Q. split; [vm_compute; reflexivity | reflexivity].
  - exists 24%Q. split; [vm_compute; reflexivity | reflexivity].
Defined.

(** ** The dashboard: the profile *)

Lemma split_cons (sep : ascii) (s : string) :
  exists part parts, Str.split sep s = part :: parts.
Proof.
  destruct s as [| c s]; simpl; [eexists _, _; reflexivity |].
  destruct (Ascii.eqb c sep); [eexists _, _; reflexivity |].
  destruct (Str.split sep s); eexists _, _; reflexivity.
Qed.

Lemma join_cons (sep part p : string) (ps : list string) :
  Str.join sep (part :: p :: ps) = part ++ sep ++ Str.join sep (p :: ps).
Proof. reflexivity. Qed.

Lemma join_split (sep : ascii) (s : string) :
  Str.join (String sep EmptyString) (Str.split sep s) = s.
Proof.
  induction s as [| c s IH]; [reflexivity |].
  cbn [Str.split].
  destruct (split_cons sep s) as (part & parts & Hs). rewrite Hs in *.
  destruct (Ascii.eqb c sep) eqn:E.
  - apply Ascii.eqb_eq in E. subst c.
    rewrite join_cons, IH. reflexivity.
  - destruct parts as [| p ps].
    + cbn [Str.join] in *. now rewrite IH.
    + rewrite join_cons in *. rewrite <- IH. reflexivity.
Qed.

Lemma prefix_empty (s : string) : String.prefix "" s = true.
Proof. destruct s; reflexivity. Qed.

Lemma includes_space_cons (c : ascii) (s : string) :
  Str.includes " " (String c s) = Ascii.eqb c " " || Str.includes " " s.
Proof.
  cbn [Str.includes String.prefix].
  destruct (ascii_dec " "%char c) as [<- | Hne].
  - now rewrite prefix_empty.
  - destruct (Ascii.eqb c " ") eqn:E; [| reflexivity].
    apply Ascii.eqb_eq in E. congruence.
Qed.

Lemma includes_space (s : string) :
  Str.includes " " s = false -> Str.split " " s = [s].
Proof.
  induction s as [| c s IH]; [reflexivity |].
  rewrite includes_space_cons. cbn [Str.split].
  destruct (Ascii.eqb c " "); [discriminate |].
  intros H. now rewrite (IH H).
Qed.

Lemma split_space_tail (s : string) :
  Str.includes " " s = true -> tl (Str.split " " s) <> [].
Proof.
  induction s as [| c s IH]; [discriminate |].
  rewrite includes_space_cons. cbn [Str.split].
  destruct (split_cons " " s) as (p & ps & Hs). rewrite Hs in *.
  destruct (Ascii.eqb c " "); [discriminate |].
  intros H. exact (IH H).
Qed.

Lemma firstName_no_space (s : string) :
  Str.includes " " (DashboardPage.firstName s) = false.
Proof.
  unfold DashboardPage.firstName.
  induction s as [| c s IH]; [reflexivity |].
  cbn [Str.split].
  destruct (split_cons " " s) as (p & ps & Hs). rewrite Hs in *.
  destruct (Ascii.eqb c " ") eqn:E; [reflexivity |].
  cbn [hd] in *. rewrite includes_space_cons, E. exact IH.
Qed.

Lemma profile_name_split_aux (name : string) :
  (Str.includes " " name = false ->
   DashboardPage.firstName name = name /\ DashboardPage.lastName name = "")
  /\ (Str.includes " " name = true ->
      DashboardPage.firstName name ++ " " ++ DashboardPage.lastName name = name).
Proof.
  unfold DashboardPage.firstName, DashboardPage.lastName.
  split.
  - intros H. rewrite (includes_space name H). split; reflexivity.
  - intros H. pose proof (split_space_tail name H) as Ht.
    pose proof (join_split " " name) as Hj.
    destruct (Str.split " " name) as [| p ps]; [contradiction Ht; reflexivity |].
    destruct ps as [| p' ps]; [contradiction Ht; reflexivity |].
    exact Hj.
Qed.

(** X16. [handleUpdateProfile] splits the profile name at its first
    blank: the first name has no blank in it, and first and last name
    joined by one blank give the profile name back.  A name without a
    blank is saved as first name with an empty last name. *)
Theorem profile_name_split (name : string) :
  Str.join " " (Str.split " " name) = name
  /\ Str.includes " " (DashboardPage.firstName name) = false
  /\ (Str.includes " " name = false ->
      DashboardPage.firstName name = name /\ DashboardPage.lastName name = "")
  /\ (Str.includes " " name = true ->
      DashboardPage.firstName name ++ " " ++ DashboardPage.lastName name = name).
Proof.
  split; [apply join_split |].
  split; [apply firstName_no_space |].
  apply profile_name_split_aux.
Qed.

Section ProfileRoundTrip.
Context {host : Host}.

(** X17. When the user that is loaded carries the metadata that
    [handleUpdateProfile] sent, the profile name shown after loading
    is the name that was saved if it has a blank after a non-empty
    first word.  A single word comes back with a blank appended, and a
    name that is empty or starts with a blank comes back as
    [Admin User]. *)
Theorem profile_name_round_trip (name : string) :
  (DashboardPage.firstName name <> "" -> Str.includes " " name = true ->
   DashboardPage.loadedProfileName (savedUser name) = name)
  /\ (DashboardPage.firstName name <> "" -> Str.includes " " name = false ->
      DashboardPage.loadedProfileName (savedUser name) = name ++ " ")
  /\ (DashboardPage.firstName name = "" ->
      DashboardPage.loadedProfileName (savedUser name) = "Admin User").
Proof.
  unfold DashboardPage.loadedProfileName, savedUser, DashboardPage.profileUpdate.
  cbn [optField lookup String.eqb Ascii.eqb Bool.eqb toStringJS truthy].
  simpl lookup. cbn [truthy toStringJS].
  destruct (profile_name_split_aux name) as [Hno Hyes].
  unfold truthyStr.
  destruct (String.eqb (DashboardPage.firstName name) "") eqn:E.
  - apply String.eqb_eq in E. repeat split; intros; try contradiction; reflexivity.
  - apply String.eqb_neq in E. simpl. repeat split; intros; try contradiction.
    + now apply Hyes.
    + destruct (Hno H0) as [-> ->]. reflexivity.
Qed.

End ProfileRoundTrip.

(** X18. [handleUpdateProfile] always ends with the saving flag off and
    the typed name untouched.  It leaves the editing mode exactly when
    the update was accepted, replaces the user only when the update was
    accepted and the user could be fetched again, and logs an error,
    one at most, in every other case. *)
Theorem handleUpdateProfile_outcome
  (api : DashboardPage.userApi) (st : DashboardPage.profile) :
  DashboardPage.isSaving (fst (DashboardPage.handleUpdateProfile api st)) = false
  /\ DashboardPage.profileName (fst (DashboardPage.handleUpdateProfile api st))
     = DashboardPage.profileName st
  /\ (DashboardPage.isEditing (fst (DashboardPage.handleUpdateProfile api st)) = false
      <-> DashboardPage.isEditing st = false
          \/ DashboardPage.updateUser api
               (DashboardPage.profileUpdate (DashboardPage.profileName st))
             = Normal None)
  /\ (DashboardPage.user (fst (DashboardPage.handleUpdateProfile api st))
      <> DashboardPage.user st ->
      DashboardPage.updateUser api
        (DashboardPage.profileUpdate (DashboardPage.profileName st)) = Normal None
      /\ DashboardPage.getUser api
         = Normal (DashboardPage.user (fst (DashboardPage.handleUpdateProfile api st))))
  /\ (snd (DashboardPage.handleUpdateProfile api st) = []
      <-> DashboardPage.updateUser api
            (DashboardPage.profileUpdate (DashboardPage.profileName st)) = Normal None
          /\ exists u, DashboardPage.getUser api = Normal u)
  /\ (List.length (snd (DashboardPage.handleUpdateProfile api st)) <= 1)%nat.
Proof.
  unfold DashboardPage.handleUpdateProfile, bind.
  destruct (DashboardPage.updateUser api _) as [[msg |] | e]; cbn [fst snd].
  - split; [reflexivity | split; [reflexivity |]].
    split; [split; [intros H; now left | intros [H | H]; [exact H | discriminate H]] |].
    split; [intros H; contradiction H; reflexivity |].
    split; [split; [discriminate | intros [H _]; discriminate H] | simpl; lia].
  - destruct (DashboardPage.getUser api) as [u | e]; cbn [fst snd].
    + split; [reflexivity | split; [reflexivity |]].
      split; [split; [intros _; now right | reflexivity] |].
      split; [intros _; split; reflexivity |].
      split; [split; [intros _; split; [reflexivity | now exists u] | reflexivity]
             | simpl; lia].
    + split; [reflexivity | split; [reflexivity |]].
      split; [split; [intros _; now right | reflexivity] |].
      split; [intros H; contradiction H; reflexivity |].
      split; [split; [discriminate | intros [_ [u H]]; discriminate H] | simpl; lia].
  - split; [reflexivity | split; [reflexivity |]].
    split; [split; [intros H; now left | intros [H | H]; [exact H | discriminate H]] |].
    split; [intros H; contradiction H; reflexivity |].
    split; [split; [discriminate | intros [H _]; discriminate H] | simpl; lia].
Qed.

(** ** The React handlers *)

Section ReactAnalysis.
Context {host : Host}.
Variable net : network.

(** X19. On the landing page, [handleAnalyze] with a non-empty URL sends
    exactly one request and ends with the analysing flag off and the
    URL and the session untouched.  It never shows an error and a
    verdict together: the error is set exactly when the API call
    threw.  A call that returns a falsy body, such as null, shows
    neither. *)
Theorem landing_handleAnalyze_outcome (st : App.state) :
  App.url st <> "" ->
  App.isAnalyzing (fst (App.handleAnalyze net st)) = false
  /\ App.url (fst (App.handleAnalyze net st)) = App.url st
  /\ App.session (fst (App.handleAnalyze net st)) = App.session st
  /\ requests (snd (App.handleAnalyze net st)) = [api.analyzeRequest (App.url st)]
  /\ (App.errorMessage (App.render (fst (App.handleAnalyze net st))) = None
      \/ App.analysisResult (App.render (fst (App.handleAnalyze net st))) = None)
  /\ (App.error (fst (App.handleAnalyze net st)) = None
      <-> exists v, snd (api.analyzeUrl net (App.url st)) = Normal v)
  /\ (forall v, snd (api.analyzeUrl net (App.url st)) = Normal v ->
                truthy v = false ->
                App.render (fst (App.handleAnalyze net st))
                = {| App.errorMessage := None; App.analysisResult := None |}).
Proof.
  intros Hurl.
  assert (Htruthy : truthyStr (App.url st) = true).
  { destruct (truthyStr (App.url st)) eqn:E; [reflexivity |].
    apply truthyStr_false in E. contradiction. }
  pose proof (api_call_requests net (api.analyzeRequest (App.url st)) "Analysis failed")
    as Hreq.
  unfold App.handleAnalyze. rewrite Htruthy. cbn [negb].
  unfold api.analyzeUrl in *.
  destruct (api.call net (api.analyzeRequest (App.url st)) "Analysis failed")
    as [log [data | e]]; cbn [fst snd] in *.
  - split; [reflexivity | split; [reflexivity | split; [reflexivity |]]].
    split; [exact Hreq |].
    split; [left; reflexivity |].
    split; [split; [intros _; now exists data | reflexivity] |].
    intros v Hv Hf. injection Hv as <-.
    unfold App.render, ResultCard.render. cbn [App.error App.result App.url].
    now rewrite Hf.
  - split; [reflexivity | split; [reflexivity | split; [reflexivity |]]].
    split; [exact Hreq |].
    split; [right; reflexivity |].
    split; [split; [discriminate | intros [v Hv]; discriminate Hv] |].
    intros v Hv. discriminate Hv.
Qed.

Lemma rall2_requests {A B : Type} (m1 : run A) (m2 : run B) :
  requests (fst (rall2 m1 m2)) = (requests (fst m1) ++ requests (fst m2))%list.
Proof.
  unfold rall2. destruct m1 as [l1 r1], m2 as [l2 r2]. cbn [fst].
  apply requests_app.
Qed.

Lemma refresh_requests :
  requests (fst (rall2 (api.getRecentThreats net (JNum 20))
                       (api.getAnalysisLogs net (JNum 20))))
  = [recentThreatsRequestOf (JNum 20); analysisLogsRequestOf (JNum 20)].
Proof.
  rewrite rall2_requests, getRecentThreats_number, getAnalysisLogs_number.
  now rewrite !api_call_requests.
Qed.

(** X20. On the dashboard, [handleAnalyze] with a non-empty URL ends
    with the analysing flag off and the URL untouched.  It sends the
    analysis request first and then the refresh requests: one request
    when the analysis fails, two when the statistics fail, and all four
    otherwise, the two lists being requested together.  The error is
    clear only when all four were sent. *)
Theorem dashboard_handleAnalyze_requests (st : Dashboard.state) :
  Dashboard.url st <> "" ->
  Dashboard.isAnalyzing (fst (Dashboard.handleAnalyze net st)) = false
  /\ Dashboard.url (fst (Dashboard.handleAnalyze net st)) = Dashboard.url st
  /\ (requests (snd (Dashboard.handleAnalyze net st))
      = [api.analyzeRequest (Dashboard.url st)]
      \/ requests (snd (Dashboard.handleAnalyze net st))
         = [api.analyzeRequest (Dashboard.url st); getStatsRequest]
      \/ requests (snd (Dashboard.handleAnalyze net st))
         = [api.analyzeRequest (Dashboard.url st); getStatsRequest;
            recentThreatsRequestOf (JNum 20); analysisLogsRequestOf (JNum 20)])
  /\ (Dashboard.error (fst (Dashboard.handleAnalyze net st)) = None ->
      requests (snd (Dashboard.handleAnalyze net st))
      = [api.analyzeRequest (Dashboard.url st); getStatsRequest;
         recentThreatsRequestOf (JNum 20); analysisLogsRequestOf (JNum 20)]).
Proof.
  intros Hurl.
  assert (Htruthy : truthyStr (Dashboard.url st) = true).
  { destruct (truthyStr (Dashboard.url st)) eqn:E; [reflexivity |].
    apply truthyStr_false in E. contradiction. }
  pose proof (api_call_requests net (api.analyzeRequest (Dashboard.url st))
                "Analysis failed") as Hreq1.
  pose proof (api_call_requests net getStatsRequest "Failed to fetch stats") as Hreq2.
  pose proof refresh_requests as Hreq3.
  unfold Dashboard.handleAnalyze. rewrite Htruthy. cbn [negb].
  unfold api.analyzeUrl, api.getStats in *.
  change {| method := "GET"; path := "/api/stats"; body := None |}
    with getStatsRequest.
  destruct (api.call net (api.analyzeRequest (Dashboard.url st)) "Analysis failed")
    as [log1 [data | e1]]; cbn [fst snd] in *.
  2: { repeat split; [left; exact Hreq1 | discriminate]. }
  destruct (api.call net getStatsRequest "Failed to fetch stats")
    as [log2 [statsData | e2]]; cbn [fst snd] in *.
  2: { split; [reflexivity | split; [reflexivity |]].
       split; [right; left; now rewrite requests_app, Hreq1, Hreq2 | discriminate]. }
  destruct (rall2 (api.getRecentThreats net (JNum 20))
                  (api.getAnalysisLogs net (JNum 20)))
    as [log3 r3]; cbn [fst snd] in *.
  assert (Hall : requests (log1 ++ log2 ++ log3)
                 = [api.analyzeRequest (Dashboard.url st); getStatsRequest;
                    recentThreatsRequestOf (JNum 20); analysisLogsRequestOf (JNum 20)]).
  { now rewrite !requests_app, Hreq1, Hreq2, Hreq3. }
  destruct r3 as [[threatsData logsData] | e3];
    [destruct (getField threatsData "threats");
     [destruct (getField logsData "logs") |] |];
    cbn [fst snd];
    (split; [reflexivity | split; [reflexivity |]];
     split; [right; right; exact Hall | intros _; exact Hall]).
Qed.

(** The card of a truthy result is shown when the confidence and the
    risk score convert to numbers and the risk score and the threat
    type can be rendered; otherwise its evaluation throws. *)
Lemma element_cases (url : string) (result : jsval) :
  truthy result = true ->
  (coercible (optField result "confidence")
   && coercible (optField result "risk_score")
   && React.validChild (optField result "risk_score")
   && React.validChild (or (optField result "threat_type") (JStr "None")) = true
   /\ ResultCard.element url result = Normal (ResultCard.render url result))
  \/ (coercible (optField result "confidence")
      && coercible (optField result "risk_score")
      && React.validChild (optField result "risk_score")
      && React.validChild (or (optField result "threat_type") (JStr "None")) = false
      /\ exists e, ResultCard.element url result = Throw e).
Proof.
  intros Ht. unfold ResultCard.element, coerceNumber, React.child. rewrite Ht.
  destruct (coercible (optField result "confidence")); cbn [bind andb];
    [| right; split; [reflexivity | eexists; reflexivity]].
  destruct (coercible (optField result "risk_score")); cbn [bind andb];
    [| right; split; [reflexivity | eexists; reflexivity]].
  destruct (React.validChild (optField result "risk_score")); cbn [bind andb];
    [| right; split; [reflexivity | eexists; reflexivity]].
  destruct (React.validChild (or (optField result "threat_type") (JStr "None")));
    cbn [bind];
    [left; split; reflexivity | right; split; [reflexivity | eexists; reflexivity]].
Qed.

(** X21. On the dashboard a verdict and an error can be shown together:
    when the analysis returns a result but the statistics cannot be
    fetched afterwards, [handleAnalyze] keeps the result, sets the
    error and leaves the statistics as they were.  For a truthy result
    whose confidence and risk score convert to numbers and whose risk
    score and threat type can be rendered, the analysis tab then shows
    both the error banner and the verdict card; for any other truthy
    result the evaluation of the tab throws. *)
Theorem dashboard_error_with_verdict (st : Dashboard.state) (data : jsval) (e : error) :
  Dashboard.url st <> "" ->
  snd (api.analyzeUrl net (Dashboard.url st)) = Normal data ->
  snd (api.getStats net) = Throw e ->
  truthy data = true ->
  Dashboard.result (fst (Dashboard.handleAnalyze net st)) = data
  /\ Dashboard.error (fst (Dashboard.handleAnalyze net st))
     = Some "Analysis failed. Please try again."
  /\ Dashboard.stats (fst (Dashboard.handleAnalyze net st)) = Dashboard.stats st
  /\ (coercible (optField data "confidence")
      && coercible (optField data "risk_score")
      && React.validChild (optField data "risk_score")
      && React.validChild (or (optField data "threat_type") (JStr "None")) = true ->
      exists card,
        Dashboard.analysisTab (fst (Dashboard.handleAnalyze net st))
        = Normal (Some "Analysis failed. Please try again.", Some card)
        /\ ResultCard.render (Dashboard.url st) data = Some card)
  /\ (coercible (optField data "confidence")
      && coercible (optField data "risk_score")
      && React.validChild (optField data "risk_score")
      && React.validChild (or (optField data "threat_type") (JStr "None")) = false ->
      exists thrown,
        Dashboard.analysisTab (fst (Dashboard.handleAnalyze net st)) = Throw thrown).
Proof.
  intros Hurl Hdata Hstats Hdatatruthy.
  assert (Htruthy : truthyStr (Dashboard.url st) = true).
  { destruct (truthyStr (Dashboard.url st)) eqn:E; [reflexivity |].
    apply truthyStr_false in E. contradiction. }
  unfold Dashboard.handleAnalyze. rewrite Htruthy. cbn [negb].
  destruct (api.analyzeUrl net (Dashboard.url st)) as [log1 r1]; cbn [snd] in Hdata.
  subst r1.
  destruct (api.getStats net) as [log2 r2]; cbn [snd] in Hstats. subst r2.
  split; [reflexivity | split; [reflexivity | split; [reflexivity |]]].
  unfold Dashboard.analysisTab, Dashboard.failed.
  cbn [fst snd Dashboard.url Dashboard.result Dashboard.error].
  destruct (element_cases (Dashboard.url st) data Hdatatruthy)
    as [[Hshown ->] | [Hshown [thrown ->]]]; rewrite Hshown; cbn [bind].
  - split; [intros _ | intros H; discriminate H].
    unfold ResultCard.render. rewrite Hdatatruthy.
    eexists. split; reflexivity.
  - split; [intros H; discriminate H | intros _].
    eexists. reflexivity.
Qed.

End ReactAnalysis.

Lemma landing_handleAnalyze_outcome_witness :
  App.url (Sample.landing "http://example.test") <> ""
  /\ App.isAnalyzing (fst (App.handleAnalyze Sample.refusing
                             (Sample.landing "http://example.test"))) = false.
Proof.
  assert (H : App.url (Sample.landing "http://example.test") <> "") by discriminate.
  split; [exact H |].
  apply (@landing_handleAnalyze_outcome Sample.host Sample.refusing
           (Sample.landing "http://example.test") H).
Defined.

(** ** The dashboard: loading its data *)

Section DashboardLoading.
Context {host : Host}.
Variable net : network.

(** X22. [fetchData] starts the three requests together, so all three
    are always sent, and always ends with the loading flag off,
    leaving the analysis state alone.  When one of the three calls
    fails, the statistics and both lists keep their values; when all
    succeed with objects as bodies, the statistics are the first body
    and the lists are its [threats] and [logs], or empty lists when
    those are missing. *)
Theorem fetchData_outcome (st : Dashboard.state) :
  Dashboard.loading (fst (DashboardPage.fetchData net st)) = false
  /\ Dashboard.url (fst (DashboardPage.fetchData net st)) = Dashboard.url st
  /\ Dashboard.result (fst (DashboardPage.fetchData net st)) = Dashboard.result st
  /\ Dashboard.error (fst (DashboardPage.fetchData net st)) = Dashboard.error st
  /\ requests (snd (DashboardPage.fetchData net st))
     = [getStatsRequest; recentThreatsRequestOf (JNum 20);
        analysisLogsRequestOf (JNum 20)]
  /\ ((exists e, snd (api.getStats net) = Throw e)
      \/ (exists e, snd (api.getRecentThreats net (JNum 20)) = Throw e)
      \/ (exists e, snd (api.getAnalysisLogs net (JNum 20)) = Throw e) ->
      Dashboard.stats (fst (DashboardPage.fetchData net st)) = Dashboard.stats st
      /\ Dashboard.recentLogs (fst (DashboardPage.fetchData net st))
         = Dashboard.recentLogs st
      /\ Dashboard.allLogs (fst (DashboardPage.fetchData net st))
         = Dashboard.allLogs st)
  /\ (forall statsData threats logs,
        snd (api.getStats net) = Normal statsData ->
        snd (api.getRecentThreats net (JNum 20)) = Normal (JObj threats) ->
        snd (api.getAnalysisLogs net (JNum 20)) = Normal (JObj logs) ->
        Dashboard.stats (fst (DashboardPage.fetchData net st)) = statsData
        /\ Dashboard.recentLogs (fst (DashboardPage.fetchData net st))
           = or (lookup "threats" threats) (JArr [])
        /\ Dashboard.allLogs (fst (DashboardPage.fetchData net st))
           = or (lookup "logs" logs) (JArr [])
        /\ consoleErrors (snd (DashboardPage.fetchData net st)) = []).
Proof.
  pose proof (api_call_requests net getStatsRequest "Failed to fetch stats") as Hreq1.
  pose proof (api_call_requests net (recentThreatsRequestOf (JNum 20))
                "Failed to fetch threats") as Hreq2.
  pose proof (api_call_requests net (analysisLogsRequestOf (JNum 20))
                "Failed to fetch analysis logs") as Hreq3.
  assert (Hquiet : forall r f v,
             snd (api.call net r f) = Normal v ->
             consoleErrors (fst (api.call net r f)) = []).
  { intros r f v. unfold api.call, fetch, rcatch, rbind, lift, throw, ret, emit.
    destruct (net r) as [[[] [|]] |]; cbn [fst snd]; intros H;
      try discriminate H; reflexivity. }
  pose proof (Hquiet getStatsRequest "Failed to fetch stats") as Hq1.
  pose proof (Hquiet (recentThreatsRequestOf (JNum 20)) "Failed to fetch threats") as Hq2.
  pose proof (Hquiet (analysisLogsRequestOf (JNum 20))
                "Failed to fetch analysis logs") as Hq3.
  clear Hquiet.
  unfold DashboardPage.fetchData, rall2.
  rewrite !getRecentThreats_number, !getAnalysisLogs_number.
  unfold api.getStats in *.
  change {| method := "GET"; path := "/api/stats"; body := None |}
    with getStatsRequest in *.
  destruct (api.call net getStatsRequest "Failed to fetch stats") as [l1 r1].
  destruct (api.call net (recentThreatsRequestOf (JNum 20)) "Failed to fetch threats")
    as [l2 r2].
  destruct (api.call net (analysisLogsRequestOf (JNum 20))
              "Failed to fetch analysis logs") as [l3 r3].
  cbn [fst snd] in *.
  assert (Hc : forall a b, consoleErrors (a ++ b)
                           = (consoleErrors a ++ consoleErrors b)%list).
  { clear. induction a as [| [] a IH]; intros; simpl; try apply IH; try reflexivity.
    now rewrite IH. }
  assert (Hreqs : forall tail,
             requests tail = [] ->
             requests ((l1 ++ l2 ++ l3) ++ tail)
             = [getStatsRequest; recentThreatsRequestOf (JNum 20);
                analysisLogsRequestOf (JNum 20)]).
  { intros tail Ht. now rewrite !requests_app, Hreq1, Hreq2, Hreq3, Ht. }
  assert (Hreqs0 : requests (l1 ++ l2 ++ l3)
                   = [getStatsRequest; recentThreatsRequestOf (JNum 20);
                      analysisLogsRequestOf (JNum 20)]).
  { now rewrite !requests_app, Hreq1, Hreq2, Hreq3. }
  destruct r1 as [s | e1]; destruct r2 as [t | e2]; destruct r3 as [l | e3];
    cbn [fst snd];
    try (split; [reflexivity | split; [reflexivity | split; [reflexivity |
           split; [reflexivity | split; [apply Hreqs; reflexivity |
           split; [intros _; repeat split; reflexivity |
                   intros sd th lg H1 H2 H3;
                   first [discriminate H1 | discriminate H2 | discriminate H3]]]]]]];
         fail).
  (* all three calls returned *)
  destruct (getField t "threats") as [threats | e] eqn:Ht;
    [destruct (getField l "logs") as [logs | e] eqn:Hl |]; cbn [fst snd].
  - split; [reflexivity | split; [reflexivity | split; [reflexivity |
      split; [reflexivity | split; [exact Hreqs0 | split]]]]].
    + intros [[e H] | [[e H] | [e H]]]; discriminate H.
    + intros sd th lg H1 H2 H3. injection H1 as <-.
      injection H2 as ->. injection H3 as ->.
      simpl in Ht, Hl. injection Ht as <-. injection Hl as <-.
      repeat split; try reflexivity.
      rewrite !Hc, (Hq1 _ eq_refl), (Hq2 _ eq_refl), (Hq3 _ eq_refl). reflexivity.
  - split; [reflexivity | split; [reflexivity | split; [reflexivity |
      split; [reflexivity | split; [apply Hreqs; reflexivity | split]]]]].
    + intros [[e' H] | [[e' H] | [e' H]]]; discriminate H.
    + intros sd th lg H1 H2 H3. injection H3 as ->. discriminate Hl.
  - split; [reflexivity | split; [reflexivity | split; [reflexivity |
      split; [reflexivity | split; [apply Hreqs; reflexivity | split]]]]].
    + intros [[e' H] | [[e' H] | [e' H]]]; discriminate H.
    + intros sd th lg H1 H2 H3. injection H2 as ->. discriminate Ht.
Qed.

End DashboardLoading.

(** ** The React views *)

Lemma validChild_or (a d : jsval) :
  React.validChild d = true -> React.validChild (or a d) = React.validChild a.
Proof.
  intros Hd. unfold or. destruct (truthy a) eqn:H; [reflexivity |].
  rewrite Hd. destruct a; try reflexivity; discriminate H.
Qed.

Section ReactViews.
Context {host : Host}.

Lemma fold_plus_thrown (l : list jsval) (e : error) :
  fold_left (fun acc b =>
               a <- acc ;;
               p <- coercePrimitive b ;;
               Normal (plus a p))
            l (Throw e)
  = Throw e.
Proof. induction l as [| v l IH]; [reflexivity | exact IH]. Qed.

Lemma fold_plus_cases (l : list jsval) (p : prim) :
  if forallb coercible l
  then exists t,
         fold_left (fun acc b =>
                      a <- acc ;;
                      p <- coercePrimitive b ;;
                      Normal (plus a p))
                   l (Normal p)
         = Normal t
  else fold_left (fun acc b =>
                    a <- acc ;;
                    p <- coercePrimitive b ;;
                    Normal (plus a p))
                 l (Normal p)
       = Throw unconvertible.
Proof.
  revert p. induction l as [| v l IH]; intros p; cbn [forallb fold_left bind].
  - eexists. reflexivity.
  - unfold coercePrimitive at 2 4. destruct (coercible v); cbn [andb bind].
    + apply IH.
    + apply fold_plus_thrown.
Qed.

(** The legend can be computed exactly when every value of the
    breakdown converts to a primitive. *)
Lemma legend_cases (stats : jsval) :
  if forallb coercible (values (optField stats "threat_breakdown"))
  then exists rows, Dashboard.legend stats = Normal rows
  else exists e, Dashboard.legend stats = Throw e.
Proof.
  unfold Dashboard.legend, Dashboard.getThreatData, Dashboard.legendShare,
    Dashboard.legendTotal, or.
  destruct (truthy (optField stats "threat_breakdown")) eqn:Ht; cbn [negb].
  2: { unfold values. rewrite (falsy_entries _ Ht). eexists. reflexivity. }
  pose proof (fold_plus_cases (values (optField stats "threat_breakdown"))
                (PNum (Num 1))) as Hfold.
  unfold values in *.
  destruct (forallb coercible (map snd (entries (optField stats "threat_breakdown"))))
    eqn:Hall.
  - destruct Hfold as [t Hfold].
    apply mapM_total. apply Forall_forall. intros [index [name value]] Hin.
    rewrite Hfold. cbn [bind]. unfold coerceNumber.
    apply in_combine_r in Hin.
    assert (Hc : coercible value = true).
    { rewrite forallb_forall in Hall. apply Hall.
      apply in_map_iff. exists (name, value). split; [reflexivity | exact Hin]. }
    rewrite Hc. eexists. reflexivity.
  - destruct (entries (optField stats "threat_breakdown")) as [| [name value] rest];
      [discriminate Hall |].
    cbn [List.length seq combine mapM]. rewrite Hfold. eexists. reflexivity.
Qed.

(** X23. The expressions of the overview tab evaluate, and React
    mounts the values of its cards and its total, exactly when
    [today_count], [detection_accuracy] and every value of the threat
    breakdown convert to primitives, [avg_response_time_ms] is missing,
    null or a number, and neither [total_analyzed] nor
    [phishing_detected] is or holds an object: any other statistics
    make the render throw.  Before the statistics are loaded (a null
    [stats]) the tab has four cards, the total 0, no pie entry and no
    legend row. *)
Theorem renderOverview_renders_iff (stats : jsval) :
  ((exists view, Dashboard.renderOverview stats = Normal view)
   <-> coercible (optField stats "today_count") = true
       /\ coercible (optField stats "detection_accuracy") = true
       /\ (nullish (optField stats "avg_response_time_ms") = true
           \/ isNumber (optField stats "avg_response_time_ms") = true)
       /\ forallb coercible (values (optField stats "threat_breakdown")) = true
       /\ React.validChild (optField stats "total_analyzed") = true
       /\ React.validChild (optField stats "phishing_detected") = true)
  /\ (nullish stats = true ->
      exists view,
        Dashboard.renderOverview stats = Normal view
        /\ Dashboard.pie view = []
        /\ Dashboard.legendRows view = []
        /\ Dashboard.totalThreats view = JNum 0
        /\ List.length (Dashboard.cards view) = 4%nat).
Proof.
  split.
  2: { intros Hn. destruct stats; try discriminate Hn;
         (eexists; split; [reflexivity | repeat split]). }
  pose proof (legend_cases stats) as Hlegend.
  unfold Dashboard.renderOverview, Dashboard.statCards, coerceString, coerceNumber.
  rewrite !coercible_or by reflexivity.
  destruct (coercible (optField stats "today_count")); cbn [bind];
    [| split; [intros [view H]; discriminate H | intros (H & _); discriminate H]].
  destruct (coercible (optField stats "detection_accuracy")); cbn [bind];
    [| split; [intros [view H]; discriminate H | intros (_ & H & _); discriminate H]].
  destruct (optField stats "avg_response_time_ms") as [| | b | q | s | items | fs];
    cbn [optToFixed bind nullish isNumber];
    try (split; [intros [view H]; discriminate H
                | intros (_ & _ & [H | H] & _); discriminate H]).
  all: destruct (forallb coercible (values (optField stats "threat_breakdown")));
    [destruct Hlegend as [rows ->] | destruct Hlegend as [e ->]]; cbn [bind];
    try (split; [intros [view H]; discriminate H
                | intros (_ & _ & _ & H & _); discriminate H]).
  all: cbn [mapM Dashboard.value]; unfold React.child;
    rewrite !validChild_or by reflexivity;
    destruct (React.validChild (optField stats "total_analyzed")); cbn [bind];
    try (split; [intros [view H]; discriminate H
                | intros (_ & _ & _ & _ & H & _); discriminate H]).
  all: destruct (React.validChild (optField stats "phishing_detected"));
    cbn [bind React.validChild];
    try (split; [intros [view H]; discriminate H
                | intros (_ & _ & _ & _ & _ & H); discriminate H]).
  all: split; [intros _; repeat split; auto | intros _; eexists; reflexivity].
Qed.

(** X24. The result card is shown for a truthy result whose confidence
    and risk score convert to numbers and whose risk score and threat
    type can be rendered; for any other truthy result the evaluation
    throws, and for a falsy one no card is shown.  The verdict of a
    card is [Phishing Detected] exactly when [prediction] is the string
    [Phishing]; every other result, whatever it holds, is shown as
    [Legitimate URL].  The threat type reads [None] when [threat_type]
    is missing, null or empty. *)
Theorem resultCard_verdict (url : string) (result : jsval) :
  (ResultCard.element url result = Normal None <-> truthy result = false)
  /\ ((exists card, ResultCard.element url result = Normal (Some card))
      <-> truthy result = true
          /\ coercible (optField result "confidence") = true
          /\ coercible (optField result "risk_score") = true
          /\ React.validChild (optField result "risk_score") = true
          /\ React.validChild (optField result "threat_type") = true)
  /\ (forall card,
        ResultCard.element url result = Normal (Some card) ->
        ResultCard.render url result = Some card
        /\ (ResultCard.verdict card = "Phishing Detected"
            <-> optField result "prediction" = JStr "Phishing")
        /\ (ResultCard.verdict card = "Legitimate URL"
            <-> optField result "prediction" <> JStr "Phishing")
        /\ ResultCard.shownUrl card = url
        /\ (truthy (optField result "threat_type") = false ->
            ResultCard.threatType card = JStr "None")).
Proof.
  pose proof (strictEqStr_iff (optField result "prediction") "Phishing") as Hstrict.
  destruct (truthy result) eqn:Ht.
  2: { unfold ResultCard.element. rewrite Ht.
       split; [split; reflexivity |].
       split; [split; [intros [card H]; discriminate H | intros [H _]; discriminate H] |].
       intros card H. discriminate H. }
  pose proof (element_cases url result Ht) as Hcases.
  rewrite (validChild_or (optField result "threat_type") (JStr "None") eq_refl)
    in Hcases.
  assert (Hrender : exists card, ResultCard.render url result = Some card
            /\ ResultCard.verdict card
               = (if strictEqStr (optField result "prediction") "Phishing"
                  then "Phishing Detected" else "Legitimate URL")
            /\ ResultCard.shownUrl card = url
            /\ ResultCard.threatType card
               = or (optField result "threat_type") (JStr "None")).
  { unfold ResultCard.render. rewrite Ht. eexists. repeat split. }
  destruct Hrender as (shown & Hshown & Hverdict & Hurl & Htype).
  destruct Hcases as [[Hok Helement] | [Hbad [e Helement]]]; rewrite Helement.
  - apply andb_prop in Hok. destruct Hok as [Hok H4].
    apply andb_prop in Hok. destruct Hok as [Hok H3].
    apply andb_prop in Hok. destruct Hok as [H1 H2].
    rewrite Hshown.
    split; [split; intros H; discriminate H |].
    split; [split; [intros _; repeat split; assumption | intros _; now exists shown] |].
    intros card H. injection H as <-.
    split; [reflexivity |]. rewrite Hverdict, Hurl, Htype.
    destruct (strictEqStr (optField result "prediction") "Phishing") eqn:E.
    + assert (Hp : optField result "prediction" = JStr "Phishing") by now apply Hstrict.
      split; [split; [intros _; exact Hp | reflexivity] |].
      split; [split; [discriminate | intros H; contradiction] |].
      split; [reflexivity |]. unfold or. now intros ->.
    + assert (Hne : optField result "prediction" <> JStr "Phishing").
      { intros Heq. apply Hstrict in Heq. congruence. }
      split; [split; [discriminate | intros H; contradiction] |].
      split; [split; [intros _; exact Hne | reflexivity] |].
      split; [reflexivity |]. unfold or. now intros ->.
  - split; [split; intros H; discriminate H |].
    split.
    + split; [intros [card H]; discriminate H |].
      intros (_ & H1 & H2 & H3 & H4). rewrite H1, H2, H3, H4 in Hbad.
      discriminate Hbad.
    + intros card H. discriminate H.
Qed.

End ReactViews.
(** ** Signing in and signing up *)

Section SignIn.
Import supabaseClient.

(** X25. [handleLogin] navigates to [/dashboard] exactly when
    [signInWithPassword] resolves without an error, and then shows no
    error; otherwise it stays on the page and shows the message of the
    error that was returned or thrown.  The loading flag is off at the
    end in both cases and the typed credentials are kept. *)
Theorem handleLogin_outcome (supabase : client) (st : Login.state) :
  Login.loading (fst (Login.handleLogin supabase st)) = false
  /\ Login.email (fst (Login.handleLogin supabase st)) = Login.email st
  /\ Login.password (fst (Login.handleLogin supabase st)) = Login.password st
  /\ (snd (Login.handleLogin supabase st) = [Navigate "/dashboard"]
      <-> signInWithPassword (auth_ supabase) (Login.email st) (Login.password st)
          = Normal None)
  /\ (signInWithPassword (auth_ supabase) (Login.email st) (Login.password st)
      = Normal None ->
      Login.error (fst (Login.handleLogin supabase st)) = None)
  /\ (signInWithPassword (auth_ supabase) (Login.email st) (Login.password st)
      <> Normal None ->
      snd (Login.handleLogin supabase st) = []
      /\ exists msg, Login.error (fst (Login.handleLogin supabase st)) = Some msg)
  /\ (forall msg,
        signInWithPassword (auth_ supabase) (Login.email st) (Login.password st)
        = Normal (Some msg) ->
        Login.error (fst (Login.handleLogin supabase st)) = Some msg).
Proof.
  unfold Login.handleLogin, bind.
  destruct (signInWithPassword (auth_ supabase) (Login.email st) (Login.password st))
    as [[msg |] | e]; cbn [fst snd Login.loading Login.email Login.password Login.error].
  - split; [reflexivity | split; [reflexivity | split; [reflexivity |]]].
    split; [split; discriminate |].
    split; [discriminate |].
    split; [intros _; split; [reflexivity | eexists; reflexivity] |].
    intros m H. injection H as <-. reflexivity.
  - split; [reflexivity | split; [reflexivity | split; [reflexivity |]]].
    split; [split; reflexivity |].
    split; [reflexivity |].
    split; [intros H; contradiction H; reflexivity | discriminate].
  - split; [reflexivity | split; [reflexivity | split; [reflexivity |]]].
    split; [split; discriminate |].
    split; [discriminate |].
    split; [intros _; split; [reflexivity | eexists; reflexivity] | discriminate].
Qed.

(** X26. [handleSignup] announces the account and navigates to
    [/login] exactly when [signUp] resolves without an error;
    otherwise it does neither and shows the message of the error.  The
    loading flag is off at the end in both cases. *)
Theorem handleSignup_outcome (supabase : client) (st : Signup.state) :
  Signup.loading (fst (Signup.handleSignup supabase st)) = false
  /\ (snd (Signup.handleSignup supabase st)
      = [Alert "Account created! Check your email to verify your account.";
         Navigate "/login"]
      <-> signUp (auth_ supabase) (Signup.email st) (Signup.password st) = Normal None)
  /\ (signUp (auth_ supabase) (Signup.email st) (Signup.password st) <> Normal None ->
      snd (Signup.handleSignup supabase st) = []
      /\ exists msg, Signup.error (fst (Signup.handleSignup supabase st)) = Some msg)
  /\ (signUp (auth_ supabase) (Signup.email st) (Signup.password st) = Normal None ->
      Signup.error (fst (Signup.handleSignup supabase st)) = None).
Proof.
  unfold Signup.handleSignup, bind.
  destruct (signUp (auth_ supabase) (Signup.email st) (Signup.password st))
    as [[msg |] | e]; cbn [fst snd Signup.loading Signup.error].
  - split; [reflexivity |]. split; [split; discriminate |].
    split; [intros _; split; [reflexivity | eexists; reflexivity] | discriminate].
  - split; [reflexivity |]. split; [split; reflexivity |].
    split; [intros H; contradiction H; reflexivity | reflexivity].
  - split; [reflexivity |]. split; [split; discriminate |].
    split; [intros _; split; [reflexivity | eexists; reflexivity] | discriminate].
Qed.

End SignIn.

(** ** [ProtectedRoute] for any client *)

Lemma run_snoc (events : list App.ProtectedRoute.event) (ev : App.ProtectedRoute.event) :
  App.ProtectedRoute.run (events ++ [ev])
  = App.ProtectedRoute.step (App.ProtectedRoute.run events) ev.
Proof.
  unfold App.ProtectedRoute.run. now rewrite fold_left_app.
Qed.

Lemma run_loading (events : list App.ProtectedRoute.event) :
  App.ProtectedRoute.loading (App.ProtectedRoute.run events)
  = negb (existsb isResolution events).
Proof.
  induction events as [| ev events IH] using rev_ind; [reflexivity |].
  rewrite run_snoc, existsb_app. simpl existsb. rewrite orb_false_r.
  destruct ev; simpl.
  - now rewrite orb_true_r.
  - now rewrite IH, orb_false_r.
Qed.

Lemma run_session (events : list App.ProtectedRoute.event) :
  App.ProtectedRoute.session (App.ProtectedRoute.run events)
  = eventSession (last events (App.ProtectedRoute.AuthStateChange JNull)).
Proof.
  induction events as [| ev events IH] using rev_ind; [reflexivity |].
  rewrite run_snoc, last_last. destruct ev; reflexivity.
Qed.

(** X27. For any client and any sequence of callbacks,
    [ProtectedRoute] shows the spinner exactly as long as
    [getSession] has not settled, and never again afterwards.  It
    shows its children only when the session delivered last is truthy,
    and once [getSession] has settled a sign-out (a null session)
    redirects to [/login] while a new session shows the children. *)
Theorem protectedRoute_invariants (events : list App.ProtectedRoute.event) (s : jsval) :
  (App.ProtectedRoute.render (App.ProtectedRoute.run events)
   = App.ProtectedRoute.Spinner
   <-> existsb isResolution events = false)
  /\ (App.ProtectedRoute.render (App.ProtectedRoute.run events)
      = App.ProtectedRoute.Children ->
      existsb isResolution events = true
      /\ truthy (eventSession (last events (App.ProtectedRoute.AuthStateChange JNull)))
         = true)
  /\ (existsb isResolution events = true ->
      App.ProtectedRoute.render
        (App.ProtectedRoute.run (events ++ [App.ProtectedRoute.AuthStateChange s]))
      = if truthy s then App.ProtectedRoute.Children
        else App.ProtectedRoute.NavigateTo "/login")
  /\ App.ProtectedRoute.render
       (App.ProtectedRoute.run (events ++ [App.ProtectedRoute.SessionResolved s]))
     = (if truthy s then App.ProtectedRoute.Children
        else App.ProtectedRoute.NavigateTo "/login").
Proof.
  unfold App.ProtectedRoute.render.
  rewrite !run_snoc. cbn [App.ProtectedRoute.step App.ProtectedRoute.loading
                            App.ProtectedRoute.session].
  rewrite run_loading, run_session.
  destruct (existsb isResolution events); cbn [negb].
  - split; [split; [| discriminate] |].
    + destruct (truthy _); discriminate.
    + split; [| split; [intros _ |]]; try (destruct (truthy s); reflexivity).
      destruct (truthy _); [intros _; split; reflexivity | discriminate].
  - split; [split; reflexivity |].
    split; [discriminate |]. split; [discriminate |].
    destruct (truthy s); reflexivity.
Qed.

(** ** The legends and the threat feed *)

Section DonutLegend.
Context {host : Host}.

Lemma legend_entries_from (k : nat) (labels : list string) (data : list jsval) :
  let items :=
    map (fun '(index, label) =>
           {| legendColor := nth index LegacyDashboard.colors "undefined";
              legendText := label;
              legendValue :=
                numToFixed 0 (mul (toNumber (nth index data JUndefined)) (Num 100))
                ++ "%" |})
        (combine (seq k (List.length labels)) labels) in
  map legendText items = labels
  /\ map legendColor items
     = map (fun i => nth i LegacyDashboard.colors "undefined")
           (seq k (List.length labels)).
Proof.
  revert k. induction labels as [| label labels IH]; intros k; [split; reflexivity |].
  destruct (IH (S k)) as [H1 H2]. cbn zeta in *.
  cbn [List.length seq combine map legendText legendColor].
  now rewrite H1, H2.
Qed.

Lemma palette_beyond (m k : nat) :
  (5 <= k)%nat ->
  map (fun i => nth i LegacyDashboard.colors "undefined") (seq k m)
  = repeat "undefined" m.
Proof.
  revert k. induction m as [| m IH]; intros k Hk; [reflexivity |].
  cbn [seq map repeat]. rewrite IH by lia.
  now rewrite nth_overflow by (simpl; lia).
Qed.

Lemma palette_runs_out (n : nat) :
  map (fun i => nth i LegacyDashboard.colors "undefined") (seq 0 n)
  = (firstn n LegacyDashboard.colors ++ repeat "undefined" (n - 5))%list.
Proof.
  destruct (Nat.le_gt_cases n 5) as [Hle | Hgt].
  - do 6 (destruct n as [| n]; [reflexivity |]). lia.
  - replace n with (5 + (n - 5))%nat at 1 by lia.
    rewrite seq_app, map_app.
    rewrite firstn_all2 by (simpl; lia).
    f_equal. apply palette_beyond. lia.
Qed.

(** X28. When the value of every label converts to a number, the
    legend of the legacy donut chart has one entry per label, in the
    order of the labels: the first five entries take the five colours
    of the palette in order, every further entry has no colour and
    carries the text [undefined] instead.  When one value does not
    convert, no legend is computed.  A missing, null or empty
    breakdown is replaced by the default one; for any other breakdown
    the chart is updated with its keys and values, and then the legend
    is set or, when a value does not convert, the update throws. *)
Theorem donut_legend_entries (labels : list string) (data : list jsval)
  (threatBreakdown : jsval) :
  (forallb (fun i => coercible (nth i data JUndefined))
           (seq 0 (List.length labels)) = true ->
   exists items,
     LegacyDashboard.updateDonutLegend labels data = Normal items
     /\ List.length items = List.length labels
     /\ map legendText items = labels
     /\ map legendColor items
        = (firstn (List.length labels) LegacyDashboard.colors
           ++ repeat "undefined" (List.length labels - 5))%list)
  /\ (forallb (fun i => coercible (nth i data JUndefined))
              (seq 0 (List.length labels)) = false ->
      LegacyDashboard.updateDonutLegend labels data = Throw unconvertible)
  /\ (truthy threatBreakdown = false \/ keys threatBreakdown = [] ->
      LegacyDashboard.updateDonutChart threatBreakdown
      = LegacyDashboard.updateDonutChart LegacyDashboard.defaultThreatBreakdown)
  /\ (truthy threatBreakdown = true -> keys threatBreakdown <> [] ->
      (forallb coercible (values threatBreakdown) = true ->
       exists items,
         LegacyDashboard.updateDonutLegend (keys threatBreakdown)
           (values threatBreakdown) = Normal items
         /\ LegacyDashboard.updateDonutChart threatBreakdown
            = ([DonutUpdate (keys threatBreakdown) (values threatBreakdown);
                LegendSet items], Normal tt))
      /\ (forallb coercible (values threatBreakdown) = false ->
          LegacyDashboard.updateDonutChart threatBreakdown
          = ([DonutUpdate (keys threatBreakdown) (values threatBreakdown)],
             Throw unconvertible))).
Proof.
  destruct (legend_entries_from 0 labels data) as [Htext Hcolor]. cbn zeta in *.
  unfold LegacyDashboard.updateDonutLegend.
  split; [| split; [| split]].
  - intros Hall. rewrite legend_from, Hall. eexists. split; [reflexivity |].
    split; [now rewrite length_map, length_combine, length_seq, Nat.min_id |].
    split; [exact Htext |].
    rewrite Hcolor. apply palette_runs_out.
  - intros Hall. now rewrite legend_from, Hall.
  - unfold LegacyDashboard.updateDonutChart. intros [H | H].
    + now rewrite H.
    + rewrite H. cbn [List.length Nat.eqb]. now rewrite orb_true_r.
  - intros Ht Hk. unfold LegacyDashboard.updateDonutChart,
      LegacyDashboard.updateDonutLegend.
    rewrite Ht. cbn [negb orb].
    assert (Hlen : Nat.eqb (List.length (keys threatBreakdown)) 0 = false)
      by (destruct (keys threatBreakdown); [contradiction | reflexivity]).
    rewrite Hlen, legend_from, length_keys_values.
    pose proof (forallb_nth coercible JUndefined (values threatBreakdown) 0 []
                  eq_refl) as Hnth.
    cbn [app] in Hnth. rewrite Hnth.
    split; intros Hall; rewrite Hall; [| reflexivity].
    eexists. split; reflexivity.
Qed.

End DonutLegend.

Section ThreatFeed.
Context {host : Host}.

Lemma hasLogs_list (items : list jsval) :
  DashboardPage.hasLogs (JArr items)
  = Normal (match items with [] => false | _ :: _ => true end).
Proof.
  unfold DashboardPage.hasLogs, coerceNumber.
  cbn [lengthOf coercible bind toNumber].
  f_equal. change (Num 0) with (Num (inject_Z 0)).
  rewrite gt_round64_Z by (vm_compute; reflexivity).
  destruct items; [reflexivity |]. cbn [List.length].
  apply Z.ltb_lt. lia.
Qed.

Lemma feedCardOf_normal_iff (log : jsval) :
  (exists card, DashboardPage.feedCardOf log = Normal card)
  <-> nullish log = false /\ coercible (optField log "risk_score") = true.
Proof.
  unfold DashboardPage.feedCardOf, coerceNumber.
  destruct (nullish log) eqn:Hn.
  { destruct log; try discriminate Hn;
      (split; [intros [c H]; discriminate H | intros [H _]; discriminate H]). }
  rewrite (getField_optField log) by exact Hn. cbn [bind].
  destruct (coercible (optField log "risk_score")); cbn [bind].
  - split; [intros _; split; reflexivity | intros _; eexists; reflexivity].
  - split; [intros [c H]; discriminate H | intros [_ H]; discriminate H].
Qed.

Lemma feedCardOf_fields (log : jsval) (card : DashboardPage.feedCard) :
  DashboardPage.feedCardOf log = Normal card ->
  DashboardPage.alert card = strictEqStr (optField log "prediction") "Phishing"
  /\ DashboardPage.riskClass card
     = ResultCard.logRiskClassName (optField log "risk_score")
  /\ DashboardPage.feedUrl card = optField log "url"
  /\ DashboardPage.feedPrediction card = optField log "prediction"
  /\ DashboardPage.feedRisk card = optField log "risk_score".
Proof.
  intros H.
  assert (Hn : nullish log = false)
    by (apply (feedCardOf_normal_iff log); now exists card).
  unfold DashboardPage.feedCardOf, coerceNumber in H.
  rewrite (getField_optField log) in H by exact Hn. cbn [bind] in H.
  destruct (coercible (optField log "risk_score")); cbn [bind] in H;
    [| discriminate H].
  injection H as <-. repeat split.
Qed.

Lemma feedChildren_normal_iff (card : DashboardPage.feedCard) :
  (exists u, DashboardPage.feedChildren card = Normal u)
  <-> React.validChild (DashboardPage.feedUrl card) = true
      /\ React.validChild (DashboardPage.feedPrediction card) = true
      /\ React.validChild (DashboardPage.feedRisk card) = true.
Proof.
  unfold DashboardPage.feedChildren, React.child.
  destruct (React.validChild (DashboardPage.feedUrl card)); cbn [bind];
    [| split; [intros [u H]; discriminate H | intros (H & _); discriminate H]].
  destruct (React.validChild (DashboardPage.feedPrediction card)); cbn [bind];
    [| split; [intros [u H]; discriminate H | intros (_ & H & _); discriminate H]].
  destruct (React.validChild (DashboardPage.feedRisk card)); cbn [bind];
    [| split; [intros [u H]; discriminate H | intros (_ & _ & H); discriminate H]].
  split; [intros _; repeat split | intros _; eexists; reflexivity].
Qed.

Lemma Forall2_In_l {A B : Type} (R : A -> B -> Prop) (l : list A) (l' : list B) (x : A) :
  Forall2 R l l' -> In x l -> exists y, In y l' /\ R x y.
Proof.
  induction 1 as [| a b l l' Hab _ IH]; intros Hin; [contradiction |].
  destruct Hin as [-> | Hin].
  - exists b. split; [now left | exact Hab].
  - destruct (IH Hin) as (y & Hy & Hxy). exists y. split; [now right | exact Hxy].
Qed.

(** X29. The live threat feed shows the line that the network is clean
    for an empty list, and one card per log, in order, for a non-empty
    list of logs that are not null, whose risk scores convert to
    numbers and whose URLs, predictions and risk scores can be
    rendered; a card carries the alert icon exactly when the prediction
    of its log is the string [Phishing].  A single entry of the list
    that is null, or has a risk score that does not convert, or a URL,
    a prediction or a risk score that is an object, makes the render
    throw. *)
Theorem threatFeed_outcome (items : list jsval) :
  DashboardPage.threatFeed (JArr []) = Normal None
  /\ (items <> [] ->
      Forall (fun log => nullish log = false
                         /\ coercible (optField log "risk_score") = true
                         /\ React.validChild (optField log "url") = true
                         /\ React.validChild (optField log "prediction") = true
                         /\ React.validChild (optField log "risk_score") = true)
             items ->
      exists cards,
        DashboardPage.threatFeed (JArr items) = Normal (Some cards)
        /\ List.length cards = List.length items
        /\ Forall2 (fun log card =>
                      (DashboardPage.alert card = true
                       <-> optField log "prediction" = JStr "Phishing")
                      /\ DashboardPage.riskClass card
                         = ResultCard.logRiskClassName (optField log "risk_score"))
                   items cards)
  /\ (forall log,
        In log items ->
        nullish log = true
        \/ coercible (optField log "risk_score") = false
        \/ React.validChild (optField log "url") = false
        \/ React.validChild (optField log "prediction") = false
        \/ React.validChild (optField log "risk_score") = false ->
        exists e, DashboardPage.threatFeed (JArr items) = Throw e).
Proof.
  split; [unfold DashboardPage.threatFeed; now rewrite hasLogs_list |].
  unfold DashboardPage.threatFeed. rewrite hasLogs_list. cbn [bind].
  split.
  - intros Hne Hall. destruct items as [| log0 items0] eqn:Hi; [contradiction |].
    rewrite <- Hi in *. clear Hi Hne.
    destruct (mapM_total DashboardPage.feedCardOf items) as [cards Hcards].
    { eapply Forall_impl; [| exact Hall]. intros log (H1 & H2 & _).
      apply feedCardOf_normal_iff. now split. }
    rewrite Hcards. cbn [bind].
    pose proof (mapM_Forall2 _ _ _ Hcards) as H2.
    destruct (mapM_total DashboardPage.feedChildren cards) as [units Hunits].
    { apply Forall_forall. intros card Hcard.
      apply Forall2_flip in H2.
      destruct (Forall2_In_l _ _ _ _ H2 Hcard) as (log & Hlog & Hmade).
      rewrite Forall_forall in Hall.
      destruct (Hall log Hlog) as (_ & _ & Hu & Hp & Hr).
      destruct (feedCardOf_fields log card Hmade) as (_ & _ & Eu & Ep & Er).
      apply feedChildren_normal_iff. rewrite Eu, Ep, Er. repeat split; assumption. }
    rewrite Hunits. cbn [bind]. exists cards. split; [reflexivity |].
    split; [symmetry; eapply Forall2_length; exact H2 |].
    eapply Forall2_impl; [| exact H2].
    intros log card Hcard.
    destruct (feedCardOf_fields log card Hcard) as (Ea & Ec & _).
    split; [| exact Ec]. rewrite Ea. apply strictEqStr_iff.
  - intros log Hin Hbad.
    destruct items as [| log0 items0] eqn:Hi; [contradiction |].
    rewrite <- Hi in *. clear Hi.
    destruct (mapM DashboardPage.feedCardOf items) as [cards | e] eqn:Hcards;
      cbn [bind]; [| eexists; reflexivity].
    pose proof (mapM_Forall2 _ _ _ Hcards) as H2.
    destruct (Forall2_In_l _ _ _ _ H2 Hin) as (card & Hcard & Hmade).
    assert (Hok : nullish log = false /\ coercible (optField log "risk_score") = true)
      by (apply feedCardOf_normal_iff; now exists card).
    destruct (feedCardOf_fields log card Hmade) as (_ & _ & Eu & Ep & Er).
    destruct (mapM_throws DashboardPage.feedChildren cards card Hcard) as [e He].
    { destruct (DashboardPage.feedChildren card) as [u | e] eqn:E; [| now exists e].
      assert (Hvalid : React.validChild (DashboardPage.feedUrl card) = true
                       /\ React.validChild (DashboardPage.feedPrediction card) = true
                       /\ React.validChild (DashboardPage.feedRisk card) = true)
        by (apply feedChildren_normal_iff; now exists u).
      rewrite Eu, Ep, Er in Hvalid. destruct Hvalid as (V1 & V2 & V3).
      destruct Hok as [N C].
      destruct Hbad as [H | [H | [H | [H | H]]]]; congruence. }
    rewrite He. eexists. reflexivity.
Qed.

End ThreatFeed.
(** ** Instances of the properties that carry hypotheses *)

Lemma analyzeURL_notification_witness :
  trim "http://secure-login-update.com/verify" <> ""
  /\ notificationTypes
       (fst (@LegacyDashboard.analyzeURL Sample.host
               (Sample.answering (Pipeline.toJSON Sample.phishing))
               "http://secure-login-update.com/verify"))
     = ["critical"].
Proof.
  assert (H : trim "http://secure-login-update.com/verify" <> "") by discriminate.
  split; [exact H |].
  apply (proj1 (@analyzeURL_notification Sample.host
                  (Sample.answering (Pipeline.toJSON Sample.phishing))
                  "http://secure-login-update.com/verify" H)).
  eexists _, _. repeat split; reflexivity.
Defined.

Lemma loadRecentThreats_table_witness :
  Sample.answering (JObj Fixtures.threatsBody) recentThreatsRequest
  = Normal {| ok := true; json := Normal (JObj Fixtures.threatsBody) |}
  /\ exists rows,
       snd (@RecentThreats.loadRecentThreats Sample.host Fixtures.clock
              (Sample.answering (JObj Fixtures.threatsBody)))
       = Normal (Some (RecentThreats.Rows rows))
       /\ List.length rows = 2%nat.
Proof.
  split; [reflexivity |].
  destruct (proj1 (proj2
    (@loadRecentThreats_table Sample.host Fixtures.clock
       (Sample.answering (JObj Fixtures.threatsBody))
       {| ok := true; json := Normal (JObj Fixtures.threatsBody) |}
       Fixtures.threatsBody eq_refl eq_refl))
    Fixtures.threats eq_refl ltac:(discriminate)
    ltac:(repeat constructor)) as [rows [Hrows [_ Hlen]]].
  exists rows. split; [exact Hrows | exact Hlen].
Defined.

Lemma dashboard_handleAnalyze_requests_witness :
  Dashboard.url (Sample.dashboard "http://example.test") <> ""
  /\ Dashboard.isAnalyzing
       (fst (@Dashboard.handleAnalyze Sample.host Sample.refusing
               (Sample.dashboard "http://example.test"))) = false.
Proof.
  assert (H : Dashboard.url (Sample.dashboard "http://example.test") <> "")
    by discriminate.
  split; [exact H |].
  apply (@dashboard_handleAnalyze_requests Sample.host Sample.refusing
           (Sample.dashboard "http://example.test") H).
Defined.

Lemma dashboard_error_with_verdict_witness :
  snd (api.getStats Fixtures.statsDown) = Throw (Error "Failed to fetch stats")
  /\ truthy (Pipeline.toJSON Sample.phishing) = true
  /\ Dashboard.result
       (fst (@Dashboard.handleAnalyze Sample.host Fixtures.statsDown
               (Sample.dashboard "http://secure-login-update.com/verify")))
     = Pipeline.toJSON Sample.phishing
  /\ Dashboard.error
       (fst (@Dashboard.handleAnalyze Sample.host Fixtures.statsDown
               (Sample.dashboard "http://secure-login-update.com/verify")))
     = Some "Analysis failed. Please try again.".
Proof.
  split; [reflexivity |]. split; [reflexivity |].
  pose proof (@dashboard_error_with_verdict Sample.host Fixtures.statsDown
                (Sample.dashboard "http://secure-login-update.com/verify")
                (Pipeline.toJSON Sample.phishing) (Error "Failed to fetch stats")
                ltac:(discriminate) eq_refl eq_refl eq_refl) as H.
  split; apply H.
Defined.

(** The table of the two sample threats. *)
Example loadRecentThreats_sample :
  snd (@RecentThreats.loadRecentThreats Sample.host Fixtures.clock
         (Sample.answering (JObj Fixtures.threatsBody)))
  = Normal
      (Some (RecentThreats.Rows
         [ {| RecentThreats.time := "10:35 UTC";
              RecentThreats.domain := "paypal-secure-login.verify-account.xyz";
              RecentThreats.targetBrand := "PayPal";
              RecentThreats.threatType := "Brand Impersonation";
              RecentThreats.risk := "92/100";
              RecentThreats.severityClass := "severity-critical";
              RecentThreats.severity := "CRITICAL" |};
           {| RecentThreats.time := "10:35 UTC";
              RecentThreats.domain := "login.example.test";
              RecentThreats.targetBrand := "Unknown";
              RecentThreats.threatType := "Unknown";
              RecentThreats.risk := "51/100";
              RecentThreats.severityClass := "severity-high";
              RecentThreats.severity := "HIGH" |} ])).
Proof. vm_compute. reflexivity. Qed.

(** Saving and loading sample profile names. *)
Example profile_name_samples :
  DashboardPage.profileUpdate "Ada Lovelace King"
  = JObj [("data", JObj [("first_name", JStr "Ada");
                         ("last_name", JStr "Lovelace King")])]
  /\ @DashboardPage.loadedProfileName Sample.host (savedUser "Ada Lovelace King")
     = "Ada Lovelace King"
  /\ @DashboardPage.loadedProfileName Sample.host (savedUser "Ada") = "Ada "
  /\ @DashboardPage.loadedProfileName Sample.host (savedUser " Ada") = "Admin User"
  /\ DashboardPage.getInitials "ada@example.test" = "AD".
Proof. repeat split; reflexivity. Qed.

